(** * Warehouse service: the Kafka event-processing pipeline

    A shallow embedding of the event pipeline of the warehouse service
    (app/api/schemas.py, app/db/models.py, app/db/crud.py,
    app/services/warehouse.py, app/services/kafka_consumer.py) and the
    properties of it that its specification states.

    Conventions of the embedding:
    - Python [int] is [Z]; [str] is [string]; [bytes] is [list byte]; a
      finite [float] is a mantissa and a binary exponent, and the division
      of two [int]s rounds the exact quotient to the nearest double.
    - An [Integer] column holds four bytes: the flush of a stock quantity
      beyond it is refused.
    - A timezone-aware [datetime] is the instant it denotes, in microseconds
      since the epoch (UTC): comparison and subtraction of aware datetimes
      are comparison and subtraction of these instants.
    - A raised exception is a value of [Py.exn]; code that may raise returns
      a [Py.result]; code that also touches the database session or the
      cache runs in the monad [Tx.M].
    - The tables are finite maps keyed by their primary keys.
    - A JSON document is a value of [Json]; the models of pydantic are
      read off it field by field. The parsers the pipeline calls (json,
      datetime) and pydantic's coercion of a value of another type are
      fields of the class [PyLib]; the pipeline is defined for any
      instance. *)

From Stdlib Require Import ZArith QArith_base Qabs Strings.Byte Ascii.
From stdpp Require Import base strings gmap list.

Local Open Scope Z_scope.

(** ** Python exceptions and results *)

Module Py.

Inductive exn : Type :=
| UnicodeDecodeError
| JSONDecodeError
| ValidationError
| ValueError (msg : string)
| SQLAlchemyError
| RecursionError
| AttributeError
| OtherException.

Inductive result (A : Type) : Type :=
| Ok (a : A)
| Raise (e : exn).
Arguments Ok {A} a.
Arguments Raise {A} e.

(** [str.lower()] on the ASCII letters. The only strings the pipeline
    compares a lowered string with are "arrival" and "departure", and no
    non-ASCII character lowers to one of their letters. *)
Definition lower_ascii (c : ascii) : ascii :=
  let n := nat_of_ascii c in
  if (andb (Nat.leb 65 n) (Nat.leb n 90)) then ascii_of_nat (n + 32) else c.

Fixpoint lower (s : string) : string :=
  match s with
  | EmptyString => EmptyString
  | String c s' => String (lower_ascii c) (lower s')
  end.

(** [s.replace("Z", "+00:00")]. *)
Fixpoint replace_Z (s : string) : string :=
  match s with
  | EmptyString => EmptyString
  | String c s' =>
      if Ascii.eqb c "Z"%char then String.append "+00:00" (replace_Z s')
      else String c (replace_Z s')
  end.

End Py.
Export Py.

(** ** Python floats and true division *)

Module PyFloat.

(** A finite [float]: the number [mantissa * 2^exponent]. What
    [true_divide] returns has a mantissa of 53 bits, as a double has. *)
Record float : Type := mk_float {
  mantissa : Z;
  exponent : Z
}.

(** [2^e] for [e >= 0], and 1 otherwise. *)
Definition pw (e : Z) : Z := 2 ^ Z.max 0 e.

(** The value of a float as a fraction. *)
Definition value_num (f : float) : Z := mantissa f * pw (exponent f).
Definition value_den (f : float) : Z := pw (- exponent f).
Definition float_to_Q (f : float) : Q :=
  Qmake (value_num f) (Z.to_pos (value_den f)).

(** The integer nearest to [num / den], the even one on a tie. *)
Definition round_half_even (num den : Z) : Z :=
  let q := num / den in
  let r := num mod den in
  if (den <? 2 * r) || ((den =? 2 * r) && Z.odd q) then q + 1 else q.

(** [n / (b * 2^e)] as a fraction of integers. *)
Definition scaled (n b e : Z) : Z * Z :=
  (n * pw (- e), b * pw e).

(** The exponent [e] with [2^52 <= n / (b * 2^e) < 2^53]. *)
Definition binade (n b : Z) : Z :=
  let e0 := Z.log2 n - Z.log2 b - 53 in
  let '(num, den) := scaled n b e0 in
  if 2 ^ 53 * den <=? num then e0 + 1 else e0.

(** [a / b] on two [int]s, for [b > 0]: CPython rounds the exact quotient
    once, to the nearest double, ties to even. The quotients the pipeline
    forms, microseconds between two [datetime]s over [10**6], are far from
    the overflow and the subnormal range of a double, which are left
    out. *)
Definition true_divide (a b : Z) : float :=
  if a =? 0 then mk_float 0 0
  else
    let e := binade (Z.abs a) b in
    let '(num, den) := scaled (Z.abs a) b e in
    let m := round_half_even num den in
    if m =? 2 ^ 53 then mk_float (Z.sgn a * 2 ^ 52) (e + 1)
    else mk_float (Z.sgn a * m) e.

End PyFloat.
Export PyFloat.

(** ** app/db/models.py *)

Module Models.

Inductive EventType : Type := ARRIVAL | DEPARTURE.

#[global] Instance EventType_eq_dec : EqDecision EventType.
Proof. solve_decision. Defined.

(** The value of an enum member. *)
Definition EventType_value (e : EventType) : string :=
  match e with ARRIVAL => "arrival" | DEPARTURE => "departure" end.

(** [EventType(v)]: lookup by value, [ValueError] otherwise. *)
Definition EventType_of (v : string) : result EventType :=
  if String.eqb v "arrival" then Ok ARRIVAL
  else if String.eqb v "departure" then Ok DEPARTURE
  else Raise (ValueError "is not a valid EventType").

(** An aware datetime: microseconds since the epoch, UTC. *)
Definition instant : Type := Z.

(** What [datetime.fromisoformat] returns: the wall-clock fields as
    microseconds, and the UTC offset when the string carries one. *)
Record datetime : Type := mk_datetime {
  wall_us : Z;
  tzinfo : option Z
}.

(** [dt.replace(tzinfo=timezone.utc)]. *)
Definition replace_tzinfo_utc (dt : datetime) : datetime :=
  {| wall_us := wall_us dt; tzinfo := Some 0 |}.

(** The instant of an aware datetime (offset 0 is never used for a naive
    one: [_prepare_event_data] makes every datetime aware first). *)
Definition to_instant (dt : datetime) : instant :=
  wall_us dt - default 0 (tzinfo dt).

(** [timedelta.total_seconds()] of a difference of [us] microseconds: the
    microseconds, an [int], divided by [10**6]. *)
Definition total_seconds (us : Z) : float := true_divide us 1000000.

(** The range of an [Integer] column: PostgreSQL's four-byte [integer]. *)
Definition INTEGER_MIN : Z := -2147483648.
Definition INTEGER_MAX : Z := 2147483647.

Definition fits_integer (v : Z) : bool :=
  (INTEGER_MIN <=? v) && (v <=? INTEGER_MAX).

(** Table [movements]. [created_at] and [updated_at] are filled from the
    wall clock by column defaults and are left out. *)
Record Movement : Type := mk_Movement {
  mv_id : string;
  mv_product_id : string;
  source_warehouse_id : option string;
  departure_timestamp : option instant;
  departure_quantity : option Z;
  destination_warehouse_id : option string;
  arrival_timestamp : option instant;
  arrival_quantity : option Z;
  transfer_time : option float;
  quantity_difference : option Z
}.

(** Table [movement_events]. [processed_at] is a wall-clock default and
    is left out. *)
Record MovementEvent : Type := mk_MovementEvent {
  me_id : string;
  me_movement_id : string;
  me_warehouse_id : string;
  me_event_type : EventType;
  me_timestamp : instant;
  me_product_id : string;
  me_quantity : Z;
  me_message_id : string;
  me_message_source : string;
  me_message_time : instant
}.

(** The database: tables [products], [warehouses], [warehouse_stocks]
    (primary key (warehouse_id, product_id), column quantity),
    [movements] and [movement_events]. *)
Record DB : Type := mk_DB {
  products : gset string;
  warehouses : gset string;
  warehouse_stocks : gmap (string * string) Z;
  movements : gmap string Movement;
  movement_events : gmap string MovementEvent
}.

Definition empty_db : DB :=
  {| products := ∅; warehouses := ∅; warehouse_stocks := ∅;
     movements := ∅; movement_events := ∅ |}.

End Models.
Export Models.

(** ** app/api/schemas.py *)

Module Schemas.

(** [MovementEventData] *)
Record MovementEventData : Type := mk_MovementEventData {
  movement_id : string;
  warehouse_id : string;
  timestamp : string;
  event : string;
  product_id : string;
  quantity : Z
}.

(** [KafkaMessage] *)
Record KafkaMessage : Type := mk_KafkaMessage {
  km_id : string;
  km_source : string;
  km_specversion : string;
  km_type : string;
  km_datacontenttype : string;
  km_dataschema : string;
  km_time : Z;
  km_subject : string;
  km_destination : string;
  km_data : MovementEventData
}.



Set Warnings "-register-all".

(** What [json.loads] returns: [None], a [bool], an [int], a [float] (a
    finite one, or one of the constants NaN, Infinity and -Infinity), a
    [str], a [list] or a [dict]. A [dict] is kept as its items in the order
    of the document; of two items with one key the [dict] holds the later
    one. *)
Inductive Json : Type :=
| JNull
| JBool (b : bool)
| JInt (n : Z)
| JFloat (f : float)
| JConstant (name : string)
| JStr (s : string)
| JList (l : list Json)
| JDict (items : list (string * Json)).

(** [d.get(k)] on the [dict] of the items. *)
Fixpoint dict_get (k : string) (items : list (string * Json)) : option Json :=
  match items with
  | [] => None
  | (k', v) :: rest =>
      match dict_get k rest with
      | Some later => Some later
      | None => if String.eqb k k' then Some v else None
      end
  end.

(** The library calls the pipeline makes. *)
Class PyLib : Type := {
  (** [json.loads(value.decode("utf-8"))] *)
  json_loads : list byte -> result Json;
  (** pydantic's conversion to [str] of a value that is not a [str];
      [None] when it refuses the value *)
  lax_str : Json -> option string;
  (** pydantic's conversion to [int] of a value that is not an [int] (a
      [bool], a [float] without a fraction, a [str] of digits); [None] when
      it refuses the value *)
  lax_int : Json -> option Z;
  (** [datetime.fromisoformat(s)]; [None] is [ValueError] *)
  fromisoformat : string -> option datetime;
  (** [datetime.fromtimestamp(ms / 1000, tz=timezone.utc)]; [None] when it
      raises (value out of range) *)
  fromtimestamp_ms : Z -> option instant
}.

Section Validators.
Context `{PyLib}.

(** A field annotated [str]: required, and a [str] is taken as it is. *)
Definition str_field (k : string) (items : list (string * Json))
    : option string :=
  match dict_get k items with
  | Some (JStr s) => Some s
  | Some v => lax_str v
  | None => None
  end.

(** A field annotated [int]: required, and an [int] is taken as it is,
    whatever its sign. The annotation carries no constraint. *)
Definition int_field (k : string) (items : list (string * Json)) : option Z :=
  match dict_get k items with
  | Some (JInt n) => Some n
  | Some v => lax_int v
  | None => None
  end.

(** The fields of [MovementEventData], from a [dict]. Keys the model does
    not declare are ignored. *)
Definition data_fields (v : Json) : option MovementEventData :=
  match v with
  | JDict items =>
      m ← str_field "movement_id" items;
      w ← str_field "warehouse_id" items;
      ts ← str_field "timestamp" items;
      ev ← str_field "event" items;
      p ← str_field "product_id" items;
      q ← int_field "quantity" items;
      Some {| movement_id := m; warehouse_id := w; timestamp := ts;
              event := ev; product_id := p; quantity := q |}
  | _ => None
  end.

(** The fields of [KafkaMessage], from a [dict]. *)
Definition message_fields (items : list (string * Json)) : option KafkaMessage :=
  id ← str_field "id" items;
  source ← str_field "source" items;
  specversion ← str_field "specversion" items;
  type ← str_field "type" items;
  datacontenttype ← str_field "datacontenttype" items;
  dataschema ← str_field "dataschema" items;
  time ← int_field "time" items;
  subject ← str_field "subject" items;
  destination ← str_field "destination" items;
  data ← dict_get "data" items ≫= data_fields;
  Some {| km_id := id; km_source := source; km_specversion := specversion;
          km_type := type; km_datacontenttype := datacontenttype;
          km_dataschema := dataschema; km_time := time;
          km_subject := subject; km_destination := destination;
          km_data := data |}.

(** pydantic's check of field presence and field types, before the field
    validators of the model classes run. Anything but a [dict] is no
    model. *)
Definition pydantic_fields (raw_data : Json) : result KafkaMessage :=
  match raw_data with
  | JDict items =>
      match message_fields items with
      | Some m => Ok m
      | None => Raise ValidationError
      end
  | _ => Raise ValidationError
  end.

(** [MovementEventData.validate_timestamp_format] *)
Definition validate_timestamp_format (v : string) : result string :=
  match fromisoformat (replace_Z v) with
  | Some _ => Ok v
  | None => Raise (ValueError "Invalid timestamp format. Expected ISO 8601 format")
  end.

(** [MovementEventData.validate_event_type] *)
Definition allowed_events : list string :=
  [EventType_value ARRIVAL; EventType_value DEPARTURE].

Definition validate_event_type (v : string) : result string :=
  if bool_decide (lower v ∈ allowed_events) then Ok (lower v)
  else Raise (ValueError "Invalid event type. Must be one of").

(** [KafkaMessage.validate_time_positive] *)
Definition validate_time_positive (v : Z) : result Z :=
  if v <? 0 then Raise (ValueError "Timestamp 'time' must be a positive integer.")
  else Ok v.

(** The field validators of [MovementEventData], in field order. *)
Definition validate_data (d : MovementEventData) : result MovementEventData :=
  match validate_timestamp_format (timestamp d) with
  | Raise e => Raise e
  | Ok ts =>
      match validate_event_type (event d) with
      | Raise e => Raise e
      | Ok ev =>
          Ok {| movement_id := movement_id d; warehouse_id := warehouse_id d;
                timestamp := ts; event := ev;
                product_id := product_id d; quantity := quantity d |}
      end
  end.

(** [KafkaMessage.model_validate(raw_data)]: every failure of a field
    check or of a field validator surfaces as [ValidationError]. *)
Definition model_validate (raw_data : Json) : result KafkaMessage :=
  match pydantic_fields raw_data with
  | Raise e => Raise e
  | Ok m =>
      match validate_time_positive (km_time m), validate_data (km_data m) with
      | Ok t, Ok d =>
          Ok {| km_id := km_id m; km_source := km_source m;
                km_specversion := km_specversion m; km_type := km_type m;
                km_datacontenttype := km_datacontenttype m;
                km_dataschema := km_dataschema m; km_time := t;
                km_subject := km_subject m;
                km_destination := km_destination m; km_data := d |}
      | _, _ => Raise ValidationError
      end
  end.

End Validators.

End Schemas.
Export Schemas.


(** ** The database session and the cache, as effects *)

Module Tx.

(** What the pipeline does to the outside world, in the order it does it. *)
Inductive effect : Type :=
| CacheDelete (key : string)
| DbCommit
| DbRollback
| OffsetCommit (topic : string) (partition : Z) (offset : Z).

#[global] Instance effect_eq_dec : EqDecision effect.
Proof. solve_decision. Defined.

(** The round trips to the database inside one transaction. Any of them
    may fail with [SQLAlchemyError]; which one does, if any, is an input
    of the run. *)
Inductive db_step : Type :=
| QueryProcessed
| ProductGetOrCreate
| WarehouseGetOrCreate
| StockUpdate
| MovementUpsert
| EventInsert
| SessionCommit.

#[global] Instance db_step_eq_dec : EqDecision db_step.
Proof. solve_decision. Defined.

(** [committed]: the database as other transactions see it.
    [session]: the database as the open session sees it (its own pending
    writes included). [log]: the effects so far, oldest first. *)
Record world : Type := mk_world {
  committed : DB;
  session : DB;
  log : list effect
}.

Definition M (A : Type) : Type := world -> result A * world.

Definition ret {A} (a : A) : M A := fun w => (Ok a, w).

Definition bind {A B} (c : M A) (k : A -> M B) : M B :=
  fun w =>
    match c w with
    | (Ok a, w') => k a w'
    | (Raise e, w') => (Raise e, w')
    end.

(** A repository call: one round trip [step] that fails when the run says
    so, and otherwise reads and writes the session. *)
Definition db_call {A} (fault : option db_step) (step : db_step)
    (f : DB -> result (A * DB)) : M A :=
  fun w =>
    if decide (fault = Some step) then (Raise SQLAlchemyError, w)
    else
      match f (session w) with
      | Ok (a, db') =>
          (Ok a, {| committed := committed w; session := db'; log := log w |})
      | Raise e => (Raise e, w)
      end.

Definition emit (e : effect) : M unit :=
  fun w =>
    (Ok tt, {| committed := committed w; session := session w;
               log := log w ++ [e] |}).

Definition with_session (db : DB) (w : world) : world :=
  {| committed := committed w; session := db; log := log w |}.

(** [AsyncSessionLocal()]: a fresh session sees the committed database. *)
Definition open_session (w : world) : world :=
  {| committed := committed w; session := committed w; log := log w |}.

(** [session.commit()] *)
Definition session_commit (fault : option db_step) : M unit :=
  fun w =>
    if decide (fault = Some SessionCommit) then (Raise SQLAlchemyError, w)
    else
      (Ok tt, {| committed := session w; session := session w;
                 log := log w ++ [DbCommit] |}).

(** [session.rollback()] *)
Definition session_rollback (w : world) : world :=
  {| committed := committed w; session := committed w;
     log := log w ++ [DbRollback] |}.

(** Leaving [async with AsyncSessionLocal() as session]: what was not
    committed is dropped. *)
Definition close_session (w : world) : world :=
  {| committed := committed w; session := committed w; log := log w |}.

End Tx.
Export Tx.

Notation "'let!' x ':=' c 'in' k" := (Tx.bind c (fun x => k))
  (at level 10, x name, c at level 100, k at level 200).
Notation "'do!' c 'in' k" := (Tx.bind c (fun _ => k))
  (at level 10, c at level 100, k at level 200).

(** ** app/db/crud.py *)

Module Crud.

(** The dictionary [_prepare_event_data] builds and the service and the
    repositories read. *)
Record EventData : Type := mk_EventData {
  ev_message_id : string;
  ev_message_source : string;
  ev_message_time : instant;
  ev_movement_id : string;
  ev_warehouse_id : string;
  ev_timestamp : instant;
  ev_event_type : EventType;
  ev_product_id : string;
  ev_quantity : Z
}.

Definition set_products (s : gset string) (db : DB) : DB :=
  {| products := s; warehouses := warehouses db;
     warehouse_stocks := warehouse_stocks db; movements := movements db;
     movement_events := movement_events db |}.

Definition set_warehouses (s : gset string) (db : DB) : DB :=
  {| products := products db; warehouses := s;
     warehouse_stocks := warehouse_stocks db; movements := movements db;
     movement_events := movement_events db |}.

Definition set_warehouse_stocks (t : gmap (string * string) Z) (db : DB) : DB :=
  {| products := products db; warehouses := warehouses db;
     warehouse_stocks := t; movements := movements db;
     movement_events := movement_events db |}.

Definition set_movements (t : gmap string Movement) (db : DB) : DB :=
  {| products := products db; warehouses := warehouses db;
     warehouse_stocks := warehouse_stocks db; movements := t;
     movement_events := movement_events db |}.

Definition set_movement_events (t : gmap string MovementEvent) (db : DB) : DB :=
  {| products := products db; warehouses := warehouses db;
     warehouse_stocks := warehouse_stocks db; movements := movements db;
     movement_events := t |}.

(** [ProductRepository.get_or_create] *)
Definition product_get_or_create (product_id : string) (db : DB)
    : result (string * DB) :=
  if decide (product_id ∈ products db) then Ok (product_id, db)
  else Ok (product_id, set_products ({[product_id]} ∪ products db) db).

(** [WarehouseRepository.get_or_create] *)
Definition warehouse_get_or_create (warehouse_id : string) (db : DB)
    : result (string * DB) :=
  if decide (warehouse_id ∈ warehouses db) then Ok (warehouse_id, db)
  else Ok (warehouse_id, set_warehouses ({[warehouse_id]} ∪ warehouses db) db).

(** [WarehouseStockRepository.get_stock] *)
Definition get_stock (warehouse_id product_id : string) (db : DB) : option Z :=
  warehouse_stocks db !! (warehouse_id, product_id).

Definition msg_below_zero : string :=
  "Operation failed: Cannot reduce stock below zero".
Definition msg_negative_init : string :=
  "Operation failed: Cannot initialize stock with negative quantity".

(** [session.flush()] after the quantity of the stock row of the pair was
    set: the database refuses a quantity that does not fit the [Integer]
    column ([DBAPIError], a [SQLAlchemyError]) and otherwise the row is
    written. *)
Definition flush_stock (warehouse_id product_id : string) (quantity : Z)
    (db : DB) : result (Z * DB) :=
  if fits_integer quantity then
    Ok (quantity,
        set_warehouse_stocks
          (<[(warehouse_id, product_id) := quantity]> (warehouse_stocks db)) db)
  else Raise SQLAlchemyError.

(** [WarehouseStockRepository.create_or_update_stock]; returns the quantity
    of the row it wrote. [if stock:] tests the row for [None]: a mapped
    object is truthy. *)
Definition create_or_update_stock (warehouse_id product_id : string)
    (quantity_delta : Z) (db : DB) : result (Z * DB) :=
  match get_stock warehouse_id product_id db with
  | Some stock_quantity =>
      let new_quantity := stock_quantity + quantity_delta in
      if new_quantity <? 0 then Raise (ValueError msg_below_zero)
      else flush_stock warehouse_id product_id new_quantity db
  | None =>
      if quantity_delta <? 0 then Raise (ValueError msg_negative_init)
      else flush_stock warehouse_id product_id quantity_delta db
  end.

(** [Movement(id=movement_id, product_id=product_id)] *)
Definition new_Movement (movement_id product_id : string) : Movement :=
  {| mv_id := movement_id; mv_product_id := product_id;
     source_warehouse_id := None; departure_timestamp := None;
     departure_quantity := None; destination_warehouse_id := None;
     arrival_timestamp := None; arrival_quantity := None;
     transfer_time := None; quantity_difference := None |}.

Definition set_departure (w : string) (t : instant) (q : Z) (m : Movement)
    : Movement :=
  {| mv_id := mv_id m; mv_product_id := mv_product_id m;
     source_warehouse_id := Some w; departure_timestamp := Some t;
     departure_quantity := Some q;
     destination_warehouse_id := destination_warehouse_id m;
     arrival_timestamp := arrival_timestamp m;
     arrival_quantity := arrival_quantity m;
     transfer_time := transfer_time m;
     quantity_difference := quantity_difference m |}.

Definition set_arrival (w : string) (t : instant) (q : Z) (m : Movement)
    : Movement :=
  {| mv_id := mv_id m; mv_product_id := mv_product_id m;
     source_warehouse_id := source_warehouse_id m;
     departure_timestamp := departure_timestamp m;
     departure_quantity := departure_quantity m;
     destination_warehouse_id := Some w; arrival_timestamp := Some t;
     arrival_quantity := Some q;
     transfer_time := transfer_time m;
     quantity_difference := quantity_difference m |}.

Definition set_transfer_time (v : option float) (m : Movement) : Movement :=
  {| mv_id := mv_id m; mv_product_id := mv_product_id m;
     source_warehouse_id := source_warehouse_id m;
     departure_timestamp := departure_timestamp m;
     departure_quantity := departure_quantity m;
     destination_warehouse_id := destination_warehouse_id m;
     arrival_timestamp := arrival_timestamp m;
     arrival_quantity := arrival_quantity m;
     transfer_time := v;
     quantity_difference := quantity_difference m |}.

Definition set_quantity_difference (v : option Z) (m : Movement) : Movement :=
  {| mv_id := mv_id m; mv_product_id := mv_product_id m;
     source_warehouse_id := source_warehouse_id m;
     departure_timestamp := departure_timestamp m;
     departure_quantity := departure_quantity m;
     destination_warehouse_id := destination_warehouse_id m;
     arrival_timestamp := arrival_timestamp m;
     arrival_quantity := arrival_quantity m;
     transfer_time := transfer_time m;
     quantity_difference := v |}.

(** The first half of [MovementRepository.create_or_update]: the fields of
    the half the event carries. [EventType] has two members, so the
    source's final [else: raise ValueError] is never taken. *)
Definition apply_half (event_data : EventData) (movement : Movement) : Movement :=
  match ev_event_type event_data with
  | DEPARTURE =>
      set_departure (ev_warehouse_id event_data) (ev_timestamp event_data)
        (ev_quantity event_data) movement
  | ARRIVAL =>
      set_arrival (ev_warehouse_id event_data) (ev_timestamp event_data)
        (ev_quantity event_data) movement
  end.

(** The second half: the derived fields, once both timestamps are there
    (a [datetime] is truthy, so the source's test is a test for [None]). *)
Definition derive (movement : Movement) : Movement :=
  match departure_timestamp movement, arrival_timestamp movement with
  | Some dep, Some arr =>
      let movement :=
        if arr >=? dep then
          set_transfer_time (Some (total_seconds (arr - dep))) movement
        else set_transfer_time None movement in
      match departure_quantity movement, arrival_quantity movement with
      | Some dq, Some aq => set_quantity_difference (Some (aq - dq)) movement
      | _, _ => set_quantity_difference None movement
      end
  | _, _ => movement
  end.

(** [MovementRepository.create_or_update] *)
Definition create_or_update (event_data : EventData) (db : DB)
    : result (Movement * DB) :=
  let movement :=
    match movements db !! ev_movement_id event_data with
    | Some m => m
    | None => new_Movement (ev_movement_id event_data) (ev_product_id event_data)
    end in
  let movement := derive (apply_half event_data movement) in
  Ok (movement,
      set_movements (<[ev_movement_id event_data := movement]> (movements db)) db).

(** [MovementEventRepository.create]: the flush fails on a duplicate
    primary key. *)
Definition event_create (event_data : EventData) (db : DB)
    : result (MovementEvent * DB) :=
  let event :=
    {| me_id := ev_message_id event_data;
       me_movement_id := ev_movement_id event_data;
       me_warehouse_id := ev_warehouse_id event_data;
       me_event_type := ev_event_type event_data;
       me_timestamp := ev_timestamp event_data;
       me_product_id := ev_product_id event_data;
       me_quantity := ev_quantity event_data;
       me_message_id := ev_message_id event_data;
       me_message_source := ev_message_source event_data;
       me_message_time := ev_message_time event_data |} in
  match movement_events db !! ev_message_id event_data with
  | Some _ => Raise SQLAlchemyError
  | None =>
      Ok (event,
          set_movement_events
            (<[ev_message_id event_data := event]> (movement_events db)) db)
  end.

(** [MovementEventRepository.is_event_processed] *)
Definition is_event_processed (message_id : string) (db : DB)
    : result (bool * DB) :=
  Ok (bool_decide (is_Some (movement_events db !! message_id)), db).

End Crud.
Export Crud.

(** ** app/services/warehouse.py *)

Module Warehouse.

Definition stock_cache_key (warehouse_id product_id : string) : string :=
  "stock:" +:+ warehouse_id +:+ ":" +:+ product_id.

Definition movement_cache_key (movement_id : string) : string :=
  "movement:" +:+ movement_id.

(** [WarehouseService._invalidate_cache]. [CacheManager.delete] catches
    whatever the cache client raises, so neither call can fail the caller. *)
Definition _invalidate_cache (warehouse_id product_id movement_id : string)
    : M unit :=
  do! emit (CacheDelete (stock_cache_key warehouse_id product_id)) in
  emit (CacheDelete (movement_cache_key movement_id)).

(** The signed quantity of step 3. *)
Definition quantity_delta (event_data : EventData) : Z :=
  if decide (ev_event_type event_data = ARRIVAL) then ev_quantity event_data
  else - ev_quantity event_data.

(** [WarehouseService.process_movement_event]. Its [except] clauses log
    and re-raise, so they are the identity here. [fault] is the round trip
    of this run that fails, if any. *)
Definition process_movement_event (fault : option db_step)
    (event_data : EventData) : M bool :=
  let message_id := ev_message_id event_data in
  let movement_id := ev_movement_id event_data in
  let warehouse_id := ev_warehouse_id event_data in
  let product_id := ev_product_id event_data in
  let! processed :=
    db_call fault QueryProcessed (is_event_processed message_id) in
  if (processed : bool) then ret false
  else
    let! product :=
      db_call fault ProductGetOrCreate (product_get_or_create product_id) in
    let! warehouse :=
      db_call fault WarehouseGetOrCreate (warehouse_get_or_create warehouse_id) in
    let! stock :=
      db_call fault StockUpdate
        (create_or_update_stock warehouse_id product_id
           (quantity_delta event_data)) in
    let! movement :=
      db_call fault MovementUpsert (create_or_update event_data) in
    let! logged := db_call fault EventInsert (event_create event_data) in
    do! _invalidate_cache warehouse_id product_id movement_id in
    ret true.

End Warehouse.
Export Warehouse.

(** ** app/services/kafka_consumer.py *)

Module KafkaConsumer.

(** An aiokafka [ConsumerRecord]. *)
Record ConsumerRecord : Type := mk_ConsumerRecord {
  topic : string;
  partition : Z;
  offset : Z;
  key : option (list byte);
  value : option (list byte)
}.

(** One delivery of a record to this consumer: the record, and the
    database round trip that fails while it is processed, if any. *)
Record delivery : Type := mk_delivery {
  record : ConsumerRecord;
  db_fault : option db_step
}.

Definition TopicPartition : Type := (string * Z)%type.

Section Consumer.
Context `{PyLib}.

(** [KafkaConsumerService._prepare_event_data]: [None] on a timestamp
    that does not parse and on any other exception. *)
Definition _prepare_event_data (kafka_message : KafkaMessage)
    : option EventData :=
  let event_data := km_data kafka_message in
  match fromtimestamp_ms (km_time kafka_message) with
  | None => None
  | Some message_time =>
      match EventType_of (event event_data) with
      | Raise _ => None
      | Ok event_type =>
          match fromisoformat (replace_Z (timestamp event_data)) with
          | None => None
          | Some ts =>
              let ts :=
                match tzinfo ts with
                | None => replace_tzinfo_utc ts
                | Some _ => ts
                end in
              Some {| ev_message_id := km_id kafka_message;
                      ev_message_source := km_source kafka_message;
                      ev_message_time := message_time;
                      ev_movement_id := movement_id event_data;
                      ev_warehouse_id := warehouse_id event_data;
                      ev_timestamp := to_instant ts;
                      ev_event_type := event_type;
                      ev_product_id := product_id event_data;
                      ev_quantity := quantity event_data |}
          end
      end
  end.

(** Step 4 of [_process_message_wrapper]: the event in a fresh session. *)
Definition run_in_session (fault : option db_step) (processed_data : EventData)
    (w : world) : bool * world :=
  match process_movement_event fault processed_data (open_session w) with
  | (Ok true, w1) =>
      match session_commit fault w1 with
      | (Ok _, w2) => (true, close_session w2)
      | (Raise _, w2) => (false, close_session (session_rollback w2))
      end
  | (Ok false, w1) => (true, close_session w1)
  | (Raise _, w1) => (false, close_session (session_rollback w1))
  end.

(** Step 1 of [_process_message_wrapper]:
    [json.loads(message.value.decode("utf-8"))]. A record without a value
    (a tombstone) has [None] there, which has no [decode]. *)
Definition decode (message : ConsumerRecord) : result Json :=
  match value message with
  | None => Raise AttributeError
  | Some bytes => json_loads bytes
  end.

(** Steps 1 to 3 of [_process_message_wrapper]. [inl b]: the wrapper
    returns [b] before it opens a session. Each step has its own [except]
    clause, which returns [True]; whatever else is raised reaches the outer
    [except Exception], which returns [False]. *)
Definition normalize (message : ConsumerRecord) : bool + EventData :=
  match decode message with
  | Raise UnicodeDecodeError | Raise JSONDecodeError => inl true
  | Raise _ => inl false
  | Ok raw_data =>
      match model_validate raw_data with
      | Raise ValidationError => inl true
      | Raise _ => inl false
      | Ok kafka_message =>
          match _prepare_event_data kafka_message with
          | None => inl true
          | Some processed_data => inr processed_data
          end
      end
  end.

(** [KafkaConsumerService._process_message_wrapper] *)
Definition _process_message_wrapper (message : delivery) (w : world)
    : bool * world :=
  match normalize (record message) with
  | inl b => (b, w)
  | inr processed_data => run_in_session (db_fault message) processed_data w
  end.

(** The [for message in messages] loop of [_consume_messages], with the
    running [last_processed_offset]. *)
Fixpoint for_messages (messages : list delivery) (last_processed_offset : Z)
    (w : world) : Z * world :=
  match messages with
  | [] => (last_processed_offset, w)
  | message :: rest =>
      let (success, w') := _process_message_wrapper message w in
      for_messages rest
        (if success then offset (record message) else last_processed_offset)
        w'
  end.

(** The body of [for tp, messages in result.items()]. The call
    [consumer.commit] is taken to go through; the source logs and drops
    whatever it raises. *)
Definition process_partition (tp : TopicPartition) (messages : list delivery)
    (w : world) : world :=
  let (last_processed_offset, w') := for_messages messages (-1) w in
  if last_processed_offset >=? 0 then
    let offset_to_commit := last_processed_offset + 1 in
    {| committed := committed w'; session := session w';
       log := log w' ++ [OffsetCommit (fst tp) (snd tp) offset_to_commit] |}
  else w'.

(** One pass of the [while self._running] loop over what [getmany]
    returned. *)
Definition consume_result (result : list (TopicPartition * list delivery))
    (w : world) : world :=
  foldl (fun w '(tp, messages) => process_partition tp messages w) w result.

(** [_consume_messages] over the results of successive polls. *)
Definition _consume_messages
    (polls : list (list (TopicPartition * list delivery))) (w : world) : world :=
  foldl (fun w result => consume_result result w) w polls.

End Consumer.

Definition initial_world : world :=
  {| committed := empty_db; session := empty_db; log := [] |}.

End KafkaConsumer.
Export KafkaConsumer.

(** ** app/api/schemas.py: the response models *)

Module Responses.

(** [WarehouseStockResponse] *)
Record WarehouseStockResponse : Type := mk_WarehouseStockResponse {
  sr_warehouse_id : string;
  sr_product_id : string;
  sr_quantity : Z
}.

(** [MovementDetailResponse] *)
Record MovementDetailResponse : Type := mk_MovementDetailResponse {
  md_id : string;
  md_product_id : string;
  md_source_warehouse_id : option string;
  md_destination_warehouse_id : option string;
  md_departure_timestamp : option instant;
  md_arrival_timestamp : option instant;
  md_departure_quantity : option Z;
  md_arrival_quantity : option Z;
  md_transfer_time : option float;
  md_quantity_difference : option Z;
  md_is_complete : bool
}.

(** [MovementDetailResponse.from_db_model] *)
Definition from_db_model (db_model : Movement) : MovementDetailResponse :=
  {| md_id := mv_id db_model;
     md_product_id := mv_product_id db_model;
     md_source_warehouse_id := source_warehouse_id db_model;
     md_destination_warehouse_id := destination_warehouse_id db_model;
     md_departure_timestamp := departure_timestamp db_model;
     md_arrival_timestamp := arrival_timestamp db_model;
     md_departure_quantity := departure_quantity db_model;
     md_arrival_quantity := arrival_quantity db_model;
     md_transfer_time := transfer_time db_model;
     md_quantity_difference := quantity_difference db_model;
     md_is_complete :=
       match departure_timestamp db_model, arrival_timestamp db_model with
       | Some _, Some _ => true
       | _, _ => false
       end |}.

End Responses.
Export Responses.

(** ** app/cache/manager.py *)

Module CacheManager.

(** What the Redis server holds under a key: the text it was given and
    the expiry in seconds it was given with. Expiry itself is a matter of
    the clock and is not part of the embedding. *)
Record entry : Type := mk_entry {
  text : string;
  ex : Z
}.

(** A [CacheManager]: [redis_client] is [None] until [connect] succeeds
    and after [close]. *)
Record t : Type := mk {
  redis_client : option (gmap string entry);
  ttl : Z
}.

(** The [json] calls of the cache and the [pydantic] calls of the routes
    on what the cache returns. *)
Class PyJson : Type := {
  (** a Python value: what [model_dump] and [json.loads] return *)
  Doc : Type;
  (** [json.dumps(value, default=serialize_datetime)]; [None] when it
      raises *)
  json_dumps : Doc -> option string;
  (** [json.loads(data)]; [None] is [JSONDecodeError] *)
  json_loads_text : string -> option Doc;
  (** [bool(value)] *)
  truthy : Doc -> bool;
  (** [response.model_dump()] *)
  stock_model_dump : WarehouseStockResponse -> Doc;
  movement_model_dump : MovementDetailResponse -> Doc;
  (** [Response.model_validate(cached_data)]; [None] when it raises *)
  stock_model_validate : Doc -> option WarehouseStockResponse;
  movement_model_validate : Doc -> option MovementDetailResponse
}.

Definition with_store (store : gmap string entry) (m : t) : t :=
  {| redis_client := Some store; ttl := ttl m |}.

Section Methods.
Context `{PyJson}.

(** [CacheManager.get]. [raises]: the call to the Redis client raises.
    Every exception ends in [None]. *)
Definition get (raises : bool) (m : t) (key : string) : option Doc :=
  match redis_client m with
  | None => None
  | Some store =>
      if raises then None
      else
        match store !! key with
        | Some data =>
            if String.eqb (text data) "" then None
            else json_loads_text (text data)
        | None => None
        end
  end.

(** [CacheManager.set]. An exception of [json.dumps] or of the client is
    logged and the cache stays as it is. *)
Definition set (raises : bool) (m : t) (key : string) (value : Doc)
    (ttl_arg : option Z) : t :=
  match redis_client m with
  | None => m
  | Some store =>
      match json_dumps value with
      | None => m
      | Some data =>
          if raises then m
          else
            with_store
              (<[key := {| text := data; ex := default (ttl m) ttl_arg |}]> store)
              m
      end
  end.

(** [CacheManager.delete] *)
Definition delete (raises : bool) (m : t) (key : string) : t :=
  match redis_client m with
  | None => m
  | Some store =>
      if raises then m else with_store (base.delete key store) m
  end.

End Methods.

End CacheManager.

(** ** app/api/routes.py *)

Module Routes.

Import CacheManager.

(** What a route hands back: the body of a 200 response, or the
    [HTTPException] it raises. *)
Inductive http (A : Type) : Type :=
| Ok200 (body : A)
| NotFound404 (detail : string)
| ServerError500 (detail : string).
Arguments Ok200 {A} body.
Arguments NotFound404 {A} detail.
Arguments ServerError500 {A} detail.

(** What goes wrong during one request, if anything: the database query
    raises, the Redis client raises on the read, or on the write. *)
Record io : Type := mk_io {
  db_raises : bool;
  cache_get_raises : bool;
  cache_set_raises : bool
}.

Definition no_faults : io :=
  {| db_raises := false; cache_get_raises := false; cache_set_raises := false |}.

(** [MovementRepository.get_by_id] *)
Definition get_by_id (movement_id : string) (db : DB) : option Movement :=
  movements db !! movement_id.

(** [WarehouseStockResponse.model_validate(stock)] on a mapped row. *)
Definition stock_response (warehouse_id product_id : string) (quantity : Z)
    : WarehouseStockResponse :=
  {| sr_warehouse_id := warehouse_id; sr_product_id := product_id;
     sr_quantity := quantity |}.

Section Handlers.
Context `{PyJson}.

(** Step 1 of [get_warehouse_product_stock]: the response the cache
    yields, if it yields one. A falsy value is a miss; an exception of
    [model_validate] is logged and the handler goes on to the database. *)
Definition cached_stock (faults : io) (cache_manager : t) (cache_key : string)
    : option WarehouseStockResponse :=
  match get (cache_get_raises faults) cache_manager cache_key with
  | Some cached_data =>
      if truthy cached_data then stock_model_validate cached_data else None
  | None => None
  end.

(** [get_warehouse_product_stock]; returns the response and the cache
    manager as the request leaves it. [db] is the committed database. *)
Definition get_warehouse_product_stock (warehouse_id product_id : string)
    (faults : io) (db : DB) (cache_manager : t)
    : http WarehouseStockResponse * t :=
  let cache_key := "stock:" +:+ warehouse_id +:+ ":" +:+ product_id in
  match cached_stock faults cache_manager cache_key with
  | Some response => (Ok200 response, cache_manager)
  | None =>
      if db_raises faults then
        (ServerError500
           "An unexpected error occurred while retrieving stock information.",
         cache_manager)
      else
        match get_stock warehouse_id product_id db with
        | None =>
            (NotFound404
               ("Stock not found for warehouse " +:+ warehouse_id
                +:+ " and product " +:+ product_id),
             cache_manager)
        | Some stock_quantity =>
            let response :=
              stock_response warehouse_id product_id stock_quantity in
            (Ok200 response,
             set (cache_set_raises faults) cache_manager cache_key
               (stock_model_dump response) None)
        end
  end.

(** Step 1 of [get_movement]. *)
Definition cached_movement (faults : io) (cache_manager : t) (cache_key : string)
    : option MovementDetailResponse :=
  match get (cache_get_raises faults) cache_manager cache_key with
  | Some cached_data =>
      if truthy cached_data then movement_model_validate cached_data else None
  | None => None
  end.

(** [get_movement] *)
Definition get_movement (movement_id : string) (faults : io) (db : DB)
    (cache_manager : t) : http MovementDetailResponse * t :=
  let cache_key := "movement:" +:+ movement_id in
  match cached_movement faults cache_manager cache_key with
  | Some response => (Ok200 response, cache_manager)
  | None =>
      if db_raises faults then
        (ServerError500
           "An unexpected error occurred while retrieving movement information.",
         cache_manager)
      else
        match get_by_id movement_id db with
        | None =>
            (NotFound404 ("Movement with ID " +:+ movement_id +:+ " not found"),
             cache_manager)
        | Some movement =>
            let response := from_db_model movement in
            (Ok200 response,
             set (cache_set_raises faults) cache_manager cache_key
               (movement_model_dump response) None)
        end
  end.

(** The cache deletions of the event pipeline, carried out on the cache
    manager the routes use (the process has one). *)
Definition apply_effect (e : effect) (cache_manager : t) : t :=
  match e with
  | CacheDelete key => delete false cache_manager key
  | _ => cache_manager
  end.

Definition replay (effects : list effect) (cache_manager : t) : t :=
  foldl (fun m e => apply_effect e m) cache_manager effects.

End Handlers.

End Routes.
Export Routes.

(** ** A small library instance and sample records

    Worked examples need one concrete [PyLib]. This one knows a handful of
    documents by name: a payload that starts with an opening brace is a JSON
    document, the payloads of [documents] read as the documents of these
    messages, and three timestamps parse. *)

Module Samples.

Definition T0 : Z := 1739889296000000.

Definition sample_fromisoformat (s : string) : option datetime :=
  if String.eqb s "2025-02-18T14:34:56+00:00" then
    Some {| wall_us := T0; tzinfo := Some 0 |}
  else if String.eqb s "2025-02-18T15:34:56+00:00" then
    Some {| wall_us := T0 + 3600000000; tzinfo := Some 0 |}
  else if String.eqb s "2025-02-18T14:34:56" then
    Some {| wall_us := T0; tzinfo := None |}
  else None.

Definition envelope (id ev movement warehouse product ts : string) (q : Z)
    : KafkaMessage :=
  {| km_id := id; km_source := "WH-3322"; km_specversion := "1.0";
     km_type := "ru.retail.warehouses.movement";
     km_datacontenttype := "application/json";
     km_dataschema := "ru.retail.warehouses.movement.v1.0";
     km_time := 1737439421623; km_subject := "WH-3322:" +:+ ev;
     km_destination := "ru.retail.warehouses";
     km_data := {| movement_id := movement; warehouse_id := warehouse;
                   timestamp := ts; event := ev; product_id := product;
                   quantity := q |} |}.

Definition documents : list (string * KafkaMessage) :=
  [ ("{arrival M1 W1 P1 100}",
     envelope "msg-1" "arrival" "M1" "W1" "P1" "2025-02-18T14:34:56Z" 100);
    ("{arrival M0 W1 P1 5}",
     envelope "msg-0" "arrival" "M0" "W1" "P1" "2025-02-18T14:34:56Z" 5);
    ("{departure M2 W1 P1 30}",
     envelope "msg-2" "departure" "M2" "W1" "P1" "2025-02-18T14:34:56Z" 30);
    ("{arrival M2 W2 P1 28}",
     envelope "msg-3" "Arrival" "M2" "W2" "P1" "2025-02-18T15:34:56+00:00" 28);
    ("{departure M3 W1 P1 10}",
     envelope "msg-4" "departure" "M3" "W1" "P1" "2025-02-18T14:34:56" 10);
    ("{departure M5 W1 P1 -7}",
     envelope "msg-5" "departure" "M5" "W1" "P1" "2025-02-18T14:34:56Z" (-7));
    ("{arrival M6 W1 P1 -7}",
     envelope "msg-6" "arrival" "M6" "W1" "P1" "2025-02-18T14:34:56Z" (-7));
    ("{departure M8 W1 P1 -1}",
     envelope "msg-10" "departure" "M8" "W1" "P1" "2025-02-18T14:34:56Z" (-1));
    ("{arrival M7 W1 P1 1 at noon}",
     envelope "msg-7" "arrival" "M7" "W1" "P1" "noon" 1);
    ("{arrival M9 W1 P1 1 far}",
     {| km_id := "msg-9"; km_source := "WH-3322"; km_specversion := "1.0";
        km_type := "ru.retail.warehouses.movement";
        km_datacontenttype := "application/json";
        km_dataschema := "ru.retail.warehouses.movement.v1.0";
        km_time := 253402300800000; km_subject := "WH-3322:arrival";
        km_destination := "ru.retail.warehouses";
        km_data := {| movement_id := "M9"; warehouse_id := "W1";
                      timestamp := "2025-02-18T14:34:56Z"; event := "arrival";
                      product_id := "P1"; quantity := 1 |} |}) ].

Fixpoint assoc (k : string) (l : list (string * KafkaMessage))
    : option KafkaMessage :=
  match l with
  | [] => None
  | (k', v) :: l' => if String.eqb k k' then Some v else assoc k l'
  end.

(** The [dict] of the [data] of a message, and of the message. *)
Definition data_to_json (d : MovementEventData) : list (string * Json) :=
  [ ("movement_id", JStr (movement_id d));
    ("warehouse_id", JStr (warehouse_id d));
    ("timestamp", JStr (timestamp d));
    ("event", JStr (event d));
    ("product_id", JStr (product_id d));
    ("quantity", JInt (quantity d)) ].

Definition to_json_with (data : list (string * Json)) (m : KafkaMessage) : Json :=
  JDict
    [ ("id", JStr (km_id m));
      ("source", JStr (km_source m));
      ("specversion", JStr (km_specversion m));
      ("type", JStr (km_type m));
      ("datacontenttype", JStr (km_datacontenttype m));
      ("dataschema", JStr (km_dataschema m));
      ("time", JInt (km_time m));
      ("subject", JStr (km_subject m));
      ("destination", JStr (km_destination m));
      ("data", JDict data) ].

Definition to_json (m : KafkaMessage) : Json :=
  to_json_with (data_to_json (km_data m)) m.

(** The arrival of 100 units of P1 at W1, with [data.movement_id]
    missing. *)
Definition without_movement_id : Json :=
  to_json_with
    [ ("warehouse_id", JStr "W1"); ("timestamp", JStr "2025-02-18T14:34:56Z");
      ("event", JStr "arrival"); ("product_id", JStr "P1");
      ("quantity", JInt 100) ]
    (envelope "msg-8" "arrival" "" "W1" "P1" "2025-02-18T14:34:56Z" 100).

(** Bytes with [0xff] among them are not UTF-8; a text of four opening
    brackets and more stands for arrays nested deeper than the recursion
    limit; a text that starts with an opening brace is a document, the
    empty object unless it is one of the table; any other text is not
    JSON. *)
Definition sample_json_loads (b : list byte) : result Json :=
  if existsb (Byte.eqb xff) b then Raise UnicodeDecodeError
  else
    let s := String.string_of_list_byte b in
    match s with
    | String "{" _ =>
        match assoc s documents with
        | Some m => Ok (to_json m)
        | None =>
            if String.eqb s "{arrival W1 P1 100}" then Ok without_movement_id
            else Ok (JDict [])
        end
    | String "[" (String "[" (String "[" (String "[" _))) => Raise RecursionError
    | _ => Raise JSONDecodeError
    end.

(** pydantic takes a [bool] for an [int] field and refuses what else
    [json.loads] returns for a [str] or an [int] field, a [float] without
    a fraction and a [str] of digits apart, which the samples do not
    use. *)
Definition sample_lax_int (v : Json) : option Z :=
  match v with
  | JBool b => Some (if b then 1 else 0)
  | _ => None
  end.

(** The largest [time] that [datetime.fromtimestamp] takes: the last
    millisecond of the year 9999. *)
Definition sample_fromtimestamp_ms (ms : Z) : option instant :=
  if ms <? 253402300800000 then Some (ms * 1000) else None.

#[export] Instance sample_lib : PyLib :=
  {| json_loads := sample_json_loads;
     lax_str := fun _ => None;
     lax_int := sample_lax_int;
     fromisoformat := sample_fromisoformat;
     fromtimestamp_ms := sample_fromtimestamp_ms |}.

Definition rec_at (off : Z) (payload : string) : ConsumerRecord :=
  {| topic := "warehouse-movements"; partition := 0; offset := off;
     key := None; value := Some (String.list_byte_of_string payload) |}.

Definition deliver (off : Z) (payload : string) : delivery :=
  {| record := rec_at off payload; db_fault := None |}.

Definition deliver_failing (off : Z) (payload : string) (s : db_step)
    : delivery :=
  {| record := rec_at off payload; db_fault := Some s |}.

Definition tp0 : TopicPartition := ("warehouse-movements", 0).

(** A database whose only row is stock 5 of P1 at W1. *)
Definition db5 : DB :=
  set_warehouse_stocks {[ ("W1", "P1") := 5 ]} empty_db.

(** A database whose only row is a stock of P1 at W1 that fills the
    column. *)
Definition db_full : DB :=
  set_warehouse_stocks {[ ("W1", "P1") := INTEGER_MAX ]} empty_db.


Definition arrival_M1 : delivery := deliver 0 "{arrival M1 W1 P1 100}".

Definition arrival_effects : list effect :=
  [CacheDelete "stock:W1:P1"; CacheDelete "movement:M1"; DbCommit].

(** Scenario 2 of the specification: M2 leaves W1 with 30 units and
    reaches W2 an hour later with 28. *)
Definition departure_M2 : EventData :=
  mk_EventData "msg-2" "WH-3322" 0 "M2" "W1" T0 DEPARTURE "P1" 30.


(** A database whose only row is movement M2 with its departure half. *)
Definition db_departed : DB :=
  set_movements {[ "M2" := set_departure "W1" T0 30 (new_Movement "M2" "P1") ]}
    empty_db.

(** Bytes that are not a JSON document. *)
Definition garbage : delivery := deliver 3 "not json".

(** Arrays nested deeper than [json.loads] follows them. *)
Definition deep_nesting : delivery := deliver 5 "[[[[[[[[".

(** A record without a value. *)
Definition tombstone : delivery :=
  {| record := {| topic := "warehouse-movements"; partition := 0; offset := 6;
                  key := None; value := None |};
     db_fault := None |}.

(** The arrival of M9 with a [time] in the year 10000. *)
Definition far_future : delivery := deliver 10 "{arrival M9 W1 P1 1 far}".

(** A JSON document without [data.movement_id]. *)
Definition no_movement_id : delivery := deliver 4 "{arrival W1 P1 100}".

(** The arrival of M1, with the commit failing. *)
Definition arrival_M1_commit_fails : delivery :=
  deliver_failing 0 "{arrival M1 W1 P1 100}" SessionCommit.

(** A batch of one partition: the arrival of M1 at offset 0 hits a
    database error while the stock row is updated, the arrival of M0 at
    offset 1 goes through. *)
Definition batch_transient : list delivery :=
  [ deliver_failing 0 "{arrival M1 W1 P1 100}" StockUpdate;
    deliver 1 "{arrival M0 W1 P1 5}" ].

(** The world after the arrival of 5 units of P1 at W1 (offset 0). *)
Definition world5 : world :=
  process_partition tp0 [deliver 0 "{arrival M0 W1 P1 5}"] initial_world.

(** Scenario 2 of the specification as one batch. *)
Definition batch_pairing : list delivery :=
  [ deliver 0 "{arrival M1 W1 P1 100}";
    deliver 1 "{departure M2 W1 P1 30}";
    deliver 2 "{arrival M2 W2 P1 28}" ].

(** Scenario 3 of the specification: the same record delivered twice. *)
Definition batch_duplicate : list delivery :=
  [ deliver 0 "{arrival M1 W1 P1 100}"; deliver 0 "{arrival M1 W1 P1 100}" ].

(** A batch of one partition: a departure of 10 from the stock of 5 at
    offset 1, then the arrival of M1 at offset 2. *)
Definition batch_negative : list delivery :=
  [ deliver 1 "{departure M3 W1 P1 10}";
    deliver 2 "{arrival M1 W1 P1 100}" ].

End Samples.

(** ** Predicates the properties are stated with *)

Module Spec.

(** A result that is the [ValueError] of the stock ledger: the
    NEGATIVE_STOCK failure. *)
Definition fails_negative_stock {A} (r : result A) : Prop :=
  r = Raise (ValueError msg_below_zero) \/ r = Raise (ValueError msg_negative_init).

(** The result [r] of a stock write on [db] is the quantity [q], and the
    database it returns has [q] in the row of the pair and is [db]
    everywhere else. *)
Definition stock_written (w p : string) (q : Z) (db : DB) (r : result (Z * DB))
    : Prop :=
  exists db',
    r = Ok (q, db')
    /\ get_stock w p db' = Some q
    /\ (forall w' p', (w', p') <> (w, p) ->
          get_stock w' p' db' = get_stock w' p' db)
    /\ products db' = products db
    /\ warehouses db' = warehouses db
    /\ movements db' = movements db
    /\ movement_events db' = movement_events db.

(** Every stock row holds a quantity that is not negative. *)
Definition stock_nonneg (db : DB) : Prop :=
  forall k q, warehouse_stocks db !! k = Some q -> 0 <= q.

(** No session is open: the session view is the committed database. *)
Definition at_rest (w : world) : Prop := session w = committed w.



(** The timestamp and the quantity of a half are set together. *)
Definition halves_together (m : Movement) : Prop :=
  (is_Some (departure_timestamp m) <-> is_Some (departure_quantity m))
  /\ (is_Some (arrival_timestamp m) <-> is_Some (arrival_quantity m)).

(** A float with a mantissa of 53 bits, as a double has. *)
Definition is_double (f : float) : Prop := Z.abs (mantissa f) < 2 ^ 53.

(** The distance of [f] from [a / b], times [b * value_den f]. *)
Definition miss (a b : Z) (f : float) : Z :=
  Z.abs (value_num f * b - a * value_den f).

(** [t] is a double, and no double is nearer to the rational [x]. *)
Definition nearest_double (x : Q) (t : float) : Prop :=
  is_double t
  /\ forall d, is_double d ->
       (Qabs (float_to_Q t - x) <= Qabs (float_to_Q d - x))%Q.

(** [t] is the time from [dts] to [ats] in seconds, as a float: a double
    nearest to the microseconds between them over a million. *)
Definition seconds_between (dts ats : instant) (t : float) : Prop :=
  nearest_double (Qmake (ats - dts) 1000000) t.

(** The derived fields say what the half fields imply. *)
Definition derived_ok (m : Movement) : Prop :=
  (forall dts ats,
      departure_timestamp m = Some dts -> arrival_timestamp m = Some ats ->
      (dts <= ats ->
       exists t, transfer_time m = Some t /\ seconds_between dts ats t)
      /\ (ats < dts -> transfer_time m = None))
  /\ (forall dq aq,
      departure_quantity m = Some dq -> arrival_quantity m = Some aq ->
      quantity_difference m = Some (aq - dq)).

(** Every movement row has its halves set together and its derived fields
    right. *)
Definition movements_ok (db : DB) : Prop :=
  forall id m, movements db !! id = Some m -> halves_together m /\ derived_ok m.

(** The database [db5] is what the six repository calls of the service
    make of [db] for an event that is not in the journal. *)
Definition applies (ev : EventData) (db db5 : DB) : Prop :=
  exists db1 db2 q db3 m db4 e,
    movement_events db !! ev_message_id ev = None
    /\ product_get_or_create (ev_product_id ev) db
       = Ok (ev_product_id ev, db1)
    /\ warehouse_get_or_create (ev_warehouse_id ev) db1
       = Ok (ev_warehouse_id ev, db2)
    /\ create_or_update_stock (ev_warehouse_id ev) (ev_product_id ev)
         (quantity_delta ev) db2 = Ok (q, db3)
    /\ create_or_update ev db3 = Ok (m, db4)
    /\ event_create ev db4 = Ok (e, db5).



(** The two cache deletions of an event. *)
Definition invalidation (ev : EventData) : list effect :=
  [CacheDelete (stock_cache_key (ev_warehouse_id ev) (ev_product_id ev));
   CacheDelete (movement_cache_key (ev_movement_id ev))].

Section WithLib.
Context `{PyLib}.

(** Deliveries handed to the wrapper one after the other. *)
Definition deliver_all (ds : list delivery) (w : world) : world :=
  foldl (fun w d => snd (_process_message_wrapper d w)) w ds.

(** The failures of a record that the wrapper has an [except] clause or a
    test for: its bytes are not UTF-8, or not JSON ([JSONDecodeError]); the
    document fails the schema of the envelope or of [data], an unknown
    event type and a timestamp that does not parse included
    ([ValidationError]); the validated message cannot be prepared, which
    is a [time] that is no date. *)
Inductive malformed (r : ConsumerRecord) : Prop :=
| bad_utf8 :
    decode r = Raise UnicodeDecodeError -> malformed r
| bad_json :
    decode r = Raise JSONDecodeError -> malformed r
| bad_schema raw :
    decode r = Ok raw ->
    model_validate raw = Raise ValidationError -> malformed r
| bad_time raw km :
    decode r = Ok raw ->
    model_validate raw = Ok km ->
    _prepare_event_data km = None ->
    malformed r.

(** The failures of decoding that the wrapper has no clause for: any
    other exception of [decode], such as [AttributeError] for a record
    without a value, [RecursionError] for a document nested too deep, or
    the plain [ValueError] of an integer literal with too many digits. *)
Definition fails_otherwise (r : ConsumerRecord) : Prop :=
  exists e, decode r = Raise e
            /\ e <> UnicodeDecodeError /\ e <> JSONDecodeError.

End WithLib.

End Spec.
Export Spec.

(** ** Further sample data *)

Module MoreSamples.

(** The arrival of M2 as it is sent, with a capital letter in [event]. *)
Definition arrival_M2_sent : KafkaMessage :=
  Samples.envelope "msg-3" "Arrival" "M2" "W2" "P1" "2025-02-18T15:34:56+00:00" 28.

(** The same message after validation. *)
Definition arrival_M2_validated : KafkaMessage :=
  {| km_id := "msg-3"; km_source := "WH-3322"; km_specversion := "1.0";
     km_type := "ru.retail.warehouses.movement";
     km_datacontenttype := "application/json";
     km_dataschema := "ru.retail.warehouses.movement.v1.0";
     km_time := 1737439421623; km_subject := "WH-3322:Arrival";
     km_destination := "ru.retail.warehouses";
     km_data := {| movement_id := "M2"; warehouse_id := "W2";
                   timestamp := "2025-02-18T15:34:56+00:00";
                   event := "arrival"; product_id := "P1"; quantity := 28 |} |}.

(** The row of M2 once both its halves are in (scenario 2). *)
Definition row_M2 : Movement :=
  {| mv_id := "M2"; mv_product_id := "P1";
     source_warehouse_id := Some "W1";
     departure_timestamp := Some Samples.T0;
     departure_quantity := Some 30;
     destination_warehouse_id := Some "W2";
     arrival_timestamp := Some (Samples.T0 + 3600000000);
     arrival_quantity := Some 28;
     transfer_time := Some (total_seconds 3600000000);
     quantity_difference := Some (-2) |}.

Definition polls_pairing : list (list (TopicPartition * list delivery)) :=
  [[(Samples.tp0, Samples.batch_pairing)]].

End MoreSamples.

(** ** A small instance of the cache calls

    It knows the text of two stock responses and of one movement
    response. *)

Module ReadSamples.

Import CacheManager.

Definition stock5 : WarehouseStockResponse := stock_response "W1" "P1" 5.
Definition stock100 : WarehouseStockResponse := stock_response "W1" "P1" 100.
Definition movement_M2 : MovementDetailResponse :=
  from_db_model MoreSamples.row_M2.

Definition is_stock (w p : string) (q : Z) (r : WarehouseStockResponse) : bool :=
  String.eqb (sr_warehouse_id r) w && String.eqb (sr_product_id r) p
  && (sr_quantity r =? q).

Definition sample_dumps (d : WarehouseStockResponse + MovementDetailResponse)
    : option string :=
  match d with
  | inl r =>
      if is_stock "W1" "P1" 5 r then Some "{stock W1 P1 5}"
      else if is_stock "W1" "P1" 100 r then Some "{stock W1 P1 100}"
      else None
  | inr r => if String.eqb (md_id r) "M2" then Some "{movement M2}" else None
  end.

Definition sample_loads (s : string)
    : option (WarehouseStockResponse + MovementDetailResponse) :=
  if String.eqb s "{stock W1 P1 5}" then Some (inl stock5)
  else if String.eqb s "{stock W1 P1 100}" then Some (inl stock100)
  else if String.eqb s "{movement M2}" then Some (inr movement_M2)
  else None.

#[export] Instance sample_json : PyJson :=
  {| Doc := (WarehouseStockResponse + MovementDetailResponse)%type;
     json_dumps := sample_dumps;
     json_loads_text := sample_loads;
     truthy := fun _ => true;
     stock_model_dump := inl;
     movement_model_dump := inr;
     stock_model_validate :=
       fun d => match d with inl r => Some r | inr _ => None end;
     movement_model_validate :=
       fun d => match d with inr r => Some r | inl _ => None end |}.

(** A connected cache manager with nothing in the cache. *)
Definition empty_cache : t := {| redis_client := Some ∅; ttl := 3600 |}.

(** A cache that holds a stale quantity for P1 at W1. *)
Definition stale_cache : t :=
  {| redis_client :=
       Some {[ "stock:W1:P1" := {| text := "{stock W1 P1 100}"; ex := 3600 |} ]};
     ttl := 3600 |}.

End ReadSamples.

(** ** Predicates of the read path *)

Module ReadSpec.

Import CacheManager.

Section WithJson.
Context `{PyJson}.

(** The text the cache is given for a stock response is not empty and
    reads back as that response. *)
Definition stock_round_trips (r : WarehouseStockResponse) : Prop :=
  exists data d,
    json_dumps (stock_model_dump r) = Some data
    /\ String.eqb data "" = false
    /\ json_loads_text data = Some d
    /\ truthy d = true
    /\ stock_model_validate d = Some r.

(** The cache holds, under the key, a text that reads as the response. *)
Definition holds_stock (m : t) (key : string) (r : WarehouseStockResponse)
    : Prop :=
  exists store data d,
    redis_client m = Some store
    /\ store !! key = Some data
    /\ String.eqb (text data) "" = false
    /\ json_loads_text (text data) = Some d
    /\ truthy d = true
    /\ stock_model_validate d = Some r.

End WithJson.

(** The cache yields nothing for the key: the manager is not connected,
    the client raises on the read, or the key is not there. *)
Definition misses (faults : io) (m : t) (key : string) : Prop :=
  redis_client m = None
  \/ cache_get_raises faults = true
  \/ exists store, redis_client m = Some store /\ store !! key = None.

End ReadSpec.
Export ReadSpec.

(** ** Further predicates *)

Module Ledger.

(** The journal row [MovementEventRepository.create] writes for an event. *)
Definition event_row (ev : EventData) : MovementEvent :=
  {| me_id := ev_message_id ev;
     me_movement_id := ev_movement_id ev;
     me_warehouse_id := ev_warehouse_id ev;
     me_event_type := ev_event_type ev;
     me_timestamp := ev_timestamp ev;
     me_product_id := ev_product_id ev;
     me_quantity := ev_quantity ev;
     me_message_id := ev_message_id ev;
     me_message_source := ev_message_source ev;
     me_message_time := ev_message_time ev |}.

(** The event is not in the journal, its stock update does not go below
    zero and the new quantity fits the column. *)
Definition admissible (ev : EventData) (db : DB) : bool :=
  negb (bool_decide (is_Some (movement_events db !! ev_message_id ev)))
  && (0 <=? default 0 (get_stock (ev_warehouse_id ev) (ev_product_id ev) db)
            + quantity_delta ev)
  && (default 0 (get_stock (ev_warehouse_id ev) (ev_product_id ev) db)
      + quantity_delta ev <=? INTEGER_MAX).

(** The five tables after the six repository calls of the service, in
    closed form. *)
Definition applied (ev : EventData) (db : DB) : DB :=
  {| products := {[ev_product_id ev]} ∪ products db;
     warehouses := {[ev_warehouse_id ev]} ∪ warehouses db;
     warehouse_stocks :=
       <[(ev_warehouse_id ev, ev_product_id ev) :=
           default 0 (get_stock (ev_warehouse_id ev) (ev_product_id ev) db)
           + quantity_delta ev]> (warehouse_stocks db);
     movements :=
       <[ev_movement_id ev :=
           derive (apply_half ev
             (default (new_Movement (ev_movement_id ev) (ev_product_id ev))
                      (movements db !! ev_movement_id ev)))]> (movements db);
     movement_events :=
       <[ev_message_id ev := event_row ev]> (movement_events db) |}.

(** The committed database after the transaction of an event that meets
    no database fault. *)
Definition step_db (ev : EventData) (db : DB) : DB :=
  if admissible ev db then applied ev db else db.

(** The signed quantity of a journal row. *)
Definition signed (e : MovementEvent) : Z :=
  if decide (me_event_type e = ARRIVAL) then me_quantity e else - me_quantity e.

(** The net quantity the journal records for a warehouse and a product:
    arrivals minus departures. *)
Definition journal_net (w p : string) (db : DB) : Z :=
  map_fold
    (fun _ e acc =>
       if decide (me_warehouse_id e = w /\ me_product_id e = p)
       then acc + signed e else acc)
    0 (movement_events db).

(** The stock ledger says what the journal adds up to. *)
Definition ledger_matches_journal (db : DB) : Prop :=
  forall w p, default 0 (get_stock w p db) = journal_net w p db.

(** How many of the effects are database commits. *)
Definition count_commits (l : list effect) : nat :=
  length (filter (fun e => e = DbCommit) l).

(** The foreign keys and primary keys of app/db/models.py hold. *)
Definition references_ok (db : DB) : Prop :=
  (forall w p q, warehouse_stocks db !! (w, p) = Some q ->
     w ∈ warehouses db /\ p ∈ products db)
  /\ (forall id m, movements db !! id = Some m ->
     mv_id m = id
     /\ mv_product_id m ∈ products db
     /\ (forall sw, source_warehouse_id m = Some sw -> sw ∈ warehouses db)
     /\ (forall dw, destination_warehouse_id m = Some dw -> dw ∈ warehouses db))
  /\ (forall id e, movement_events db !! id = Some e ->
     me_id e = id
     /\ is_Some (movements db !! me_movement_id e)
     /\ me_warehouse_id e ∈ warehouses db
     /\ me_product_id e ∈ products db).

(** Two events that share neither the message, nor the movement, nor the
    stock row. *)
Definition independent (ev1 ev2 : EventData) : Prop :=
  ev_message_id ev1 <> ev_message_id ev2
  /\ ev_movement_id ev1 <> ev_movement_id ev2
  /\ (ev_warehouse_id ev1, ev_product_id ev1)
     <> (ev_warehouse_id ev2, ev_product_id ev2).

(** The derived fields of a row are null until both timestamps are
    there. *)
Definition derived_null_until_complete (m : Movement) : Prop :=
  md_is_complete (from_db_model m) = false ->
  transfer_time m = None /\ quantity_difference m = None.

(** The database [db'] has everything [db] has: every product,
    warehouse and stock row is still there, every journal row is there
    unchanged, and every movement row is there with the same product and
    with each half it had still filled. *)
Definition extends (db db' : DB) : Prop :=
  products db ⊆ products db'
  /\ warehouses db ⊆ warehouses db'
  /\ (forall k, is_Some (warehouse_stocks db !! k) ->
        is_Some (warehouse_stocks db' !! k))
  /\ (forall id e, movement_events db !! id = Some e ->
        movement_events db' !! id = Some e)
  /\ (forall id m, movements db !! id = Some m ->
        exists m', movements db' !! id = Some m'
          /\ mv_product_id m' = mv_product_id m
          /\ (is_Some (departure_timestamp m) -> is_Some (departure_timestamp m'))
          /\ (is_Some (arrival_timestamp m) -> is_Some (arrival_timestamp m'))).

(** Each delivery of the list fails in the world the ones before it
    leave. *)
Definition all_fail `{PyLib} (messages : list delivery) (w : world) : Prop :=
  forall i d,
    messages !! i = Some d ->
    fst (_process_message_wrapper d (deliver_all (take i messages) w)) = false.

End Ledger.
Export Ledger.

(** * Properties *)

(** ** The stock ledger *)

Example sample_fresh_arrival :
  let w := _consume_messages (H := Samples.sample_lib)
             [[(Samples.tp0, [Samples.deliver 0 "{arrival M1 W1 P1 100}"])]]
             initial_world in
  get_stock "W1" "P1" (committed w) = Some 100
  /\ log w = [CacheDelete "stock:W1:P1"; CacheDelete "movement:M1"; DbCommit;
              OffsetCommit "warehouse-movements" 0 1].
Proof. vm_compute. split; reflexivity. Qed.

(** What [create_or_update_stock] returns when it returns: the quantity
    is the old one (0 without a row) plus the delta, it is not negative and
    fits the column, and the database differs in that one stock row. *)
Lemma create_or_update_stock_ok w p delta db q db' :
  create_or_update_stock w p delta db = Ok (q, db') <->
  q = default 0 (get_stock w p db) + delta
  /\ 0 <= q <= INTEGER_MAX
  /\ db' = set_warehouse_stocks (<[(w, p) := q]> (warehouse_stocks db)) db.
Proof.
  unfold create_or_update_stock, flush_stock, fits_integer, INTEGER_MIN,
    INTEGER_MAX.
  destruct (get_stock w p db) as [q0 |]; cbn [default from_option id].
  - destruct (Z.ltb_spec (q0 + delta) 0) as [Hlt | Hge].
    + split; [discriminate | intros (-> & ? & _); lia].
    + destruct (Z.leb_spec (-2147483648) (q0 + delta));
        destruct (Z.leb_spec (q0 + delta) 2147483647); cbn [andb];
        (split; [intros Heq; try discriminate; injection Heq as <- <-;
                   repeat split; lia
                | intros (-> & Hr & ->); first [reflexivity | lia]]).
  - replace (0 + delta) with delta by lia.
    destruct (Z.ltb_spec delta 0) as [Hlt | Hge].
    + split; [discriminate | intros (-> & ? & _); lia].
    + destruct (Z.leb_spec (-2147483648) delta);
        destruct (Z.leb_spec delta 2147483647); cbn [andb];
        (split; [intros Heq; try discriminate; injection Heq as <- <-;
                   repeat split; lia
                | intros (-> & Hr & ->); first [reflexivity | lia]]).
Qed.

(** The ledger's [ValueError] is raised exactly when the new quantity
    would be negative. *)
Lemma create_or_update_stock_negative w p delta db :
  fails_negative_stock (create_or_update_stock w p delta db)
  <-> default 0 (get_stock w p db) + delta < 0.
Proof.
  unfold fails_negative_stock, create_or_update_stock, flush_stock.
  destruct (get_stock w p db) as [q0 |]; cbn [default from_option id].
  - destruct (Z.ltb_spec (q0 + delta) 0) as [Hlt | Hge].
    + split; [intros _; exact Hlt | intros _; left; reflexivity].
    + destruct (fits_integer _);
        (split; [intros [Hr | Hr]; discriminate | lia]).
  - replace (0 + delta) with delta by lia.
    destruct (Z.ltb_spec delta 0) as [Hlt | Hge].
    + split; [intros _; exact Hlt | intros _; right; reflexivity].
    + destruct (fits_integer _);
        (split; [intros [Hr | Hr]; discriminate | lia]).
Qed.

(** The flush is refused exactly when the new quantity is not negative and
    exceeds the column. *)
Lemma create_or_update_stock_refused w p delta db :
  create_or_update_stock w p delta db = Raise SQLAlchemyError
  <-> INTEGER_MAX < default 0 (get_stock w p db) + delta.
Proof.
  unfold create_or_update_stock, flush_stock, fits_integer, INTEGER_MIN,
    INTEGER_MAX.
  destruct (get_stock w p db) as [q0 |]; cbn [default from_option id].
  - destruct (Z.ltb_spec (q0 + delta) 0) as [Hlt | Hge].
    + split; [discriminate | lia].
    + destruct (Z.leb_spec (-2147483648) (q0 + delta));
        destruct (Z.leb_spec (q0 + delta) 2147483647); cbn [andb];
        (split; [intros Heq; first [discriminate | lia]
                | intros Hr; first [reflexivity | lia]]).
  - replace (0 + delta) with delta by lia.
    destruct (Z.ltb_spec delta 0) as [Hlt | Hge].
    + split; [discriminate | lia].
    + destruct (Z.leb_spec (-2147483648) delta);
        destruct (Z.leb_spec delta 2147483647); cbn [andb];
        (split; [intros Heq; first [discriminate | lia]
                | intros Hr; first [reflexivity | lia]]).
Qed.

Lemma stock_written_intro w p q db :
  stock_written w p q db
    (Ok (q, set_warehouse_stocks (<[(w, p) := q]> (warehouse_stocks db)) db)).
Proof.
  eexists. split; [reflexivity |]. unfold get_stock, set_warehouse_stocks.
  cbn [warehouse_stocks products warehouses movements movement_events].
  split; [apply lookup_insert_eq |].
  split; [| repeat split].
  intros w' p' Hne. apply lookup_insert_ne. congruence.
Qed.

(** C3. [create_or_update_stock] on a pair that has a row of quantity [q]
    fails with NEGATIVE_STOCK exactly when [q + delta < 0]; when [q + delta]
    is not negative and fits the [Integer] column it returns [q + delta],
    the row of the pair then reads [q + delta], and every other stock row
    and every other table is as before; when [q + delta] exceeds the column
    the flush is refused and nothing is written. On a pair without a row
    the same holds with [delta] for [q + delta]: the row that is then read
    is a new one. *)
Theorem create_or_update_stock_spec (w p : string) (delta : Z) (db : DB) :
  let r := create_or_update_stock w p delta db in
  (forall q, get_stock w p db = Some q ->
     (fails_negative_stock r <-> q + delta < 0)
     /\ (0 <= q + delta <= INTEGER_MAX -> stock_written w p (q + delta) db r)
     /\ (INTEGER_MAX < q + delta -> r = Raise SQLAlchemyError))
  /\ (get_stock w p db = None ->
     (fails_negative_stock r <-> delta < 0)
     /\ (0 <= delta <= INTEGER_MAX -> stock_written w p delta db r)
     /\ (INTEGER_MAX < delta -> r = Raise SQLAlchemyError)).
Proof.
  cbv zeta.
  pose proof (create_or_update_stock_negative w p delta db) as Hneg.
  pose proof (create_or_update_stock_refused w p delta db) as Href.
  assert (forall q, q = default 0 (get_stock w p db) + delta ->
            0 <= q <= INTEGER_MAX ->
            create_or_update_stock w p delta db
            = Ok (q, set_warehouse_stocks
                       (<[(w, p) := q]> (warehouse_stocks db)) db)) as Hok.
  { intros q Hq Hr. apply create_or_update_stock_ok. auto. }
  split.
  - intros q Hq. rewrite Hq in Hneg, Href, Hok. cbn [default from_option id] in Hneg, Href, Hok.
    split; [exact Hneg |]. split; [| apply Href].
    intros Hr. rewrite (Hok _ eq_refl Hr). apply stock_written_intro.
  - intros Hq. rewrite Hq in Hneg, Href, Hok.
    cbn [default from_option id] in Hneg, Href, Hok.
    split; [rewrite Hneg; lia |]. split; [| intros Hr; apply Href; lia].
    intros Hr. rewrite (Hok delta) by lia. apply stock_written_intro.
Qed.

Lemma create_or_update_stock_spec_witness :
  stock_written "W1" "P1" (5 + 95) Samples.db5
    (create_or_update_stock "W1" "P1" 95 Samples.db5)
  /\ stock_written "W2" "P1" 7 Samples.db5
       (create_or_update_stock "W2" "P1" 7 Samples.db5)
  /\ (fails_negative_stock (create_or_update_stock "W1" "P1" (-10) Samples.db5)
      <-> 5 + -10 < 0)
  /\ create_or_update_stock "W1" "P1" 1 Samples.db_full = Raise SQLAlchemyError.
Proof.
  split; [| split; [| split]].
  - apply (proj1 (create_or_update_stock_spec "W1" "P1" 95 Samples.db5) 5);
      [reflexivity | unfold INTEGER_MAX; lia].
  - apply (proj2 (create_or_update_stock_spec "W2" "P1" 7 Samples.db5));
      [reflexivity | unfold INTEGER_MAX; lia].
  - apply (proj1 (create_or_update_stock_spec "W1" "P1" (-10) Samples.db5) 5).
    reflexivity.
  - apply (proj1 (create_or_update_stock_spec "W1" "P1" 1 Samples.db_full)
             INTEGER_MAX); [reflexivity | lia].
Defined.

(** The claim of the specification has no third outcome: at the largest
    quantity the column holds, one more unit is neither a NEGATIVE_STOCK
    failure nor a write. *)
Lemma stock_write_refused_at_column_limit :
  get_stock "W1" "P1" Samples.db_full = Some 2147483647
  /\ ~ 2147483647 + 1 < 0
  /\ ~ fails_negative_stock (create_or_update_stock "W1" "P1" 1 Samples.db_full)
  /\ ~ (exists db',
          create_or_update_stock "W1" "P1" 1 Samples.db_full
          = Ok (2147483647 + 1, db')).
Proof.
  split; [reflexivity |]. split; [lia |]. split.
  - intros [Hr | Hr]; vm_compute in Hr; discriminate.
  - intros [db' Hr]. vm_compute in Hr. discriminate.
Qed.

(** ** What one run of the service does to the session *)

Lemma db_call_ok_inv {A} fault step (f : DB -> result (A * DB)) w a w' :
  db_call fault step f w = (Ok a, w') ->
  fault <> Some step
  /\ exists db', f (session w) = Ok (a, db') /\ w' = with_session db' w.
Proof.
  unfold db_call. case_decide; [discriminate |].
  destruct (f (session w)) as [[a' db'] | e]; [| discriminate].
  intros Heq. injection Heq as <- <-. split; [assumption |].
  exists db'. split; reflexivity.
Qed.

Lemma db_call_raise_inv {A} fault step (f : DB -> result (A * DB)) w e w' :
  db_call fault step f w = (Raise e, w') -> w' = w.
Proof.
  unfold db_call. case_decide.
  - intros Heq. injection Heq as _ <-. reflexivity.
  - destruct (f (session w)) as [[a' db'] | e']; [discriminate |].
    intros Heq. injection Heq as _ <-. reflexivity.
Qed.

Lemma get_or_create_fst_product pid db r db' :
  product_get_or_create pid db = Ok (r, db') -> r = pid.
Proof. unfold product_get_or_create. case_decide; congruence. Qed.

Lemma get_or_create_fst_warehouse wid db r db' :
  warehouse_get_or_create wid db = Ok (r, db') -> r = wid.
Proof. unfold warehouse_get_or_create. case_decide; congruence. Qed.

(** A run that returns [True] went through every repository call, in
    order, none of them failing, and then deleted the two cache keys. *)
Lemma process_true_inv (fault : option db_step) (ev : EventData) (w w1 : world) :
  process_movement_event fault ev w = (Ok true, w1) ->
  exists db5,
    applies ev (session w) db5
    /\ w1 = {| committed := committed w; session := db5;
               log := log w ++ invalidation ev |}.
Proof.
  unfold process_movement_event, Tx.bind.
  destruct (db_call fault QueryProcessed _ w) as [[processed | ?] w0] eqn:H0;
    [| discriminate].
  apply db_call_ok_inv in H0 as (_ & db0 & H0 & ->).
  unfold is_event_processed in H0. injection H0 as <- <-.
  case_bool_decide as Hproc; [discriminate |].
  destruct (db_call fault ProductGetOrCreate _ _) as [[pid | ?] w2] eqn:H1;
    [| discriminate].
  apply db_call_ok_inv in H1 as (_ & db1 & H1 & ->).
  destruct (db_call fault WarehouseGetOrCreate _ _) as [[wid | ?] w3] eqn:H2;
    [| discriminate].
  apply db_call_ok_inv in H2 as (_ & db2 & H2 & ->).
  destruct (db_call fault StockUpdate _ _) as [[q | ?] w4] eqn:H3;
    [| discriminate].
  apply db_call_ok_inv in H3 as (_ & db3 & H3 & ->).
  destruct (db_call fault MovementUpsert _ _) as [[m | ?] w5] eqn:H4;
    [| discriminate].
  apply db_call_ok_inv in H4 as (_ & db4 & H4 & ->).
  destruct (db_call fault EventInsert _ _) as [[e | ?] w6] eqn:H5;
    [| discriminate].
  apply db_call_ok_inv in H5 as (_ & db5 & H5 & ->).
  cbn in H1, H2, H3, H4, H5.
  pose proof (get_or_create_fst_product _ _ _ _ H1) as ->.
  pose proof (get_or_create_fst_warehouse _ _ _ _ H2) as ->.
  unfold _invalidate_cache, Tx.bind, Tx.emit, Tx.ret, with_session. cbn.
  intros Heq. injection Heq as <-.
  exists db5. split.
  - exists db1, db2, q, db3, m, db4, e.
    repeat split; try assumption.
    destruct (movement_events (session w) !! ev_message_id ev) eqn:Hl;
      [| reflexivity].
    exfalso. apply Hproc. eauto.
  - rewrite <- (assoc_L (++)). reflexivity.
Qed.

(** A run that returns [False] found the message in the journal and wrote
    nothing. *)
Lemma process_false_inv (fault : option db_step) (ev : EventData) (w w1 : world) :
  process_movement_event fault ev w = (Ok false, w1) ->
  is_Some (movement_events (session w) !! ev_message_id ev) /\ w1 = w.
Proof.
  unfold process_movement_event, Tx.bind.
  destruct (db_call fault QueryProcessed _ w) as [[processed | ?] w0] eqn:H0;
    [| discriminate].
  apply db_call_ok_inv in H0 as (_ & db0 & H0 & ->).
  unfold is_event_processed in H0. injection H0 as <- <-.
  case_bool_decide as Hproc.
  - unfold Tx.ret. intros Heq. injection Heq as <-.
    split; [assumption | destruct w; reflexivity].
  - repeat
      match goal with
      | |- context [db_call ?f ?s ?g ?w] =>
          destruct (db_call f s g w) as [[? | ?] ?]; [| discriminate]
      end.
    unfold _invalidate_cache, Tx.bind, Tx.emit, Tx.ret. cbn. discriminate.
Qed.

(** A run that raises has deleted no cache key and committed nothing. *)
Lemma process_raise_inv (fault : option db_step) (ev : EventData) (w w1 : world) e :
  process_movement_event fault ev w = (Raise e, w1) ->
  committed w1 = committed w /\ log w1 = log w.
Proof.
  unfold process_movement_event, Tx.bind.
  destruct (db_call fault QueryProcessed _ w) as [[processed | ?] w0] eqn:H0.
  2:{ apply db_call_raise_inv in H0 as ->. intros Heq.
      injection Heq as _ <-. split; reflexivity. }
  apply db_call_ok_inv in H0 as (_ & db0 & H0 & ->).
  destruct processed; [discriminate |].
  repeat
    match goal with
    | |- context [db_call ?f ?s ?g ?w] =>
        let Hc := fresh "Hc" in
        destruct (db_call f s g w) as [[? | ?] ?] eqn:Hc;
        [ apply db_call_ok_inv in Hc as (_ & ? & _ & ->)
        | apply db_call_raise_inv in Hc as ->; intros Heq;
          injection Heq as _ <-; split; reflexivity ]
    end.
  unfold _invalidate_cache, Tx.bind, Tx.emit, Tx.ret. cbn. discriminate.
Qed.

(** The message is in the journal and the query goes through: the run
    returns [False] at once. *)
Lemma process_already (fault : option db_step) (ev : EventData) (w : world) :
  is_Some (movement_events (session w) !! ev_message_id ev) ->
  fault <> Some QueryProcessed ->
  process_movement_event fault ev w = (Ok false, w).
Proof.
  intros Hin Hf. unfold process_movement_event, Tx.bind, db_call.
  case_decide; [contradiction |].
  unfold is_event_processed. rewrite bool_decide_eq_true_2 by assumption.
  unfold Tx.ret. destruct w; reflexivity.
Qed.

(** ** What one delivery does to the world *)

Section Delivery.
Context `{PyLib}.

(** The four ways the transaction of a normalized event ends: the message
    was in the journal; the event was applied and committed; the run
    raised before the cache was touched; the commit itself failed. *)
Lemma run_in_session_cases fault ev w b w' :
  run_in_session fault ev w = (b, w') ->
  (b = true
   /\ is_Some (movement_events (committed w) !! ev_message_id ev)
   /\ w' = mk_world (committed w) (committed w) (log w))
  \/ (b = true
      /\ exists db5, applies ev (committed w) db5
         /\ w' = mk_world db5 db5 (log w ++ invalidation ev ++ [DbCommit]))
  \/ (b = false
      /\ w' = mk_world (committed w) (committed w) (log w ++ [DbRollback]))
  \/ (b = false /\ fault = Some SessionCommit
      /\ (exists db5, applies ev (committed w) db5)
      /\ w' = mk_world (committed w) (committed w)
                (log w ++ invalidation ev ++ [DbRollback])).
Proof.
  unfold run_in_session.
  destruct (process_movement_event fault ev (open_session w))
    as [[[] | e] w1] eqn:Hp.
  - apply process_true_inv in Hp as (db5 & Happ & ->).
    unfold session_commit, close_session, session_rollback.
    case_decide as Hf; cbn [committed session log fst snd].
    + intros Heq. injection Heq as <- <-. right. right. right.
      rewrite <- (assoc_L (++)). repeat split; eauto.
    + intros Heq. injection Heq as <- <-. right. left.
      rewrite <- (assoc_L (++)). split; [reflexivity |]. eauto.
  - apply process_false_inv in Hp as (Hin & ->). cbn.
    intros Heq. injection Heq as <- <-. left. repeat split. exact Hin.
  - apply process_raise_inv in Hp as (Hc & Hl). cbn in Hc, Hl.
    unfold close_session, session_rollback. cbn. rewrite Hc, Hl.
    intros Heq. injection Heq as <- <-. right. right. left.
    split; reflexivity.
Qed.

Lemma run_in_session_at_rest fault ev w b w' :
  run_in_session fault ev w = (b, w') -> at_rest w'.
Proof.
  intros Hr. apply run_in_session_cases in Hr.
  destruct Hr as [(_ & _ & ->) | [(_ & db5 & _ & ->) | [(_ & ->) | (_ & _ & _ & ->)]]];
    reflexivity.
Qed.

(** The wrapper either returns before it opens a session, leaving the
    world as it is, or runs the transaction of the normalized event. *)
Lemma wrapper_cases d w :
  (exists b, normalize (record d) = inl b
             /\ _process_message_wrapper d w = (b, w))
  \/ (exists ev, normalize (record d) = inr ev
                 /\ _process_message_wrapper d w
                    = run_in_session (db_fault d) ev w).
Proof.
  unfold _process_message_wrapper.
  destruct (normalize (record d)) as [b | ev]; [left | right]; eauto.
Qed.

End Delivery.

(** ** The tables after an applied event *)

(** The row the pairing store writes for an event. *)
Lemma create_or_update_row ev db m db' :
  create_or_update ev db = Ok (m, db') ->
  m = derive (apply_half ev
        (default (new_Movement (ev_movement_id ev) (ev_product_id ev))
                 (movements db !! ev_movement_id ev)))
  /\ db' = set_movements (<[ev_movement_id ev := m]> (movements db)) db.
Proof.
  unfold create_or_update. intros Heq. injection Heq as <- <-.
  destruct (movements db !! ev_movement_id ev); split; reflexivity.
Qed.

(** An applied event changes one stock row, one movement row and one
    journal row, and adds the product and the warehouse if they are new. *)
Lemma applies_tables ev db db5 :
  applies ev db db5 ->
  exists q m e,
    0 <= q
    /\ q = default 0 (get_stock (ev_warehouse_id ev) (ev_product_id ev) db)
           + quantity_delta ev
    /\ warehouse_stocks db5
       = <[(ev_warehouse_id ev, ev_product_id ev) := q]> (warehouse_stocks db)
    /\ m = derive (apply_half ev
             (default (new_Movement (ev_movement_id ev) (ev_product_id ev))
                      (movements db !! ev_movement_id ev)))
    /\ movements db5 = <[ev_movement_id ev := m]> (movements db)
    /\ movement_events db !! ev_message_id ev = None
    /\ me_id e = ev_message_id ev
    /\ movement_events db5 = <[ev_message_id ev := e]> (movement_events db).
Proof.
  intros (db1 & db2 & q & db3 & m & db4 & e & Hnone & Hp & Hw & Hs & Hm & He).
  assert (warehouse_stocks db2 = warehouse_stocks db
          /\ movements db2 = movements db
          /\ movement_events db2 = movement_events db) as (Hs2 & Hm2 & He2).
  { unfold product_get_or_create in Hp. unfold warehouse_get_or_create in Hw.
    repeat case_decide; injection Hp as <-; injection Hw as <-;
      repeat split; reflexivity. }
  assert (0 <= q
          /\ q = default 0 (get_stock (ev_warehouse_id ev) (ev_product_id ev) db)
                 + quantity_delta ev
          /\ db3 = set_warehouse_stocks
                     (<[(ev_warehouse_id ev, ev_product_id ev) := q]>
                        (warehouse_stocks db2)) db2) as (Hq & Hqv & ->).
  { apply create_or_update_stock_ok in Hs as (Hqv & Hr & ->).
    unfold get_stock in *. rewrite Hs2 in Hqv.
    repeat split; [lia | exact Hqv]. }
  apply create_or_update_row in Hm as (Hmv & ->). cbn in Hmv.
  unfold event_create in He. cbn in He. rewrite He2, Hnone in He.
  injection He as <- <-. cbn.
  exists q, m, (mk_MovementEvent (ev_message_id ev) (ev_movement_id ev)
                 (ev_warehouse_id ev) (ev_event_type ev) (ev_timestamp ev)
                 (ev_product_id ev) (ev_quantity ev) (ev_message_id ev)
                 (ev_message_source ev) (ev_message_time ev)).
  rewrite Hs2, Hm2. rewrite Hm2 in Hmv.
  repeat split; first [assumption | reflexivity].
Qed.

Lemma applies_stock_nonneg ev db db5 :
  stock_nonneg db -> applies ev db db5 -> stock_nonneg db5.
Proof.
  intros Hinv Happ.
  apply applies_tables in Happ as (q & m & e & Hq & _ & Hs & _).
  intros k q' Hk. rewrite Hs in Hk.
  destruct (decide ((ev_warehouse_id ev, ev_product_id ev) = k)) as [Heq | Hne].
  - subst k. rewrite lookup_insert_eq in Hk. congruence.
  - rewrite lookup_insert_ne in Hk by assumption. eauto.
Qed.

Lemma applies_journal ev db db5 :
  applies ev db db5 ->
  is_Some (movement_events db5 !! ev_message_id ev)
  /\ forall id, is_Some (movement_events db !! id) ->
                is_Some (movement_events db5 !! id).
Proof.
  intros Happ.
  apply applies_tables in Happ as (q & m & e & _ & _ & _ & _ & _ & _ & _ & He).
  rewrite He. split.
  - rewrite lookup_insert_eq. eauto.
  - intros id Hid. destruct (decide (ev_message_id ev = id)) as [Heq | Hne].
    + subst id. rewrite lookup_insert_eq. eauto.
    + rewrite lookup_insert_ne by assumption. assumption.
Qed.

(** ** Invariants of the consumer loop *)

Section Loop.
Context `{PyLib}.

(** A delivery changes the committed database only by applying its
    event. *)
Lemma wrapper_committed d w :
  committed (snd (_process_message_wrapper d w)) = committed w
  \/ exists ev, normalize (record d) = inr ev
       /\ applies ev (committed w) (committed (snd (_process_message_wrapper d w))).
Proof.
  destruct (wrapper_cases d w) as [(b & _ & ->) | (ev & Hn & ->)];
    [left; reflexivity |].
  destruct (run_in_session (db_fault d) ev w) as [b w'] eqn:Hr.
  apply run_in_session_cases in Hr.
  destruct Hr as [(_ & _ & ->) | [(_ & db5 & Happ & ->) | [(_ & ->) | (_ & _ & _ & ->)]]];
    cbn; eauto.
Qed.

Lemma wrapper_at_rest d w :
  at_rest w -> at_rest (snd (_process_message_wrapper d w)).
Proof.
  intros Hw.
  destruct (wrapper_cases d w) as [(b & _ & ->) | (ev & _ & ->)];
    [exact Hw |].
  destruct (run_in_session (db_fault d) ev w) as [b w'] eqn:Hr.
  exact (run_in_session_at_rest _ _ _ _ _ Hr).
Qed.

Section Invariant.
Variable P : DB -> Prop.
Hypothesis P_step :
  forall d w, P (committed w) -> P (committed (snd (_process_message_wrapper d w))).

Lemma for_messages_invariant messages last w :
  P (committed w) -> P (committed (snd (for_messages messages last w))).
Proof.
  revert last w. induction messages as [| d rest IH]; intros last w Hw;
    [exact Hw |].
  cbn. specialize (P_step d w Hw).
  destruct (_process_message_wrapper d w) as [b w']. apply IH. exact P_step.
Qed.

Lemma process_partition_invariant tp messages w :
  P (committed w) -> P (committed (process_partition tp messages w)).
Proof.
  intros Hw. unfold process_partition.
  pose proof (for_messages_invariant messages (-1) w Hw) as Hf.
  destruct (for_messages messages (-1) w) as [last w'].
  destruct (last >=? 0); exact Hf.
Qed.

Lemma consume_result_invariant result w :
  P (committed w) -> P (committed (consume_result result w)).
Proof.
  unfold consume_result. revert w.
  induction result as [| [tp messages] rest IH]; intros w Hw; [exact Hw |].
  cbn. apply IH. apply process_partition_invariant. exact Hw.
Qed.

Lemma consume_messages_invariant polls w :
  P (committed w) -> P (committed (_consume_messages polls w)).
Proof.
  unfold _consume_messages. revert w.
  induction polls as [| result rest IH]; intros w Hw; [exact Hw |].
  cbn. apply IH. apply consume_result_invariant. exact Hw.
Qed.

Lemma deliver_all_invariant ds w :
  P (committed w) -> P (committed (deliver_all ds w)).
Proof.
  unfold deliver_all. revert w.
  induction ds as [| d rest IH]; intros w Hw; [exact Hw |].
  cbn. apply IH. apply P_step. exact Hw.
Qed.

End Invariant.

Lemma wrapper_stock_nonneg d w :
  stock_nonneg (committed w) ->
  stock_nonneg (committed (snd (_process_message_wrapper d w))).
Proof.
  intros Hw. destruct (wrapper_committed d w) as [-> | (ev & _ & Happ)];
    [exact Hw |].
  exact (applies_stock_nonneg _ _ _ Hw Happ).
Qed.

End Loop.

Lemma stock_nonneg_empty : stock_nonneg empty_db.
Proof. intros k q Hk. cbn in Hk. rewrite lookup_empty in Hk. discriminate. Qed.

(** C4. No committed state holds a negative stock quantity: a delivery
    takes a committed database without negative quantities to one without
    negative quantities, whatever the record holds and whichever database
    round trip fails, and so does any run of the consumer loop; in
    particular every run from the empty database ends, and passes, only
    through such states. *)
Theorem stock_never_negative `{PyLib} :
  (forall d w,
      stock_nonneg (committed w) ->
      stock_nonneg (committed (snd (_process_message_wrapper d w))))
  /\ (forall polls w,
      stock_nonneg (committed w) ->
      stock_nonneg (committed (_consume_messages polls w)))
  /\ (forall polls,
      stock_nonneg (committed (_consume_messages polls initial_world))).
Proof.
  split; [exact wrapper_stock_nonneg |]. split.
  - intros polls w. apply consume_messages_invariant. exact wrapper_stock_nonneg.
  - intros polls. apply consume_messages_invariant;
      [exact wrapper_stock_nonneg | exact stock_nonneg_empty].
Qed.

Lemma stock_never_negative_witness :
  stock_nonneg (committed initial_world)
  /\ stock_nonneg
       (committed
          (snd (_process_message_wrapper (H := Samples.sample_lib)
                  Samples.arrival_M1 initial_world))).
Proof.
  split; [exact stock_nonneg_empty |].
  apply (proj1 (stock_never_negative (H := Samples.sample_lib))).
  exact stock_nonneg_empty.
Defined.

(** ** Redelivery *)

Section Redelivery.
Context `{PyLib}.

Lemma not_commit_in_rollback ev :
  DbCommit ∈ invalidation ev ++ [DbRollback] -> False.
Proof.
  unfold invalidation. cbn. intros Hin.
  repeat (apply elem_of_cons in Hin as [Hin | Hin]; [discriminate |]).
  apply elem_of_nil in Hin. exact Hin.
Qed.

(** A delivery whose effects include a commit is one whose record was
    normalized to an event and whose event was applied; its effects are the
    two cache deletions and then the commit. *)
Lemma wrapper_commit_inv d w tr :
  log (snd (_process_message_wrapper d w)) = log w ++ tr ->
  DbCommit ∈ tr ->
  exists ev db5,
    normalize (record d) = inr ev
    /\ applies ev (committed w) db5
    /\ _process_message_wrapper d w
       = (true, mk_world db5 db5 (log w ++ invalidation ev ++ [DbCommit]))
    /\ tr = invalidation ev ++ [DbCommit].
Proof.
  intros Hlog Hin.
  destruct (wrapper_cases d w) as [(b & _ & Hw) | (ev & Hn & Hw)];
    rewrite Hw in Hlog |- *.
  - cbn in Hlog. rewrite <- (app_nil_r (log w)) in Hlog at 1.
    apply app_inv_head in Hlog. subst tr. apply elem_of_nil in Hin. contradiction.
  - destruct (run_in_session (db_fault d) ev w) as [b w'] eqn:Hr.
    apply run_in_session_cases in Hr. cbn in Hlog.
    destruct Hr as [(_ & _ & ->) | [(-> & db5 & Happ & ->) | [(_ & ->) | (_ & _ & _ & ->)]]];
      cbn in Hlog.
    + rewrite <- (app_nil_r (log w)) in Hlog at 1.
      apply app_inv_head in Hlog. subst tr. apply elem_of_nil in Hin. contradiction.
    + apply app_inv_head in Hlog. subst tr. exists ev, db5. repeat split; assumption.
    + apply app_inv_head in Hlog. subst tr.
      apply elem_of_cons in Hin as [Hin | Hin]; [discriminate |].
      apply elem_of_nil in Hin. contradiction.
    + apply app_inv_head in Hlog. subst tr.
      exfalso. exact (not_commit_in_rollback _ Hin).
Qed.

(** The journal only grows. *)
Lemma wrapper_journal_mono id d w :
  is_Some (movement_events (committed w) !! id) ->
  is_Some (movement_events (committed (snd (_process_message_wrapper d w))) !! id).
Proof.
  intros Hid. destruct (wrapper_committed d w) as [-> | (ev & _ & Happ)];
    [exact Hid |].
  apply applies_journal in Happ as (_ & Hmono). apply Hmono. exact Hid.
Qed.

Lemma deliver_all_at_rest ds w : at_rest w -> at_rest (deliver_all ds w).
Proof.
  unfold deliver_all. revert w.
  induction ds as [| d rest IH]; intros w Hw; [exact Hw |].
  cbn. apply IH. apply wrapper_at_rest. exact Hw.
Qed.

(** A record whose message is in the journal, delivered when the journal
    query goes through: success, and the world stays as it is. *)
Lemma wrapper_already r ev fault w :
  normalize r = inr ev ->
  at_rest w ->
  is_Some (movement_events (committed w) !! ev_message_id ev) ->
  fault <> Some QueryProcessed ->
  _process_message_wrapper (mk_delivery r fault) w = (true, w).
Proof.
  intros Hn Hrest Hin Hf. unfold _process_message_wrapper. cbn. rewrite Hn.
  unfold run_in_session.
  rewrite process_already by assumption.
  unfold close_session, open_session. cbn.
  destruct w as [c s l]. unfold at_rest in Hrest. cbn in *. subst s. reflexivity.
Qed.

(** A record whose message is in the journal, delivered under any fault:
    the committed database stays as it is. *)
Lemma wrapper_already_committed r ev fault w :
  normalize r = inr ev ->
  is_Some (movement_events (committed w) !! ev_message_id ev) ->
  committed (snd (_process_message_wrapper (mk_delivery r fault) w)) = committed w.
Proof.
  intros Hn Hin.
  destruct (wrapper_committed (mk_delivery r fault) w) as [Hc | (ev' & Hn' & Happ)];
    [exact Hc |].
  cbn in Hn'. rewrite Hn in Hn'. injection Hn' as <-.
  destruct Happ as (? & ? & ? & ? & ? & ? & ? & Hnone & _).
  rewrite Hnone in Hin. destruct Hin as [? Hin]. discriminate.
Qed.

End Redelivery.

(** C5. Once the transaction of a message has committed, the message is in
    the journal, and however many other deliveries follow, every redelivery
    of it whose journal query goes through finds it there, returns success
    and leaves the whole world (committed database, session, effect log) as
    it is: no write to stock, movements or journal, no cache deletion, no
    commit. A redelivery under any database fault still leaves the
    committed database as it is. So the state after any number of replays
    is the state after the first processing. ([is_event_processed] returning
    [True] is the journal query of the service seeing the message.) *)
Theorem redelivery_has_no_effect `{PyLib} (d : delivery) (w : world)
    (tr : list effect) :
  log (snd (_process_message_wrapper d w)) = log w ++ tr ->
  DbCommit ∈ tr ->
  let w1 := snd (_process_message_wrapper d w) in
  exists ev,
    normalize (record d) = inr ev
    /\ is_Some (movement_events (committed w1) !! ev_message_id ev)
    /\ (forall ds fault,
          let w2 := deliver_all ds w1 in
          is_event_processed (ev_message_id ev) (committed w2)
          = Ok (true, committed w2)
          /\ committed (snd (_process_message_wrapper
                               (mk_delivery (record d) fault) w2))
             = committed w2
          /\ (fault <> Some QueryProcessed ->
              _process_message_wrapper (mk_delivery (record d) fault) w2
              = (true, w2)))
    /\ (forall n fault,
          fault <> Some QueryProcessed ->
          deliver_all (replicate n (mk_delivery (record d) fault)) w1 = w1).
Proof.
  intros Hlog Hin w1.
  destruct (wrapper_commit_inv d w tr Hlog Hin) as (ev & db5 & Hn & Happ & Hw & _).
  assert (at_rest w1) as Hrest1 by (unfold w1; rewrite Hw; reflexivity).
  assert (is_Some (movement_events (committed w1) !! ev_message_id ev)) as Hin1.
  { unfold w1. rewrite Hw. cbn. apply applies_journal in Happ as (Hj & _). exact Hj. }
  exists ev. split; [exact Hn |]. split; [exact Hin1 |].
  assert (forall ds, is_Some (movement_events (committed (deliver_all ds w1))
                                !! ev_message_id ev)) as Hlater.
  { intros ds.
    apply (deliver_all_invariant
             (fun db => is_Some (movement_events db !! ev_message_id ev)));
      [| exact Hin1].
    intros d' w'. apply wrapper_journal_mono. }
  split.
  - intros ds fault w2. split.
    { unfold is_event_processed.
      rewrite bool_decide_eq_true_2 by apply Hlater. reflexivity. }
    split.
    + apply (wrapper_already_committed _ ev); [exact Hn | apply Hlater].
    + intros Hf. apply (wrapper_already _ ev); try assumption.
      * apply deliver_all_at_rest. exact Hrest1.
      * apply Hlater.
  - intros n fault Hf. induction n as [| n IH]; [reflexivity |].
    cbn. unfold deliver_all in *. cbn.
    rewrite (wrapper_already _ ev) by assumption. cbn. exact IH.
Qed.

Lemma redelivery_has_no_effect_witness :
  _process_message_wrapper (H := Samples.sample_lib)
    (mk_delivery (record Samples.arrival_M1) None)
    (snd (_process_message_wrapper (H := Samples.sample_lib)
            Samples.arrival_M1 initial_world))
  = (true,
     snd (_process_message_wrapper (H := Samples.sample_lib)
            Samples.arrival_M1 initial_world)).
Proof.
  destruct (redelivery_has_no_effect (H := Samples.sample_lib)
              Samples.arrival_M1 initial_world Samples.arrival_effects)
    as (ev & _ & _ & Hre & _).
  - vm_compute. reflexivity.
  - unfold Samples.arrival_effects. repeat constructor.
  - apply (Hre [] None). discriminate.
Defined.

(** ** Malformed records *)

Section Malformed.
Context `{PyLib}.

(** A document that lacks a field, or holds a value of the wrong type,
    fails the schema. *)
Lemma missing_field_fails_schema raw :
  pydantic_fields raw = Raise ValidationError ->
  model_validate raw = Raise ValidationError.
Proof. unfold model_validate. intros ->. reflexivity. Qed.

(** So does a document whose [time] is negative. *)
Lemma negative_time_fails_schema raw m :
  pydantic_fields raw = Ok m -> km_time m < 0 ->
  model_validate raw = Raise ValidationError.
Proof.
  unfold model_validate, validate_time_positive. intros -> Hneg.
  destruct (Z.ltb_spec (km_time m) 0); [reflexivity | lia].
Qed.

(** So does a document whose [data.timestamp] does not parse. *)
Lemma bad_timestamp_fails_schema raw m :
  pydantic_fields raw = Ok m ->
  fromisoformat (replace_Z (timestamp (km_data m))) = None ->
  model_validate raw = Raise ValidationError.
Proof.
  unfold model_validate, validate_data, validate_timestamp_format.
  intros -> ->. destruct (validate_time_positive _); reflexivity.
Qed.

(** So does a document whose [data.event] is neither "arrival" nor
    "departure" in any letter case. *)
Lemma bad_event_fails_schema raw m :
  pydantic_fields raw = Ok m ->
  lower (event (km_data m)) ∉ allowed_events ->
  model_validate raw = Raise ValidationError.
Proof.
  unfold model_validate, validate_data, validate_event_type.
  intros -> Hev. rewrite bool_decide_eq_false_2 by assumption.
  destruct (validate_time_positive _); try reflexivity.
  destruct (validate_timestamp_format _); reflexivity.
Qed.

(** [model_validate] raises nothing but [ValidationError]. *)
Lemma model_validate_raises raw e :
  model_validate raw = Raise e -> e = ValidationError.
Proof.
  unfold model_validate, pydantic_fields.
  destruct raw; try (intros Heq; injection Heq as <-; reflexivity).
  destruct (message_fields items) as [m |];
    [| intros Heq; injection Heq as <-; reflexivity].
  destruct (validate_time_positive (km_time m)),
    (validate_data (km_data m));
    intros Heq; first [discriminate | injection Heq as <-; reflexivity].
Qed.

Lemma malformed_normalize r : malformed r -> normalize r = inl true.
Proof.
  unfold normalize.
  intros [Hl | Hl | raw Hl Hv | raw km Hl Hv Hp]; rewrite Hl; try reflexivity.
  - rewrite Hv. reflexivity.
  - rewrite Hv, Hp. reflexivity.
Qed.

Lemma fails_otherwise_normalize r : fails_otherwise r -> normalize r = inl false.
Proof.
  unfold normalize. intros (e & -> & H1 & H2).
  destruct e; first [reflexivity | contradiction].
Qed.

(** The wrapper returns before it opens a session exactly for these two
    kinds of record, with [True] for the first and [False] for the
    second. *)
Lemma normalize_inl r b :
  normalize r = inl b <->
  (b = true /\ malformed r) \/ (b = false /\ fails_otherwise r).
Proof.
  split.
  - unfold normalize.
    destruct (decode r) as [raw | e] eqn:Hd.
    + destruct (model_validate raw) as [km | e] eqn:Hv.
      * destruct (_prepare_event_data km) eqn:Hp; [discriminate |].
        intros Heq. injection Heq as <-. left. split; [reflexivity |].
        exact (bad_time r raw km Hd Hv Hp).
      * pose proof (model_validate_raises _ _ Hv) as ->.
        intros Heq. injection Heq as <-. left. split; [reflexivity |].
        exact (bad_schema r raw Hd Hv).
    + destruct e; intros Heq; injection Heq as <-;
        first [ left; split; [reflexivity |];
                first [exact (bad_utf8 r Hd) | exact (bad_json r Hd)]
              | right; split; [reflexivity |]; eexists;
                split; [exact Hd |]; split; discriminate ].
  - intros [(-> & Hm) | (-> & Hf)];
      [apply malformed_normalize | apply fails_otherwise_normalize]; assumption.
Qed.

(** The loop takes the messages of a batch one after the other, whatever
    the wrapper returned for the ones before. *)
Lemma for_messages_app l1 l2 last w :
  for_messages (l1 ++ l2) last w
  = for_messages l2 (fst (for_messages l1 last w)) (snd (for_messages l1 last w)).
Proof.
  revert last w. induction l1 as [| d rest IH]; intros last w; [reflexivity |].
  cbn. destruct (_process_message_wrapper d w) as [b w']. apply IH.
Qed.

Lemma for_messages_lower_bound lo l last w :
  (forall d, d ∈ l -> lo <= offset (record d)) ->
  lo <= last ->
  lo <= fst (for_messages l last w).
Proof.
  revert last w. induction l as [| d rest IH]; intros last w Hl Hlast;
    [exact Hlast |].
  cbn. destruct (_process_message_wrapper d w) as [b w'].
  apply IH.
  - intros d' Hd'. apply Hl. apply list_elem_of_further. exact Hd'.
  - destruct b; [apply Hl; apply list_elem_of_here | exact Hlast].
Qed.

End Malformed.

(** C8. A record with a failure the wrapper has a clause for (bytes that
    are not UTF-8 or not JSON, a document that fails the schema of the
    envelope or of [data], a [time] that is no date) is a terminal
    rejection. The wrapper returns success for it and leaves the world as
    it found it: no database write (committed database and session
    unchanged) and no cache operation (no effect is logged at all). In a
    batch whose later offsets are not smaller, the loop then commits an
    offset beyond the record, so the record is skipped. A record whose
    decoding raises anything else is not: the wrapper reports a failure
    for it, still without a write or a cache operation, and a batch that
    holds nothing else commits no offset. The wrapper returns before it
    opens a session for these two kinds of record only. *)
Theorem malformed_is_terminal `{PyLib} (d : delivery) :
  (malformed (record d) ->
   (forall w, _process_message_wrapper d w = (true, w))
   /\ (forall tp before after w,
         0 <= offset (record d) ->
         (forall d', d' ∈ after -> offset (record d) <= offset (record d')) ->
         exists o,
           last (log (process_partition tp (before ++ d :: after) w))
           = Some (OffsetCommit (fst tp) (snd tp) o)
           /\ offset (record d) < o))
  /\ (fails_otherwise (record d) ->
      (forall w, _process_message_wrapper d w = (false, w))
      /\ (forall tp w, process_partition tp [d] w = w))
  /\ (forall b, normalize (record d) = inl b ->
      malformed (record d) \/ fails_otherwise (record d)).
Proof.
  split; [| split].
  - intros Hmal.
    assert (forall w, _process_message_wrapper d w = (true, w)) as Hskip.
    { intros w. unfold _process_message_wrapper.
      rewrite (malformed_normalize _ Hmal). reflexivity. }
    split; [exact Hskip |].
    intros tp before after w Hpos Hafter.
    unfold process_partition. rewrite for_messages_app. cbn.
    rewrite Hskip.
    pose proof (for_messages_lower_bound (offset (record d)) after
                  (offset (record d)) (snd (for_messages before (-1) w))
                  Hafter (Z.le_refl _)) as Hlo.
    destruct (for_messages after _ _) as [lst w'] eqn:Hfm. cbn in Hlo.
    destruct (Z.geb_spec lst 0) as [Hge | Hlt]; [| lia].
    exists (lst + 1). cbn. rewrite last_snoc. split; [reflexivity | lia].
  - intros Hf.
    assert (forall w, _process_message_wrapper d w = (false, w)) as Hfail.
    { intros w. unfold _process_message_wrapper.
      rewrite (fails_otherwise_normalize _ Hf). reflexivity. }
    split; [exact Hfail |].
    intros tp w. unfold process_partition. cbn [for_messages].
    rewrite Hfail. reflexivity.
  - intros b Hb. apply normalize_inl in Hb as [(_ & Hm) | (_ & Hf)]; auto.
Qed.

Lemma malformed_is_terminal_witness :
  _process_message_wrapper (H := Samples.sample_lib) Samples.garbage initial_world
  = (true, initial_world).
Proof.
  apply (proj1 (proj1 (malformed_is_terminal (H := Samples.sample_lib)
                         Samples.garbage)
                  ltac:(apply bad_json; reflexivity))).
Defined.

(** Not every record that fails decoding is a terminal rejection: for a
    document nested too deep, and for a record without a value, decoding
    raises, the wrapper reports a failure, and the loop commits no
    offset. *)
Lemma decoding_failure_not_terminal :
  decode (H := Samples.sample_lib) (record Samples.deep_nesting)
  = Raise RecursionError
  /\ _process_message_wrapper (H := Samples.sample_lib) Samples.deep_nesting
       initial_world
     = (false, initial_world)
  /\ process_partition (H := Samples.sample_lib) Samples.tp0
       [Samples.deep_nesting] initial_world
     = initial_world
  /\ decode (H := Samples.sample_lib) (record Samples.tombstone)
     = Raise AttributeError
  /\ _process_message_wrapper (H := Samples.sample_lib) Samples.tombstone
       initial_world
     = (false, initial_world)
  /\ process_partition (H := Samples.sample_lib) Samples.tp0
       [Samples.tombstone] initial_world
     = initial_world.
Proof. vm_compute. repeat split; reflexivity. Qed.

(** A [time] beyond the year 9999 passes validation and cannot be
    prepared: the record is skipped. *)
Example sample_time_out_of_range :
  malformed (H := Samples.sample_lib) (record Samples.far_future)
  /\ _process_message_wrapper (H := Samples.sample_lib) Samples.far_future
       initial_world
     = (true, initial_world).
Proof.
  split; [| vm_compute; reflexivity].
  assert (normalize (H := Samples.sample_lib) (record Samples.far_future)
          = inl true) as Hn by (vm_compute; reflexivity).
  apply normalize_inl in Hn as [(_ & Hm) | (Hx & _)];
    [exact Hm | discriminate].
Qed.

(** Scenario 6 of the specification: a payload without
    [data.movement_id] is skipped, the offset advances, nothing is written
    and the cache is not touched. *)
Example sample_missing_movement_id :
  process_partition (H := Samples.sample_lib) Samples.tp0
    [Samples.no_movement_id] initial_world
  = mk_world empty_db empty_db [OffsetCommit "warehouse-movements" 0 5].
Proof. vm_compute. reflexivity. Qed.

(** A [data.timestamp] that does not parse: skipped as well. *)
Example sample_bad_timestamp :
  _process_message_wrapper (H := Samples.sample_lib)
    (Samples.deliver 9 "{arrival M7 W1 P1 1 at noon}") initial_world
  = (true, initial_world).
Proof. vm_compute. reflexivity. Qed.

(** ** Cache invalidation and the commit *)

(** Whenever a delivery commits, its two cache deletions come first: the
    service deletes the keys at the end of [process_movement_event], and
    the wrapper commits only after the service has returned. *)
Lemma invalidation_precedes_commit `{PyLib} d w tr :
  log (snd (_process_message_wrapper d w)) = log w ++ tr ->
  DbCommit ∈ tr ->
  exists ev, normalize (record d) = inr ev
             /\ tr = invalidation ev ++ [DbCommit].
Proof.
  intros Hlog Hin.
  destruct (wrapper_commit_inv d w tr Hlog Hin) as (ev & db5 & Hn & _ & _ & Htr).
  eauto.
Qed.

(** C1 (the code departs from it). The arrival of M1, delivered to the
    empty system: both cache keys are deleted before the transaction
    commits. When the commit then fails, the keys have been deleted for a
    transaction that is rolled back. *)
Theorem cache_deleted_before_commit :
  _process_message_wrapper (H := Samples.sample_lib)
    Samples.arrival_M1 initial_world
  = (true,
     mk_world
       (committed (snd (_process_message_wrapper (H := Samples.sample_lib)
                          Samples.arrival_M1 initial_world)))
       (committed (snd (_process_message_wrapper (H := Samples.sample_lib)
                          Samples.arrival_M1 initial_world)))
       [CacheDelete "stock:W1:P1"; CacheDelete "movement:M1"; DbCommit])
  /\ get_stock "W1" "P1"
       (committed (snd (_process_message_wrapper (H := Samples.sample_lib)
                          Samples.arrival_M1 initial_world)))
     = Some 100
  /\ _process_message_wrapper (H := Samples.sample_lib)
       Samples.arrival_M1_commit_fails initial_world
     = (false,
        mk_world empty_db empty_db
          [CacheDelete "stock:W1:P1"; CacheDelete "movement:M1"; DbRollback]).
Proof. vm_compute. repeat split; reflexivity. Qed.

(** ** A failed message inside a batch *)

(** A failure does not end the loop over the batch: a later success moves
    [last_processed_offset] past the failed message, and that offset is
    committed. *)
Lemma later_success_commits_past_failure `{PyLib} tp d_fail d_ok w :
  fst (_process_message_wrapper d_fail w) = false ->
  fst (_process_message_wrapper d_ok (snd (_process_message_wrapper d_fail w)))
  = true ->
  0 <= offset (record d_ok) ->
  last (log (process_partition tp [d_fail; d_ok] w))
  = Some (OffsetCommit (fst tp) (snd tp) (offset (record d_ok) + 1)).
Proof.
  intros Hfail Hok Hpos. unfold process_partition. cbn.
  destruct (_process_message_wrapper d_fail w) as [b1 w1]. cbn in *. subst b1.
  destruct (_process_message_wrapper d_ok w1) as [b2 w2]. cbn in *. subst b2.
  destruct (Z.geb_spec (offset (record d_ok)) 0); [| lia].
  cbn. apply last_snoc.
Qed.

(** C2 (the code departs from it). In [Samples.batch_transient] the message
    at offset 0 fails on a database error and is rolled back; the loop
    goes on to the message at offset 1, applies and commits it, and then
    commits offset 2 for the partition: past the failed message, which was
    never applied. *)
Theorem offset_committed_past_transient_failure :
  _process_message_wrapper (H := Samples.sample_lib)
    (Samples.deliver_failing 0 "{arrival M1 W1 P1 100}" StockUpdate)
    initial_world
  = (false, mk_world empty_db empty_db [DbRollback])
  /\ log (process_partition (H := Samples.sample_lib) Samples.tp0
            Samples.batch_transient initial_world)
     = [DbRollback;
        CacheDelete "stock:W1:P1"; CacheDelete "movement:M0"; DbCommit;
        OffsetCommit "warehouse-movements" 0 2]
  /\ get_stock "W1" "P1"
       (committed (process_partition (H := Samples.sample_lib) Samples.tp0
                     Samples.batch_transient initial_world))
     = Some 5
  /\ movement_events
       (committed (process_partition (H := Samples.sample_lib) Samples.tp0
                     Samples.batch_transient initial_world)) !! "msg-1"
     = None.
Proof. vm_compute. repeat split; reflexivity. Qed.

(** ** Negative stock *)

(** An event that is not in the journal and would take its stock row
    below zero: the wrapper reports failure and rolls back. The committed
    database is the one before the event (no journal row, same stock row,
    same movement row), and no cache key is deleted. *)
Lemma negative_stock_rolls_back `{PyLib} d ev w :
  normalize (record d) = inr ev ->
  movement_events (committed w) !! ev_message_id ev = None ->
  default 0 (get_stock (ev_warehouse_id ev) (ev_product_id ev) (committed w))
    + quantity_delta ev < 0 ->
  _process_message_wrapper d w
  = (false, mk_world (committed w) (committed w) (log w ++ [DbRollback])).
Proof.
  intros Hn Hnew Hneg. unfold _process_message_wrapper. rewrite Hn.
  destruct (run_in_session (db_fault d) ev w) as [b w'] eqn:Hr.
  apply run_in_session_cases in Hr.
  destruct Hr as [(_ & Hin & _) | [(_ & db5 & Happ & _) | [(-> & ->) | (_ & _ & (db5 & Happ) & _)]]].
  - rewrite Hnew in Hin. destruct Hin as [? Hin]. discriminate.
  - apply applies_tables in Happ as (q & ? & ? & Hq & Hqv & _). lia.
  - reflexivity.
  - apply applies_tables in Happ as (q & ? & ? & Hq & Hqv & _). lia.
Qed.

(** C9 (the code departs from it). With 5 units of P1 at W1, the batch
    [Samples.batch_negative] holds a departure of 10 at offset 1 and an
    arrival at offset 2. The departure is rolled back: the wrapper returns
    failure, the committed database is unchanged and the journal has no row
    for it. The loop goes on, applies the arrival and commits offset 3 for
    the partition: the offset has moved past the rejected departure. *)
Theorem offset_committed_past_negative_stock :
  get_stock "W1" "P1" (committed Samples.world5) = Some 5
  /\ _process_message_wrapper (H := Samples.sample_lib)
       (Samples.deliver 1 "{departure M3 W1 P1 10}") Samples.world5
     = (false,
        mk_world (committed Samples.world5) (committed Samples.world5)
          (log Samples.world5 ++ [DbRollback]))
  /\ log (process_partition (H := Samples.sample_lib) Samples.tp0
            Samples.batch_negative Samples.world5)
     = log Samples.world5 ++
       [DbRollback;
        CacheDelete "stock:W1:P1"; CacheDelete "movement:M1"; DbCommit;
        OffsetCommit "warehouse-movements" 0 3]
  /\ movement_events
       (committed (process_partition (H := Samples.sample_lib) Samples.tp0
                     Samples.batch_negative Samples.world5)) !! "msg-4"
     = None
  /\ get_stock "W1" "P1"
       (committed (process_partition (H := Samples.sample_lib) Samples.tp0
                     Samples.batch_negative Samples.world5))
     = Some 105.
Proof. vm_compute. repeat split; reflexivity. Qed.

(** ** The movement pairing store *)

(** [derive] writes the two derived fields and nothing else. *)
Lemma derive_shape m :
  exists tt qd, derive m = set_quantity_difference qd (set_transfer_time tt m).
Proof.
  unfold derive.
  destruct (departure_timestamp m) as [dts |] eqn:Hd;
    [destruct (arrival_timestamp m) as [ats |] eqn:Ha |].
  - destruct (ats >=? dts);
      cbn [departure_quantity arrival_quantity set_transfer_time];
      destruct (departure_quantity m), (arrival_quantity m); eauto.
  - exists (transfer_time m), (quantity_difference m). destruct m; reflexivity.
  - exists (transfer_time m), (quantity_difference m). destruct m; reflexivity.
Qed.

(** With both halves there, [derive] writes both derived fields anew. *)
Lemma derive_full m dts ats dq aq :
  departure_timestamp m = Some dts -> arrival_timestamp m = Some ats ->
  departure_quantity m = Some dq -> arrival_quantity m = Some aq ->
  derive m
  = set_quantity_difference (Some (aq - dq))
      (set_transfer_time
         (if ats >=? dts then Some (total_seconds (ats - dts)) else None) m).
Proof.
  intros Hd Ha Hdq Haq. unfold derive. rewrite Hd, Ha.
  destruct (ats >=? dts);
    cbn [departure_quantity arrival_quantity set_transfer_time];
    rewrite Hdq, Haq; reflexivity.
Qed.




(** ** True division and [total_seconds] *)

Lemma scaled_succ n b e :
  0 < n -> 0 < b ->
  let '(num, den) := scaled n b e in
  let '(num', den') := scaled n b (e + 1) in
  num * den' = 2 * num' * den /\ 0 < num' /\ 0 < den' /\ 0 < num /\ 0 < den.
Proof.
  intros Hn Hb. unfold scaled, pw.
  destruct (Z_lt_le_dec e 0) as [Hneg | Hpos].
  - replace (Z.max 0 (- e)) with (Z.succ (- (e + 1))) by lia.
    replace (Z.max 0 (- (e + 1))) with (- (e + 1)) by lia.
    replace (Z.max 0 e) with 0 by lia. replace (Z.max 0 (e + 1)) with 0 by lia.
    rewrite Z.pow_succ_r by lia.
    assert (0 < 2 ^ (- (e + 1))) by (apply Z.pow_pos_nonneg; lia).
    change (2 ^ 0) with 1. nia.
  - replace (Z.max 0 (- e)) with 0 by lia.
    replace (Z.max 0 (- (e + 1))) with 0 by lia.
    replace (Z.max 0 e) with e by lia.
    replace (Z.max 0 (e + 1)) with (Z.succ e) by lia.
    rewrite Z.pow_succ_r by lia.
    assert (0 < 2 ^ e) by (apply Z.pow_pos_nonneg; lia).
    change (2 ^ 0) with 1. nia.
Qed.

Lemma scaled_log2 n b :
  0 < n -> 0 < b ->
  let '(num, den) := scaled n b (Z.log2 n - Z.log2 b - 53) in
  2 ^ 52 * den < num < 2 ^ 54 * den.
Proof.
  intros Hn Hb.
  pose proof (Z.log2_spec n Hn) as [Hn1 Hn2].
  pose proof (Z.log2_spec b Hb) as [Hb1 Hb2].
  pose proof (Z.log2_nonneg n) as Hln. pose proof (Z.log2_nonneg b) as Hlb.
  set (ln := Z.log2 n) in *. set (lb := Z.log2 b) in *.
  rewrite Z.pow_succ_r in Hn2, Hb2 by assumption.
  unfold scaled, pw.
  assert (0 < 2 ^ lb) by (apply Z.pow_pos_nonneg; lia).
  destruct (Z_lt_le_dec (ln - lb - 53) 0) as [Hneg | Hpos].
  - replace (Z.max 0 (- (ln - lb - 53))) with (lb + 53 - ln) by lia.
    replace (Z.max 0 (ln - lb - 53)) with 0 by lia.
    change (2 ^ 0) with 1.
    assert (2 ^ ln * 2 ^ (lb + 53 - ln) = 2 ^ lb * 2 ^ 53) as Hk.
    { rewrite <- !Z.pow_add_r by lia. f_equal. lia. }
    assert (0 < 2 ^ (lb + 53 - ln)) by (apply Z.pow_pos_nonneg; lia).
    change (2 ^ 52) with 4503599627370496. change (2 ^ 54) with 18014398509481984.
    change (2 ^ 53) with 9007199254740992 in Hk. nia.
  - replace (Z.max 0 (- (ln - lb - 53))) with 0 by lia.
    replace (Z.max 0 (ln - lb - 53)) with (ln - lb - 53) by lia.
    change (2 ^ 0) with 1.
    assert (2 ^ lb * 2 ^ (ln - lb - 53) * 2 ^ 53 = 2 ^ ln) as Hk.
    { rewrite <- !Z.pow_add_r by lia. f_equal. lia. }
    assert (0 < 2 ^ (ln - lb - 53)) by (apply Z.pow_pos_nonneg; lia).
    change (2 ^ 52) with 4503599627370496. change (2 ^ 54) with 18014398509481984.
    change (2 ^ 53) with 9007199254740992 in Hk. nia.
Qed.

(** The exponent [binade] picks puts the quotient in [2^52, 2^53). *)
Lemma binade_spec n b :
  0 < n -> 0 < b ->
  let '(num, den) := scaled n b (binade n b) in
  0 < den /\ 2 ^ 52 * den <= num < 2 ^ 53 * den.
Proof.
  intros Hn Hb. unfold binade.
  pose proof (scaled_log2 n b Hn Hb) as H0.
  pose proof (scaled_succ n b (Z.log2 n - Z.log2 b - 53) Hn Hb) as H1.
  destruct (scaled n b (Z.log2 n - Z.log2 b - 53)) as [num0 den0] eqn:Hs0.
  destruct (scaled n b (Z.log2 n - Z.log2 b - 53 + 1)) as [num den] eqn:Hs1.
  change (2 ^ 52) with 4503599627370496 in *.
  change (2 ^ 54) with 18014398509481984 in *.
  change (2 ^ 53) with 9007199254740992 in *.
  destruct (Z.leb_spec (9007199254740992 * den0) num0) as [Hge | Hlt].
  - rewrite Hs1. nia.
  - rewrite Hs0. lia.
Qed.

Lemma round_half_even_spec num den :
  0 < den -> 0 <= num ->
  let m := round_half_even num den in
  2 * Z.abs (m * den - num) <= den
  /\ num / den <= m <= num / den + 1
  /\ (num mod den = 0 -> m = num / den).
Proof.
  intros Hden Hnum. unfold round_half_even.
  pose proof (Z.div_mod num den ltac:(lia)) as Hdm.
  pose proof (Z.mod_pos_bound num den Hden) as Hr.
  set (q := num / den) in *. set (r := num mod den) in *.
  destruct (Z.ltb_spec den (2 * r)) as [H1 | H1]; cbn [orb].
  - split; [nia |]. split; lia.
  - destruct (Z.eqb_spec den (2 * r)) as [H2 | H2]; cbn [andb].
    + destruct (Z.odd q); (split; [nia |]; split; lia).
    + split; [nia |]. split; lia.
Qed.

(** No integer is nearer to the quotient than the rounded one. *)
Lemma round_half_even_nearest num den k :
  0 < den -> 0 <= num ->
  Z.abs (round_half_even num den * den - num) <= Z.abs (k * den - num).
Proof.
  intros Hden Hnum.
  destruct (round_half_even_spec num den Hden Hnum) as (H1 & _ & _).
  set (m := round_half_even num den) in *.
  destruct (Z.eq_dec k m) as [-> | Hne]; [lia |].
  assert (den <= Z.abs (k * den - m * den)) by nia.
  lia.
Qed.


Lemma pw_pos e : 0 < pw e.
Proof. unfold pw. apply Z.pow_pos_nonneg; lia. Qed.

(** [2^e2 / 2^e1 = 2^(e2 - e1)], without fractions. *)
Lemma pw_rel e1 e2 :
  e1 <= e2 -> pw e2 * pw (- e1) = 2 ^ (e2 - e1) * pw e1 * pw (- e2).
Proof.
  intros H. unfold pw. rewrite <- !Z.pow_add_r by lia. f_equal. lia.
Qed.


Lemma nearest_core n b M e d :
  0 < n -> 0 < b ->
  (let '(num, den) := scaled n b e in
   2 ^ 52 * den <= num
   /\ forall k, Z.abs (M * den - num) <= Z.abs (k * den - num)) ->
  is_double d ->
  miss n b (mk_float M e) * value_den d <= miss n b d * pw (- e).
Proof.
  intros Hn Hb Hs Hd. unfold scaled in Hs.
  destruct Hs as (Hlow & Hnear).
  unfold miss, value_num, value_den, is_double in *. cbn [mantissa exponent].
  destruct d as [md ed]. cbn [mantissa exponent] in *.
  pose proof (pw_pos e) as HP. pose proof (pw_pos (- e)) as HN.
  pose proof (pw_pos ed) as HPd. pose proof (pw_pos (- ed)) as HNd.
  set (P := pw e) in *. set (N := pw (- e)) in *.
  set (Pd := pw ed) in *. set (Nd := pw (- ed)) in *.
  replace (M * P * b - n * N) with (M * (b * P) - n * N) by ring.
  destruct (Z_le_gt_dec e ed) as [Hle | Hgt].
  - (* the competitor is on the grid of [t] *)
    pose proof (pw_rel e ed Hle) as Hrel. fold P N Pd Nd in Hrel.
    specialize (Hnear (md * 2 ^ (ed - e))).
    assert ((md * Pd * b - n * Nd) * N
            = (md * 2 ^ (ed - e) * (b * P) - n * N) * Nd) as Heq.
    { transitivity (md * b * (Pd * N) - n * Nd * N); [ring |].
      rewrite Hrel. ring. }
    rewrite <- (Z.abs_eq N) at 2 by lia. rewrite <- Z.abs_mul, Heq, Z.abs_mul.
    rewrite (Z.abs_eq Nd) by lia. nia.
  - (* the competitor is below the binade of the quotient *)
    assert (e - 1 >= ed) as Hle by lia.
    pose proof (pw_rel ed (e - 1) ltac:(lia)) as Hrel.
    assert (pw e * pw (- (e - 1)) = 2 * pw (e - 1) * pw (- e)) as Hrel1.
    { pose proof (pw_rel (e - 1) e ltac:(lia)) as Hx.
      replace (e - (e - 1)) with 1 in Hx by lia. exact Hx. }
    fold P N Pd Nd in Hrel, Hrel1.
    pose proof (pw_pos (e - 1)) as HP1. pose proof (pw_pos (- (e - 1))) as HN1.
    set (P1 := pw (e - 1)) in *. set (N1 := pw (- (e - 1))) in *.
    assert (1 <= 2 ^ (e - 1 - ed)) as Hpow.
    { assert (0 < 2 ^ (e - 1 - ed)) by (apply Z.pow_pos_nonneg; lia). lia. }
    set (G := 2 ^ (e - 1 - ed)) in *.
    (* 2 * Pd * N <= P * Nd *)
    assert (2 * (Pd * N) * (P1 * N1) <= P * Nd * (P1 * N1)) as Hgrid.
    { (* P1 * Nd = G * Pd * N1 and P * N1 = 2 * P1 * N *)
      nia. }
    assert (2 * (Pd * N) <= P * Nd) as Hgrid' by nia.
    specialize (Hnear (2 ^ 52)).
    change (2 ^ 52) with 4503599627370496 in *.
    change (2 ^ 53) with 9007199254740992 in *.
    assert (md * (Pd * N) <= 4503599627370496 * (P * Nd)) as Hbelow by nia.
    assert (Z.abs (M * (b * P) - n * N) <= n * N - 4503599627370496 * (b * P))
      as Hm by lia.
    assert (0 <= n * N - 4503599627370496 * (b * P)) as Hpos by lia.
    assert ((n * N - 4503599627370496 * (b * P)) * Nd
            <= (n * Nd - md * Pd * b) * N) as Hfin by nia.
    assert (0 <= (n * Nd - md * Pd * b)) as Hpos2 by nia.
    rewrite (Z.abs_neq (md * Pd * b - n * Nd)) by lia.
    nia.
Qed.

Lemma off_sign a b m e :
  a <> 0 ->
  miss a b (mk_float (Z.sgn a * m) e) = miss (Z.abs a) b (mk_float m e).
Proof.
  intros Ha. unfold miss, value_num, value_den. cbn [mantissa exponent].
  destruct (Z.sgn_spec a) as [(? & ->) | [(? & ->) | (? & ->)]]; [| lia |].
  - rewrite (Z.abs_eq a) by lia. f_equal. ring.
  - rewrite (Z.abs_neq a) by lia.
    rewrite <- Z.abs_opp. f_equal. ring.
Qed.

Lemma off_carry a b s e :
  miss a b (mk_float (s * 2 ^ 52) (e + 1)) * pw (- e)
  = miss a b (mk_float (s * 2 ^ 53) e) * pw (- (e + 1)).
Proof.
  unfold miss, value_num, value_den. cbn [mantissa exponent].
  pose proof (pw_rel e (e + 1) ltac:(lia)) as Hrel.
  replace (e + 1 - e) with 1 in Hrel by lia. change (2 ^ 1) with 2 in Hrel.
  pose proof (pw_pos (- e)). pose proof (pw_pos (- (e + 1))).
  set (L := s * 2 ^ 52 * pw (e + 1) * b - a * pw (- (e + 1))).
  set (R := s * 2 ^ 53 * pw e * b - a * pw (- e)).
  assert (L * pw (- e) = R * pw (- (e + 1))) as Heq.
  { unfold L, R. change (2 ^ 53) with (2 * 2 ^ 52).
    transitivity (s * 2 ^ 52 * b * (pw (e + 1) * pw (- e))
                  - a * pw (- (e + 1)) * pw (- e)); [ring |].
    rewrite Hrel. ring. }
  transitivity (Z.abs (L * pw (- e))); [rewrite Z.abs_mul; f_equal; lia |].
  rewrite Heq, Z.abs_mul. f_equal. lia.
Qed.

(** [true_divide a b] is a double, and no double is nearer to [a / b]. *)
Theorem true_divide_nearest a b d :
  0 < b -> is_double d ->
  is_double (true_divide a b)
  /\ miss a b (true_divide a b) * value_den d
     <= miss a b d * value_den (true_divide a b).
Proof.
  intros Hb Hd. unfold true_divide.
  destruct (Z.eqb_spec a 0) as [-> | Ha].
  { split; [unfold is_double; cbn; lia |].
    unfold miss at 1, value_num, value_den. cbn [mantissa exponent].
    change (pw (- 0)) with 1.
    rewrite Z.mul_1_r. cbn. pose proof (pw_pos (- exponent d)).
    unfold miss. nia. }
  assert (0 < Z.abs a) as Hn by lia.
  pose proof (binade_spec (Z.abs a) b Hn Hb) as Hbin.
  set (e := binade (Z.abs a) b) in *.
  destruct (scaled (Z.abs a) b e) as [num den] eqn:Hsc.
  destruct Hbin as (Hden & Hlo & Hhi).
  pose proof (round_half_even_spec num den Hden ltac:(nia)) as (_ & HM & _).
  pose proof (round_half_even_nearest num den) as Hnear.
  set (M := round_half_even num den) in *.
  assert (2 ^ 52 <= num / den < 2 ^ 53) as Hq.
  { split; [apply Z.div_le_lower_bound; lia
           | apply Z.div_lt_upper_bound; lia]. }
  assert (miss (Z.abs a) b (mk_float M e) * value_den
            (mk_float (Z.sgn a * mantissa d) (exponent d))
          <= miss (Z.abs a) b (mk_float (Z.sgn a * mantissa d) (exponent d))
             * pw (- e)) as Hcore.
  { apply nearest_core; try assumption.
    - rewrite Hsc. split; [exact Hlo |]. intros k. apply Hnear; [assumption | nia].
    - unfold is_double in *. cbn [mantissa].
      destruct (Z.sgn_spec a) as [(? & ->) | [(? & ->) | (? & ->)]]; lia. }
  assert (miss (Z.abs a) b (mk_float (Z.sgn a * mantissa d) (exponent d))
          = miss a b d) as Hoffd.
  { unfold miss, value_num, value_den. cbn [mantissa exponent].
    destruct (Z.sgn_spec a) as [(? & ->) | [(? & ->) | (? & ->)]]; [| lia |].
    - rewrite (Z.abs_eq a) by lia. f_equal. ring.
    - rewrite (Z.abs_neq a) by lia.
      rewrite <- Z.abs_opp. f_equal. ring. }
  rewrite Hoffd in Hcore. unfold value_den at 1 in Hcore. cbn [exponent] in Hcore.
  fold (value_den d) in Hcore.
  destruct (Z.eqb_spec M (2 ^ 53)) as [HM53 | HM53].
  - split.
    { unfold is_double. cbn [mantissa].
      destruct (Z.sgn_spec a) as [(? & ->) | [(? & ->) | (? & ->)]]; cbn; lia. }
    unfold value_den at 2. cbn [exponent].
    pose proof (off_carry a b (Z.sgn a) e) as Hc.
    rewrite <- HM53, (off_sign a b M e Ha) in Hc.
    pose proof (pw_pos (- e)). pose proof (pw_pos (- (e + 1))).
    pose proof (pw_pos (- exponent d)). fold (value_den d) in *.
    assert (0 <= miss a b d) by (unfold miss; lia).
    assert (0 <= miss (Z.abs a) b (mk_float M e)) by (unfold miss; lia).
    set (X := miss a b (mk_float (Z.sgn a * 2 ^ 52) (e + 1))) in *.
    assert (0 <= X) by (unfold X, miss; lia).
    apply (Z.mul_le_mono_pos_r _ _ (pw (- e))); [assumption |].
    nia.
  - split.
    { unfold is_double. cbn [mantissa].
      destruct (Z.sgn_spec a) as [(? & ->) | [(? & ->) | (? & ->)]]; nia. }
    rewrite (off_sign a b M e Ha). unfold value_den at 2. cbn [exponent].
    exact Hcore.
Qed.

Lemma dist_Q a b f :
  0 < b ->
  Qabs (float_to_Q f - (a # Z.to_pos b))
  = (miss a b f # (Z.to_pos (value_den f) * Z.to_pos b)).
Proof.
  intros Hb. unfold float_to_Q, Qminus, Qplus, Qopp, Qabs, miss.
  cbn [Qnum Qden]. rewrite Z2Pos.id by assumption.
  rewrite Z2Pos.id by apply pw_pos. f_equal. f_equal. ring.
Qed.

Theorem true_divide_nearest_Q a b :
  0 < b -> nearest_double (a # Z.to_pos b) (true_divide a b).
Proof.
  intros Hb. split; [apply (true_divide_nearest a b (mk_float 0 0) Hb); cbn |].
  { unfold is_double. cbn. lia. }
  intros d Hd. rewrite !dist_Q by assumption.
  destruct (true_divide_nearest a b d Hb Hd) as (_ & Hle).
  unfold Qle. cbn [Qnum Qden]. rewrite !Pos2Z.inj_mul.
  rewrite !Z2Pos.id by first [assumption | apply pw_pos].
  fold (value_den d). fold (value_den (true_divide a b)). nia.
Qed.

(** A quotient that is a double is returned as it is. *)
Corollary true_divide_exact a b d :
  0 < b -> is_double d -> (float_to_Q d == a # Z.to_pos b)%Q ->
  (float_to_Q (true_divide a b) == a # Z.to_pos b)%Q.
Proof.
  intros Hb Hd Heq.
  destruct (true_divide_nearest a b d Hb Hd) as (_ & Hle).
  unfold Qeq, float_to_Q in *. cbn [Qnum Qden] in *.
  rewrite !Z2Pos.id in * by first [assumption | apply pw_pos].
  pose proof (pw_pos (- exponent d)) as Hpd. fold (value_den d) in Hpd.
  pose proof (pw_pos (- exponent (true_divide a b))) as Hpt.
  fold (value_den (true_divide a b)) in Hpt.
  unfold miss in Hle. rewrite Heq in Hle.
  replace (a * value_den d - a * value_den d) with 0 in Hle by ring.
  cbn [Z.abs] in Hle. nia.
Qed.

(** [total_seconds] is the double nearest to the microseconds over a
    million. *)
Lemma total_seconds_nearest us :
  nearest_double (Qmake us 1000000) (total_seconds us).
Proof. exact (true_divide_nearest_Q us 1000000 eq_refl). Qed.


(** ** Derived fields *)

Lemma new_Movement_together id p : halves_together (new_Movement id p).
Proof.
  unfold halves_together, new_Movement. cbn.
  split; split; intros [? Hx]; discriminate.
Qed.

Lemma apply_half_together ev m :
  halves_together m -> halves_together (apply_half ev m).
Proof.
  unfold halves_together, apply_half. intros [Hd Ha].
  destruct (ev_event_type ev); cbn; split; try assumption; split; eauto.
Qed.

Lemma derive_together m : halves_together m -> halves_together (derive m).
Proof.
  destruct (derive_shape m) as (tt & qd & ->). unfold halves_together. cbn.
  intros Hm. exact Hm.
Qed.

Lemma derive_ok m : halves_together m -> derived_ok (derive m).
Proof.
  intros [Hd Ha].
  destruct (departure_timestamp m) as [dts |] eqn:Hdts.
  - destruct (arrival_timestamp m) as [ats |] eqn:Hats.
    + destruct (proj1 Hd ltac:(eauto)) as [dq Hdq].
      destruct (proj1 Ha ltac:(eauto)) as [aq Haq].
      rewrite (derive_full m dts ats dq aq) by assumption.
      unfold derived_ok. cbn. rewrite Hdts, Hats, Hdq, Haq. split.
      * intros dts' ats' Heq1 Heq2. injection Heq1 as <-. injection Heq2 as <-.
        destruct (Z.geb_spec ats dts); split; intros;
          first [reflexivity | lia | idtac].
        eexists. split; [reflexivity | apply total_seconds_nearest].
      * intros dq' aq' Heq1 Heq2. injection Heq1 as <-. injection Heq2 as <-.
        reflexivity.
    + assert (derive m = m) as ->.
      { unfold derive. rewrite Hdts, Hats. reflexivity. }
      unfold derived_ok. rewrite Hdts, Hats. split.
      * intros ? ? _ Hx. discriminate.
      * intros dq aq _ Haq. destruct (proj2 Ha ltac:(eauto)) as [? Hx].
        discriminate.
  - assert (derive m = m) as ->.
    { unfold derive. rewrite Hdts. reflexivity. }
    unfold derived_ok. rewrite Hdts. split.
    + intros ? ? Hx. discriminate.
    + intros dq aq Hdq _. destruct (proj2 Hd ltac:(eauto)) as [? Hx].
      discriminate.
Qed.



(** [total_seconds] computed: 3600.0 is [0x1.c2p+11], a microsecond is
    [0x1.0c6f7a0b5ed8dp-20], half a second is [0x1p-1]. *)
Example sample_total_seconds :
  total_seconds 3600000000 = mk_float 7916483719987200 (-41)
  /\ total_seconds 1 = mk_float 4722366482869645 (-72)
  /\ total_seconds 500000 = mk_float 4503599627370496 (-53)
  /\ total_seconds 0 = mk_float 0 0.
Proof. repeat split; vm_compute; reflexivity. Qed.

(** ** Negative quantities *)

(** An event that is not in the journal and whose stock update is
    admissible goes through when no round trip fails. *)
Lemma process_fresh_ok (ev : EventData) (w : world) :
  movement_events (session w) !! ev_message_id ev = None ->
  0 <= default 0 (get_stock (ev_warehouse_id ev) (ev_product_id ev) (session w))
       + quantity_delta ev <= INTEGER_MAX ->
  exists db5,
    process_movement_event None ev w
    = (Ok true, mk_world (committed w) db5 (log w ++ invalidation ev)).
Proof.
  intros Hnew Hq.
  unfold process_movement_event, Tx.bind, db_call.
  destruct (decide (None = Some QueryProcessed)); [discriminate |].
  unfold is_event_processed.
  rewrite bool_decide_eq_false_2
    by (rewrite Hnew; intros [? Hx]; discriminate).
  destruct (decide (None = Some ProductGetOrCreate)); [discriminate |].
  cbn [session].
  destruct (product_get_or_create (ev_product_id ev) (session w))
    as [[pid db1] | ?] eqn:Hp;
    [| unfold product_get_or_create in Hp; case_decide; discriminate].
  destruct (decide (None = Some WarehouseGetOrCreate)); [discriminate |].
  cbn [session].
  destruct (warehouse_get_or_create (ev_warehouse_id ev) db1)
    as [[wid db2] | ?] eqn:Hw;
    [| unfold warehouse_get_or_create in Hw; case_decide; discriminate].
  assert (warehouse_stocks db2 = warehouse_stocks (session w)
          /\ movement_events db2 = movement_events (session w)) as (Hs2 & He2).
  { unfold product_get_or_create in Hp. unfold warehouse_get_or_create in Hw.
    repeat case_decide; injection Hp as _ <-; injection Hw as _ <-;
      split; reflexivity. }
  destruct (decide (None = Some StockUpdate)); [discriminate |].
  cbn [session].
  assert (0 <= default 0 (get_stock (ev_warehouse_id ev) (ev_product_id ev) db2)
               + quantity_delta ev <= INTEGER_MAX) as Hq2.
  { unfold get_stock in *. rewrite Hs2. exact Hq. }
  rewrite (proj2 (create_or_update_stock_ok (ev_warehouse_id ev)
                    (ev_product_id ev) (quantity_delta ev) db2 _ _)
             (conj eq_refl (conj Hq2 eq_refl))).
  destruct (decide (None = Some MovementUpsert)); [discriminate |].
  cbn [session]. unfold create_or_update.
  destruct (decide (None = Some EventInsert)); [discriminate |].
  cbn [session]. unfold event_create, set_movements, set_warehouse_stocks.
  cbn [movement_events]. rewrite He2, Hnew.
  unfold _invalidate_cache, Tx.bind, Tx.emit, Tx.ret.
  cbn [committed session log]. rewrite <- (assoc_L (++)).
  eexists. reflexivity.
Qed.

Section NegativeQuantity.
Context `{PyLib}.













End NegativeQuantity.






(** A negative arrival into an empty warehouse is rejected for its stock,
    not for its quantity. *)
Example sample_negative_arrival :
  _process_message_wrapper (H := Samples.sample_lib)
    (Samples.deliver 8 "{arrival M6 W1 P1 -7}") initial_world
  = (false, mk_world empty_db empty_db [DbRollback]).
Proof. vm_compute. reflexivity. Qed.

(** ** The scenarios of the specification, run *)

Lemma applies_movements_ok ev db db5 :
  movements_ok db -> applies ev db db5 -> movements_ok db5.
Proof.
  intros Hinv Happ.
  apply applies_tables in Happ as (q & m & e & _ & _ & _ & Hm & Hmv & _).
  intros id m' Hid. rewrite Hmv in Hid.
  destruct (decide (ev_movement_id ev = id)) as [Heq | Hne].
  - subst id. rewrite lookup_insert_eq in Hid. injection Hid as <-. subst m.
    assert (halves_together
              (apply_half ev
                 (default (new_Movement (ev_movement_id ev) (ev_product_id ev))
                    (movements db !! ev_movement_id ev)))) as Hh.
    { apply apply_half_together.
      destruct (movements db !! ev_movement_id ev) as [m0 |] eqn:Hl; cbn;
        [exact (proj1 (Hinv _ _ Hl)) | apply new_Movement_together]. }
    split; [apply derive_together | apply derive_ok]; exact Hh.
  - rewrite lookup_insert_ne in Hid by assumption. exact (Hinv _ _ Hid).
Qed.

(** Every movement row of every committed state has its derived fields
    right. *)
Lemma movements_always_ok `{PyLib} polls :
  movements_ok (committed (_consume_messages polls initial_world)).
Proof.
  apply (consume_messages_invariant movements_ok).
  - intros d w Hw. destruct (wrapper_committed d w) as [-> | (ev & _ & Happ)];
      [exact Hw | exact (applies_movements_ok _ _ _ Hw Happ)].
  - intros id m Hm. cbn in Hm. rewrite lookup_empty in Hm. discriminate.
Qed.

(** Scenario 2: the pair completes. *)
Example sample_pairing :
  let w := process_partition (H := Samples.sample_lib) Samples.tp0
             Samples.batch_pairing initial_world in
  get_stock "W1" "P1" (committed w) = Some 70
  /\ get_stock "W2" "P1" (committed w) = Some 28
  /\ (transfer_time <$> movements (committed w) !! "M2")
     = Some (Some (total_seconds 3600000000))
  /\ (quantity_difference <$> movements (committed w) !! "M2") = Some (Some (-2))
  /\ last (log w) = Some (OffsetCommit "warehouse-movements" 0 3).
Proof. vm_compute. repeat split; reflexivity. Qed.

(** Scenario 3: the second delivery of a record changes nothing and the
    offset advances. *)
Example sample_duplicate :
  let w := process_partition (H := Samples.sample_lib) Samples.tp0
             Samples.batch_duplicate initial_world in
  get_stock "W1" "P1" (committed w) = Some 100
  /\ size (movement_events (committed w)) = 1%nat
  /\ log w = [CacheDelete "stock:W1:P1"; CacheDelete "movement:M1"; DbCommit;
              OffsetCommit "warehouse-movements" 0 1].
Proof. vm_compute. repeat split; reflexivity. Qed.

(** * Further properties of the pipeline *)

(** ** The transaction in closed form *)

Lemma DB_eq (a b : DB) :
  products a = products b -> warehouses a = warehouses b ->
  warehouse_stocks a = warehouse_stocks b -> movements a = movements b ->
  movement_events a = movement_events b -> a = b.
Proof. destruct a, b. cbn. intros -> -> -> -> ->. reflexivity. Qed.

Lemma admissible_spec ev db :
  admissible ev db = true
  <-> movement_events db !! ev_message_id ev = None
      /\ 0 <= default 0 (get_stock (ev_warehouse_id ev) (ev_product_id ev) db)
              + quantity_delta ev <= INTEGER_MAX.
Proof.
  unfold admissible. rewrite !andb_true_iff, negb_true_iff, !Z.leb_le.
  rewrite bool_decide_eq_false.
  destruct (movement_events db !! ev_message_id ev) as [e |].
  - split; [intros [[Hn _] _]; exfalso; apply Hn; eauto
           | intros [Hx _]; discriminate].
  - split.
    + intros [[_ Hq] Hm]. auto.
    + intros [_ [Hq Hm]]. repeat split; try assumption.
      intros [? Hx]; discriminate.
Qed.

Lemma product_get_or_create_tables pid db r db1 :
  product_get_or_create pid db = Ok (r, db1) ->
  products db1 = {[pid]} ∪ products db
  /\ warehouses db1 = warehouses db
  /\ warehouse_stocks db1 = warehouse_stocks db
  /\ movements db1 = movements db
  /\ movement_events db1 = movement_events db.
Proof.
  unfold product_get_or_create.
  destruct (decide (pid ∈ products db)); intros Heq; injection Heq as Hr <-;
    cbn; repeat split; try reflexivity.
  symmetry. apply subseteq_union_1_L, singleton_subseteq_l. assumption.
Qed.

Lemma warehouse_get_or_create_tables wid db r db1 :
  warehouse_get_or_create wid db = Ok (r, db1) ->
  products db1 = products db
  /\ warehouses db1 = {[wid]} ∪ warehouses db
  /\ warehouse_stocks db1 = warehouse_stocks db
  /\ movements db1 = movements db
  /\ movement_events db1 = movement_events db.
Proof.
  unfold warehouse_get_or_create.
  destruct (decide (wid ∈ warehouses db)); intros Heq; injection Heq as Hr <-;
    cbn; repeat split; try reflexivity.
  symmetry. apply subseteq_union_1_L, singleton_subseteq_l. assumption.
Qed.

(** What the six repository calls leave is [applied], and they succeed
    only on an admissible event. *)
Lemma applies_applied ev db db5 :
  applies ev db db5 -> admissible ev db = true /\ db5 = applied ev db.
Proof.
  rewrite admissible_spec.
  intros (db1 & db2 & q & db3 & m & db4 & e & Hnone & Hp & Hw & Hs & Hm & He).
  apply product_get_or_create_tables in Hp as (Hp1 & Hw1 & Hs1 & Hm1 & He1).
  apply warehouse_get_or_create_tables in Hw as (Hp2 & Hw2 & Hs2 & Hm2 & He2).
  rewrite Hp1 in Hp2. rewrite Hw1 in Hw2. rewrite Hs1 in Hs2.
  rewrite Hm1 in Hm2. rewrite He1 in He2.
  apply create_or_update_row in Hm as (Hmv & ->).
  unfold event_create in He. cbn [movement_events set_movements] in He.
  assert (0 <= default 0 (get_stock (ev_warehouse_id ev) (ev_product_id ev) db)
               + quantity_delta ev <= INTEGER_MAX
          /\ q = default 0 (get_stock (ev_warehouse_id ev) (ev_product_id ev) db)
                 + quantity_delta ev
          /\ db3 = set_warehouse_stocks
                     (<[(ev_warehouse_id ev, ev_product_id ev) := q]>
                        (warehouse_stocks db2)) db2) as (Hq & Hqv & ->).
  { apply create_or_update_stock_ok in Hs as (Hqv & Hr & ->).
    unfold get_stock in *. rewrite Hs2 in Hqv. rewrite <- Hqv. auto. }
  cbn [movement_events set_warehouse_stocks] in He. rewrite He2, Hnone in He.
  injection He as _ <-.
  split; [split; assumption |].
  cbn [movements set_warehouse_stocks] in Hmv. rewrite Hm2 in Hmv.
  apply DB_eq; cbn; rewrite ?Hp2, ?Hw2, ?Hs2, ?Hm2, ?He2; try reflexivity.
  - rewrite <- Hqv. reflexivity.
  - rewrite <- Hmv. reflexivity.
Qed.

(** The six repository calls succeed exactly on an admissible event. *)
Lemma applies_iff ev db db5 :
  applies ev db db5 <-> admissible ev db = true /\ db5 = applied ev db.
Proof.
  split; [apply applies_applied |].
  intros (Hadm & ->). apply admissible_spec in Hadm as (Hnone & Hq).
  destruct (process_fresh_ok ev (mk_world db db [])) as (db5 & Hrun);
    [exact Hnone | exact Hq |].
  apply process_true_inv in Hrun as (db5' & Happ & _). cbn in Happ.
  destruct (applies_applied _ _ _ Happ) as (_ & <-). exact Happ.
Qed.

(** A run of the service that returns [True] met no fault in its six
    round trips. *)
Lemma process_true_faults (fault : option db_step) (ev : EventData) (w w1 : world) :
  process_movement_event fault ev w = (Ok true, w1) ->
  fault = None \/ fault = Some SessionCommit.
Proof.
  unfold process_movement_event, Tx.bind.
  destruct (db_call fault QueryProcessed _ w) as [[processed | ?] w0] eqn:H0;
    [| discriminate].
  apply db_call_ok_inv in H0 as (F0 & db0 & H0 & ->).
  destruct processed; [unfold Tx.ret; discriminate |].
  destruct (db_call fault ProductGetOrCreate _ _) as [[pid | ?] w2] eqn:H1;
    [| discriminate].
  apply db_call_ok_inv in H1 as (F1 & db1 & H1 & ->).
  destruct (db_call fault WarehouseGetOrCreate _ _) as [[wid | ?] w3] eqn:H2;
    [| discriminate].
  apply db_call_ok_inv in H2 as (F2 & db2 & H2 & ->).
  destruct (db_call fault StockUpdate _ _) as [[q | ?] w4] eqn:H3;
    [| discriminate].
  apply db_call_ok_inv in H3 as (F3 & db3 & H3 & ->).
  destruct (db_call fault MovementUpsert _ _) as [[m | ?] w5] eqn:H4;
    [| discriminate].
  apply db_call_ok_inv in H4 as (F4 & db4 & H4 & ->).
  destruct (db_call fault EventInsert _ _) as [[e | ?] w6] eqn:H5;
    [| discriminate].
  apply db_call_ok_inv in H5 as (F5 & db5 & H5 & ->).
  intros _. destruct fault as [[] |]; auto; congruence.
Qed.

Section ClosedForm.
Context `{PyLib}.

(** A delivery during which a database round trip is set to fail leaves
    the committed database as it is. *)
Lemma run_in_session_fault s ev w :
  committed (snd (run_in_session (Some s) ev w)) = committed w.
Proof.
  unfold run_in_session.
  destruct (process_movement_event (Some s) ev (open_session w))
    as [[[] | e] w1] eqn:Hp.
  - destruct (process_true_faults _ _ _ _ Hp) as [Hf | Hf]; [discriminate |].
    injection Hf as ->.
    apply process_true_inv in Hp as (db5 & _ & ->).
    unfold session_commit. destruct (decide _) as [_ | Hne]; [| congruence].
    reflexivity.
  - apply process_false_inv in Hp as (_ & ->). reflexivity.
  - apply process_raise_inv in Hp as (Hc & _). cbn. exact Hc.
Qed.

(** Without a fault, the transaction of an event is [step_db] on the
    committed database, and it reports success exactly when the event was
    applied or was in the journal already. *)
Lemma run_in_session_no_fault ev w :
  committed (snd (run_in_session None ev w)) = step_db ev (committed w)
  /\ fst (run_in_session None ev w)
     = admissible ev (committed w)
       || bool_decide (is_Some (movement_events (committed w) !! ev_message_id ev)).
Proof.
  unfold step_db.
  destruct (decide (is_Some (movement_events (committed w) !! ev_message_id ev)))
    as [Hin | Hnew].
  - assert (admissible ev (committed w) = false) as ->.
    { unfold admissible. rewrite bool_decide_eq_true_2 by assumption. reflexivity. }
    rewrite bool_decide_eq_true_2 by assumption.
    unfold run_in_session.
    rewrite process_already by (cbn; first [assumption | discriminate]).
    split; reflexivity.
  - rewrite (bool_decide_eq_false_2 _ Hnew), orb_false_r.
    destruct (admissible ev (committed w)) eqn:Hadm.
    + apply admissible_spec in Hadm as (Hnone & Hq).
      destruct (process_fresh_ok ev (open_session w)) as (db5 & Hrun);
        [exact Hnone | exact Hq |].
      destruct (process_true_inv _ _ _ _ Hrun) as (db5' & Happ & Heq).
      injection Heq as <-. apply applies_applied in Happ as (_ & ->).
      unfold run_in_session. rewrite Hrun. unfold session_commit.
      destruct (decide (None = Some SessionCommit)); [discriminate |].
      split; reflexivity.
    + destruct (run_in_session None ev w) as [b w'] eqn:Hr.
      apply run_in_session_cases in Hr. cbn [fst snd].
      destruct Hr as [(_ & Hin & _) | [(_ & db5 & Happ & _) | [(-> & ->) | (_ & Hf & _)]]].
      * contradiction.
      * apply applies_applied in Happ as (Hadm' & _). congruence.
      * split; reflexivity.
      * discriminate.
Qed.

(** The committed database after a delivery, as a function of the
    committed database before it. *)
Lemma wrapper_db d w :
  committed (snd (_process_message_wrapper d w))
  = match normalize (record d), db_fault d with
    | inr ev, None => step_db ev (committed w)
    | _, _ => committed w
    end.
Proof.
  unfold _process_message_wrapper.
  destruct (normalize (record d)) as [b | ev]; [reflexivity |].
  destruct (db_fault d) as [s |].
  - apply run_in_session_fault.
  - apply run_in_session_no_fault.
Qed.

End ClosedForm.

Section Failures.
Context `{PyLib}.

Lemma wrapper_fst_no_fault r w :
  fst (_process_message_wrapper (mk_delivery r None) w)
  = match normalize r with
    | inl b => b
    | inr ev =>
        admissible ev (committed w)
        || bool_decide (is_Some (movement_events (committed w) !! ev_message_id ev))
    end.
Proof.
  unfold _process_message_wrapper. cbn [record db_fault].
  destruct (normalize r) as [b | ev]; [reflexivity |].
  apply run_in_session_no_fault.
Qed.

Lemma wrapper_db_fault r s w :
  committed (snd (_process_message_wrapper (mk_delivery r (Some s)) w))
  = committed w.
Proof.
  rewrite wrapper_db. cbn [record db_fault].
  destruct (normalize r); reflexivity.
Qed.

End Failures.

(** X1. The committed database changes only through a delivery that the
    wrapper reports as a success and that ends in a commit: a delivery that
    returns failure, and any delivery during which a database round trip
    fails, leaves the committed database exactly as it was. *)
Theorem failed_delivery_changes_nothing `{PyLib} (d : delivery) (w : world) :
  (fst (_process_message_wrapper d w) = false \/ is_Some (db_fault d) ->
   committed (snd (_process_message_wrapper d w)) = committed w)
  /\ (committed (snd (_process_message_wrapper d w)) <> committed w ->
      fst (_process_message_wrapper d w) = true
      /\ last (log (snd (_process_message_wrapper d w))) = Some DbCommit).
Proof.
  split.
  - intros [Hfail | [s Hs]].
    + destruct (wrapper_cases d w) as [(b & _ & Hw) | (ev & _ & Hw)];
        rewrite Hw in Hfail |- *; [reflexivity |].
      destruct (run_in_session (db_fault d) ev w) as [b w'] eqn:Hr.
      apply run_in_session_cases in Hr. cbn in Hfail. subst b.
      destruct Hr as [(Hb & _) | [(Hb & _) | [(_ & ->) | (_ & _ & _ & ->)]]];
        try discriminate; reflexivity.
    + rewrite wrapper_db, Hs. destruct (normalize (record d)); reflexivity.
  - intros Hchg.
    destruct (wrapper_cases d w) as [(b & _ & Hw) | (ev & _ & Hw)];
      rewrite Hw in Hchg |- *; [contradiction |].
    destruct (run_in_session (db_fault d) ev w) as [b w'] eqn:Hr.
    apply run_in_session_cases in Hr. cbn [fst snd] in *.
    destruct Hr as [(_ & _ & ->) | [(-> & db5 & _ & ->) | [(_ & ->) | (_ & _ & _ & ->)]]];
      try contradiction.
    split; [reflexivity |]. cbn [log].
    rewrite (assoc_L (++)). apply last_snoc.
Qed.

Lemma failed_delivery_changes_nothing_witness :
  committed
    (snd (_process_message_wrapper (H := Samples.sample_lib)
            (Samples.deliver 1 "{departure M3 W1 P1 10}") Samples.world5))
  = committed Samples.world5.
Proof.
  apply (proj1 (failed_delivery_changes_nothing (H := Samples.sample_lib)
                  (Samples.deliver 1 "{departure M3 W1 P1 10}") Samples.world5)).
  left. vm_compute. reflexivity.
Defined.

(** X2. A retry is safe. After any number of attempts at a record that
    met a database fault, whichever round trip failed each time, a
    fault-free delivery of the record gives the result, and leaves the
    committed database, that it would have given and left had the failed
    attempts never happened. *)
Theorem retry_after_faults_is_clean `{PyLib} (r : ConsumerRecord)
    (attempts : list db_step) (w : world) :
  let failed := map (fun s => mk_delivery r (Some s)) attempts in
  committed (deliver_all failed w) = committed w
  /\ committed (snd (_process_message_wrapper (mk_delivery r None)
                       (deliver_all failed w)))
     = committed (snd (_process_message_wrapper (mk_delivery r None) w))
  /\ fst (_process_message_wrapper (mk_delivery r None) (deliver_all failed w))
     = fst (_process_message_wrapper (mk_delivery r None) w).
Proof.
  intros failed.
  assert (committed (deliver_all failed w) = committed w) as Hsame.
  { unfold failed. clear failed. revert w.
    induction attempts as [| s rest IH]; intros w; [reflexivity |].
    cbn [map]. unfold deliver_all in *. cbn [foldl].
    rewrite IH. apply wrapper_db_fault. }
  split; [exact Hsame |]. split.
  - rewrite !wrapper_db, Hsame. reflexivity.
  - rewrite !wrapper_fst_no_fault, Hsame. reflexivity.
Qed.

(** ** Independent events *)

Lemma admissible_applied ev1 ev2 db :
  independent ev1 ev2 ->
  admissible ev2 (applied ev1 db) = admissible ev2 db.
Proof.
  intros (Hid & _ & Hkey). unfold admissible, applied, get_stock.
  cbn [movement_events warehouse_stocks].
  rewrite !lookup_insert_ne by assumption. reflexivity.
Qed.

Lemma applied_comm ev1 ev2 db :
  independent ev1 ev2 ->
  applied ev1 (applied ev2 db) = applied ev2 (applied ev1 db).
Proof.
  intros (Hid & Hmid & Hkey).
  apply DB_eq; unfold applied, get_stock;
    cbn [products warehouses warehouse_stocks movements movement_events].
  - rewrite !(assoc_L (∪)). f_equal. apply (comm_L (∪)).
  - rewrite !(assoc_L (∪)). f_equal. apply (comm_L (∪)).
  - rewrite !lookup_insert_ne by congruence.
    apply insert_insert_ne. assumption.
  - rewrite !lookup_insert_ne by congruence.
    apply insert_insert_ne. assumption.
  - apply insert_insert_ne. assumption.
Qed.

Lemma independent_sym ev1 ev2 : independent ev1 ev2 -> independent ev2 ev1.
Proof. intros (H1 & H2 & H3). repeat split; congruence. Qed.

Lemma step_db_comm ev1 ev2 db :
  independent ev1 ev2 ->
  step_db ev1 (step_db ev2 db) = step_db ev2 (step_db ev1 db).
Proof.
  intros Hind. pose proof (independent_sym _ _ Hind) as Hind'.
  unfold step_db.
  destruct (admissible ev1 db) eqn:H1, (admissible ev2 db) eqn:H2;
    rewrite ?(admissible_applied _ _ _ Hind), ?(admissible_applied _ _ _ Hind'),
      ?H1, ?H2; try reflexivity.
  apply applied_comm. exact Hind.
Qed.

(** X3. Two events that share neither the message id, nor the movement
    id, nor the (warehouse, product) pair commute: delivered in either
    order, with whatever database fault each delivery meets, they leave the
    same committed database. *)
Theorem independent_events_commute `{PyLib} (d1 d2 : delivery)
    (ev1 ev2 : EventData) (w : world) :
  normalize (record d1) = inr ev1 ->
  normalize (record d2) = inr ev2 ->
  independent ev1 ev2 ->
  committed (deliver_all [d1; d2] w) = committed (deliver_all [d2; d1] w).
Proof.
  intros Hn1 Hn2 Hind. unfold deliver_all. cbn [foldl].
  rewrite !wrapper_db, Hn1, Hn2.
  destruct (db_fault d1), (db_fault d2); try reflexivity.
  symmetry. apply step_db_comm. exact Hind.
Qed.

Lemma independent_events_commute_witness :
  committed (deliver_all (H := Samples.sample_lib)
               [Samples.deliver 0 "{arrival M1 W1 P1 100}";
                Samples.deliver 1 "{arrival M2 W2 P1 28}"] initial_world)
  = committed (deliver_all (H := Samples.sample_lib)
                 [Samples.deliver 1 "{arrival M2 W2 P1 28}";
                  Samples.deliver 0 "{arrival M1 W1 P1 100}"] initial_world).
Proof.
  apply (independent_events_commute (H := Samples.sample_lib) _ _
           (mk_EventData "msg-1" "WH-3322" 1737439421623000 "M1" "W1"
              Samples.T0 ARRIVAL "P1" 100)
           (mk_EventData "msg-3" "WH-3322" 1737439421623000 "M2" "W2"
              (Samples.T0 + 3600000000) ARRIVAL "P1" 28)).
  - vm_compute. reflexivity.
  - vm_compute. reflexivity.
  - repeat split; discriminate.
Defined.

(** ** Invariants of the committed database *)

(** A delivery changes the committed database, if at all, to [applied]
    of an admissible event. *)
Lemma wrapper_committed_applied `{PyLib} d w :
  committed (snd (_process_message_wrapper d w)) = committed w
  \/ exists ev, normalize (record d) = inr ev
       /\ admissible ev (committed w) = true
       /\ committed (snd (_process_message_wrapper d w)) = applied ev (committed w).
Proof.
  destruct (wrapper_committed d w) as [Hc | (ev & Hn & Happ)]; [left; exact Hc |].
  right. exists ev. apply applies_applied in Happ as (Hadm & Heq). eauto.
Qed.

Lemma derive_apply_half_fields ev m0 :
  let m := derive (apply_half ev m0) in
  mv_id m = mv_id m0
  /\ mv_product_id m = mv_product_id m0
  /\ (forall sw, source_warehouse_id m = Some sw ->
        sw = ev_warehouse_id ev \/ source_warehouse_id m0 = Some sw)
  /\ (forall dw, destination_warehouse_id m = Some dw ->
        dw = ev_warehouse_id ev \/ destination_warehouse_id m0 = Some dw).
Proof.
  cbv zeta. destruct (derive_shape (apply_half ev m0)) as (tt & qd & ->).
  unfold apply_half. destruct (ev_event_type ev); cbn;
    repeat split; intros ? Hx; first [right; exact Hx | left; congruence].
Qed.

Lemma references_ok_applied ev db :
  references_ok db -> references_ok (applied ev db).
Proof.
  intros (Hst & Hmv & Hev). unfold references_ok, applied.
  cbn [products warehouses warehouse_stocks movements movement_events].
  split; [| split].
  - intros w p q Hl.
    destruct (decide ((ev_warehouse_id ev, ev_product_id ev) = (w, p))) as [Heq | Hne].
    + injection Heq as <- <-.
      split; apply elem_of_union; left; apply elem_of_singleton; reflexivity.
    + rewrite lookup_insert_ne in Hl by assumption.
      destruct (Hst _ _ _ Hl). split; apply elem_of_union; right; assumption.
  - intros id m Hl.
    destruct (decide (ev_movement_id ev = id)) as [Heq | Hne].
    + subst id. rewrite lookup_insert_eq in Hl. injection Hl as <-.
      destruct (derive_apply_half_fields ev
                  (default (new_Movement (ev_movement_id ev) (ev_product_id ev))
                     (movements db !! ev_movement_id ev)))
        as (Hid & Hp & Hs & Hd).
      rewrite Hid, Hp.
      destruct (movements db !! ev_movement_id ev) as [m0 |] eqn:Hm0;
        cbn [default] in *.
      * destruct (Hmv _ _ Hm0) as (Hid0 & Hp0 & Hs0 & Hd0).
        split; [exact Hid0 |].
        split; [apply elem_of_union; right; exact Hp0 |].
        split; intros x Hx.
        -- destruct (Hs x Hx) as [-> | Hold];
             [apply elem_of_union; left; apply elem_of_singleton; reflexivity
             | apply elem_of_union; right; eauto].
        -- destruct (Hd x Hx) as [-> | Hold];
             [apply elem_of_union; left; apply elem_of_singleton; reflexivity
             | apply elem_of_union; right; eauto].
      * split; [reflexivity |].
        split; [apply elem_of_union; left; apply elem_of_singleton; reflexivity |].
        split; intros x Hx.
        -- destruct (Hs x Hx) as [-> | Hold]; [| discriminate].
           apply elem_of_union; left; apply elem_of_singleton; reflexivity.
        -- destruct (Hd x Hx) as [-> | Hold]; [| discriminate].
           apply elem_of_union; left; apply elem_of_singleton; reflexivity.
    + rewrite lookup_insert_ne in Hl by assumption.
      destruct (Hmv _ _ Hl) as (Hid0 & Hp0 & Hs0 & Hd0).
      split; [exact Hid0 |].
      split; [apply elem_of_union; right; exact Hp0 |].
      split; intros x Hx; apply elem_of_union; right; eauto.
  - intros id e Hl.
    destruct (decide (ev_message_id ev = id)) as [Heq | Hne].
    + subst id. rewrite lookup_insert_eq in Hl. injection Hl as <-.
      unfold event_row. cbn.
      split; [reflexivity |].
      split; [rewrite lookup_insert_eq; eauto |].
      split; apply elem_of_union; left; apply elem_of_singleton; reflexivity.
    + rewrite lookup_insert_ne in Hl by assumption.
      destruct (Hev _ _ Hl) as (Hid0 & Hm0 & Hw0 & Hp0).
      split; [exact Hid0 |].
      split.
      * destruct (decide (ev_movement_id ev = me_movement_id e)) as [<- | Hne'].
        -- rewrite lookup_insert_eq. eauto.
        -- rewrite lookup_insert_ne by assumption. exact Hm0.
      * split; apply elem_of_union; right; assumption.
Qed.

Lemma references_ok_empty : references_ok empty_db.
Proof.
  unfold references_ok, empty_db. cbn.
  repeat split; intros; rewrite lookup_empty in *; discriminate.
Qed.

(** X4. The pipeline keeps the foreign keys and primary keys of the
    schema: in every committed state reached from the empty database, each
    stock row names a warehouse and a product that exist, each movement row
    is stored under its own id and names an existing product and existing
    source and destination warehouses, and each journal row is stored under
    its message id and names an existing movement, warehouse and product. *)
Theorem references_always_ok `{PyLib}
    (polls : list (list (TopicPartition * list delivery))) :
  references_ok (committed (_consume_messages polls initial_world)).
Proof.
  apply (consume_messages_invariant references_ok); [| exact references_ok_empty].
  intros d w Hw.
  destruct (wrapper_committed_applied d w) as [-> | (ev & _ & _ & ->)];
    [exact Hw | exact (references_ok_applied _ _ Hw)].
Qed.

Lemma signed_event_row ev : signed (event_row ev) = quantity_delta ev.
Proof. reflexivity. Qed.

Lemma journal_net_applied w p ev db :
  movement_events db !! ev_message_id ev = None ->
  journal_net w p (applied ev db)
  = journal_net w p db
    + (if decide (ev_warehouse_id ev = w /\ ev_product_id ev = p)
       then quantity_delta ev else 0).
Proof.
  intros Hnone. unfold journal_net, applied. cbn [movement_events].
  rewrite map_fold_insert_L; [| | exact Hnone].
  - cbn [event_row me_warehouse_id me_product_id].
    destruct (decide (ev_warehouse_id ev = w /\ ev_product_id ev = p));
      [rewrite signed_event_row; reflexivity | lia].
  - intros j1 j2 z1 z2 y _ _ _.
    destruct (decide (me_warehouse_id z1 = w /\ me_product_id z1 = p)),
      (decide (me_warehouse_id z2 = w /\ me_product_id z2 = p)); lia.
Qed.

Lemma ledger_matches_journal_applied ev db :
  admissible ev db = true ->
  ledger_matches_journal db -> ledger_matches_journal (applied ev db).
Proof.
  intros Hadm Hinv w p. apply admissible_spec in Hadm as (Hnone & _).
  rewrite journal_net_applied by assumption.
  rewrite <- Hinv. unfold get_stock, applied. cbn [warehouse_stocks].
  destruct (decide (ev_warehouse_id ev = w /\ ev_product_id ev = p)) as [[<- <-] | Hne].
  - rewrite lookup_insert_eq. reflexivity.
  - rewrite lookup_insert_ne by (intros Heq; injection Heq as <- <-; tauto).
    lia.
Qed.

(** X5. The stock ledger always says what the journal adds up to: in
    every committed state reached from the empty database, the quantity of
    each (warehouse, product) pair, taken as 0 where there is no row, is
    the sum over the journal rows of that pair of the arrival quantities
    minus the departure quantities. *)
Theorem stock_is_journal_net `{PyLib}
    (polls : list (list (TopicPartition * list delivery))) (w p : string) :
  default 0 (get_stock w p (committed (_consume_messages polls initial_world)))
  = journal_net w p (committed (_consume_messages polls initial_world)).
Proof.
  revert w p. fold (ledger_matches_journal
                      (committed (_consume_messages polls initial_world))).
  apply (consume_messages_invariant ledger_matches_journal).
  - intros d w Hw.
    destruct (wrapper_committed_applied d w) as [-> | (ev & _ & Hadm & ->)];
      [exact Hw | exact (ledger_matches_journal_applied _ _ Hadm Hw)].
  - intros w p. unfold journal_net, get_stock. cbn.
    rewrite lookup_empty, map_fold_empty. reflexivity.
Qed.

(** ** Commits, journal rows and offsets *)

Lemma count_commits_app l1 l2 :
  count_commits (l1 ++ l2) = (count_commits l1 + count_commits l2)%nat.
Proof. unfold count_commits. rewrite filter_app, length_app. reflexivity. Qed.

Lemma count_commits_invalidation ev : count_commits (invalidation ev) = 0%nat.
Proof. reflexivity. Qed.

Lemma count_commits_offset t p o : count_commits [OffsetCommit t p o] = 0%nat.
Proof. reflexivity. Qed.

Section WorldInvariant.
Context `{PyLib}.
Variable P : world -> Prop.
Hypothesis P_step : forall d w, P w -> P (snd (_process_message_wrapper d w)).
Hypothesis P_offset :
  forall w t p o,
    P w -> P (mk_world (committed w) (session w) (log w ++ [OffsetCommit t p o])).

Lemma for_messages_world_invariant messages last w :
  P w -> P (snd (for_messages messages last w)).
Proof.
  revert last w. induction messages as [| d rest IH]; intros last w Hw;
    [exact Hw |].
  cbn. specialize (P_step d w Hw).
  destruct (_process_message_wrapper d w) as [b w']. apply IH. exact P_step.
Qed.

Lemma process_partition_world_invariant tp messages w :
  P w -> P (process_partition tp messages w).
Proof.
  intros Hw. unfold process_partition.
  pose proof (for_messages_world_invariant messages (-1) w Hw) as Hf.
  destruct (for_messages messages (-1) w) as [last w'].
  destruct (last >=? 0); [apply P_offset |]; exact Hf.
Qed.

Lemma consume_messages_world_invariant polls w :
  P w -> P (_consume_messages polls w).
Proof.
  unfold _consume_messages. revert w.
  induction polls as [| result rest IH]; intros w Hw; [exact Hw |].
  cbn. apply IH. clear IH. unfold consume_result. revert w Hw.
  induction result as [| [tp messages] more IH]; intros w Hw; [exact Hw |].
  cbn. apply IH. apply process_partition_world_invariant. exact Hw.
Qed.

End WorldInvariant.

(** X6. One journal row per commit: in every world the consumer loop
    reaches from the empty system, the number of journal rows in the
    committed database is the number of database commits made so far. No
    commit goes without its journal row, and no journal row is committed
    twice. *)
Theorem one_journal_row_per_commit `{PyLib}
    (polls : list (list (TopicPartition * list delivery))) :
  size (movement_events (committed (_consume_messages polls initial_world)))
  = count_commits (log (_consume_messages polls initial_world)).
Proof.
  apply (consume_messages_world_invariant
           (fun w => size (movement_events (committed w)) = count_commits (log w))).
  - intros d w Hw.
    destruct (wrapper_cases d w) as [(b & _ & ->) | (ev & _ & ->)]; [exact Hw |].
    destruct (run_in_session (db_fault d) ev w) as [b w'] eqn:Hr.
    apply run_in_session_cases in Hr. cbn [snd].
    destruct Hr as [(_ & _ & ->) | [(_ & db5 & Happ & ->) | [(_ & ->) | (_ & _ & _ & ->)]]];
      cbn [committed log]; rewrite ?count_commits_app.
    + exact Hw.
    + apply applies_applied in Happ as (Hadm & ->).
      apply admissible_spec in Hadm as (Hnone & _).
      unfold applied. cbn [movement_events].
      rewrite map_size_insert_None by assumption. rewrite Hw.
      rewrite count_commits_invalidation.
      change (count_commits [DbCommit]) with 1%nat. lia.
    + rewrite Hw. change (count_commits [DbRollback]) with 0%nat. lia.
    + rewrite Hw, count_commits_invalidation.
      change (count_commits [DbRollback]) with 0%nat. lia.
  - intros w t p o Hw. cbn [committed log].
    rewrite count_commits_app, Hw, count_commits_offset. lia.
  - reflexivity.
Qed.

Section Offsets.
Context `{PyLib}.

Lemma for_messages_snd messages last w :
  snd (for_messages messages last w) = deliver_all messages w.
Proof.
  revert last w. induction messages as [| d rest IH]; intros last w;
    [reflexivity |].
  cbn. unfold deliver_all. cbn [foldl].
  destruct (_process_message_wrapper d w) as [b w']. cbn [snd]. apply IH.
Qed.

Lemma all_fail_cons d rest w :
  all_fail (d :: rest) w ->
  fst (_process_message_wrapper d w) = false
  /\ all_fail rest (snd (_process_message_wrapper d w)).
Proof.
  intros Hall. split.
  - exact (Hall 0%nat d eq_refl).
  - intros i d' Hi. exact (Hall (S i) d' Hi).
Qed.

Lemma for_messages_all_fail messages last w :
  all_fail messages w -> fst (for_messages messages last w) = last.
Proof.
  revert last w. induction messages as [| d rest IH]; intros last w Hall;
    [reflexivity |].
  apply all_fail_cons in Hall as (Hd & Hrest). cbn.
  destruct (_process_message_wrapper d w) as [b w']. cbn in Hd, Hrest. subst b.
  apply IH. exact Hrest.
Qed.

End Offsets.

Lemma wrapper_failure_committed `{PyLib} d w :
  fst (_process_message_wrapper d w) = false ->
  committed (snd (_process_message_wrapper d w)) = committed w.
Proof.
  intros Hfail.
  destruct (wrapper_committed d w) as [Hc | (ev & Hn & Happ)]; [exact Hc |].
  exfalso. revert Hfail. unfold _process_message_wrapper. rewrite Hn.
  destruct (run_in_session (db_fault d) ev w) as [b w'] eqn:Hr.
  intros Hb. cbn in Hb. subst b.
  pose proof Hr as Hr'. apply run_in_session_cases in Hr'.
  assert (committed w' <> committed w) as Hchg.
  { unfold _process_message_wrapper in Happ. rewrite Hn, Hr in Happ. cbn in Happ.
    apply applies_applied in Happ as (Hadm & ->).
    apply admissible_spec in Hadm as (Hnone & _).
    intros Heq. apply (f_equal (fun db => movement_events db !! ev_message_id ev)) in Heq.
    unfold applied in Heq. cbn [movement_events] in Heq.
    rewrite lookup_insert_eq, Hnone in Heq. discriminate. }
  destruct Hr' as [(Hb & _) | [(Hb & _) | [(_ & ->) | (_ & _ & _ & ->)]]];
    try discriminate; apply Hchg; reflexivity.
Qed.

Lemma all_fail_committed `{PyLib} messages w :
  all_fail messages w -> committed (deliver_all messages w) = committed w.
Proof.
  revert w. induction messages as [| d rest IH]; intros w Hall; [reflexivity |].
  apply all_fail_cons in Hall as (Hd & Hrest).
  unfold deliver_all in *. cbn [foldl]. rewrite (IH _ Hrest).
  apply wrapper_failure_committed. exact Hd.
Qed.

(** X7. What a partition batch commits to the broker. When every delivery
    of the batch fails (an empty batch included) the loop commits no offset
    and the committed database is as before. When a delivery with a
    non-negative offset succeeds and every delivery after it fails, the
    loop commits that delivery's offset plus one, after all the effects of
    the batch, whatever happened to the deliveries before it. *)
Theorem batch_offset_commit `{PyLib} (tp : TopicPartition) :
  (forall messages w,
      all_fail messages w ->
      process_partition tp messages w = deliver_all messages w
      /\ committed (process_partition tp messages w) = committed w)
  /\ (forall before d after w,
      fst (_process_message_wrapper d (deliver_all before w)) = true ->
      all_fail after (snd (_process_message_wrapper d (deliver_all before w))) ->
      0 <= offset (record d) ->
      log (process_partition tp (before ++ d :: after) w)
      = log (deliver_all (before ++ d :: after) w)
        ++ [OffsetCommit (fst tp) (snd tp) (offset (record d) + 1)]).
Proof.
  split.
  - intros messages w Hall. unfold process_partition.
    pose proof (for_messages_all_fail messages (-1) w Hall) as Hfst.
    pose proof (for_messages_snd messages (-1) w) as Hsnd.
    destruct (for_messages messages (-1) w) as [lst w']. cbn in Hfst, Hsnd.
    subst lst w'. cbn. split; [reflexivity |].
    apply all_fail_committed. exact Hall.
  - intros before d after w Hok Hall Hpos. unfold process_partition.
    rewrite for_messages_app, for_messages_snd. cbn [for_messages].
    assert (deliver_all (before ++ d :: after) w
            = deliver_all after
                (snd (_process_message_wrapper d (deliver_all before w)))) as ->.
    { unfold deliver_all. rewrite foldl_app. reflexivity. }
    destruct (_process_message_wrapper d (deliver_all before w)) as [b w2].
    cbn in Hok, Hall. subst b.
    pose proof (for_messages_all_fail after (offset (record d)) w2 Hall) as Hfst.
    pose proof (for_messages_snd after (offset (record d)) w2) as Hsnd.
    destruct (for_messages after (offset (record d)) w2) as [lst w']. cbn in Hfst, Hsnd.
    subst lst w'. destruct (Z.geb_spec (offset (record d)) 0); [| lia].
    reflexivity.
Qed.

Lemma batch_offset_commit_witness :
  process_partition (H := Samples.sample_lib) Samples.tp0
    [Samples.deliver 1 "{departure M3 W1 P1 10}"] Samples.world5
  = deliver_all (H := Samples.sample_lib)
      [Samples.deliver 1 "{departure M3 W1 P1 10}"] Samples.world5.
Proof.
  apply (proj1 (batch_offset_commit (H := Samples.sample_lib) Samples.tp0)).
  intros i d Hi. destruct i as [| i]; [| destruct i; discriminate].
  injection Hi as <-. vm_compute. reflexivity.
Defined.

(** ** Rows of the pairing store *)



(** ** What validation guarantees *)

Lemma allowed_event_cases v :
  v ∈ allowed_events -> v = "arrival" \/ v = "departure".
Proof.
  unfold allowed_events. cbn. intros Hin.
  apply elem_of_cons in Hin as [-> | Hin]; [left; reflexivity |].
  apply elem_of_cons in Hin as [-> | Hin]; [right; reflexivity |].
  apply elem_of_nil in Hin. contradiction.
Qed.

(** X9. A message that passes [KafkaMessage.model_validate] has a
    non-negative [time], an [event] that is exactly "arrival" or
    "departure" (the lower-cased form of what was sent), a timestamp that
    parses, and every other field as pydantic read it. For such a message
    [_prepare_event_data] fails only when [datetime.fromtimestamp] rejects
    the message time; its checks of the event type and of the timestamp
    can no longer fail. *)
Theorem validated_message_shape `{PyLib} (raw : Json) (km : KafkaMessage) :
  model_validate raw = Ok km ->
  exists m,
    pydantic_fields raw = Ok m
    /\ km = {| km_id := km_id m; km_source := km_source m;
               km_specversion := km_specversion m; km_type := km_type m;
               km_datacontenttype := km_datacontenttype m;
               km_dataschema := km_dataschema m; km_time := km_time m;
               km_subject := km_subject m; km_destination := km_destination m;
               km_data :=
                 {| movement_id := movement_id (km_data m);
                    warehouse_id := warehouse_id (km_data m);
                    timestamp := timestamp (km_data m);
                    event := lower (event (km_data m));
                    product_id := product_id (km_data m);
                    quantity := quantity (km_data m) |} |}
    /\ 0 <= km_time km
    /\ (event (km_data km) = "arrival" \/ event (km_data km) = "departure")
    /\ is_Some (fromisoformat (replace_Z (timestamp (km_data km))))
    /\ (_prepare_event_data km = None <-> fromtimestamp_ms (km_time km) = None).
Proof.
  unfold model_validate.
  destruct (pydantic_fields raw) as [m | e]; [| discriminate].
  unfold validate_time_positive, validate_data, validate_timestamp_format,
    validate_event_type.
  destruct (Z.ltb_spec (km_time m) 0) as [Hneg | Hpos]; [discriminate |].
  destruct (fromisoformat (replace_Z (timestamp (km_data m)))) as [dt |] eqn:Hts;
    [| discriminate].
  case_bool_decide as Hev; [| discriminate].
  intros Heq. injection Heq as <-. exists m.
  split; [reflexivity |]. split; [reflexivity |]. cbn.
  split; [exact Hpos |].
  split; [exact (allowed_event_cases _ Hev) |].
  split; [rewrite Hts; eauto |].
  unfold _prepare_event_data. cbn. rewrite Hts.
  destruct (fromtimestamp_ms (km_time m)) as [t |].
  - destruct (allowed_event_cases _ Hev) as [-> | ->]; cbn;
      split; intros Hx; discriminate.
  - split; reflexivity.
Qed.

Lemma validated_message_shape_witness :
  event (km_data MoreSamples.arrival_M2_validated) = "arrival"
  \/ event (km_data MoreSamples.arrival_M2_validated) = "departure".
Proof.
  destruct (validated_message_shape (H := Samples.sample_lib)
              (Samples.to_json MoreSamples.arrival_M2_sent)
              MoreSamples.arrival_M2_validated)
    as (m & _ & _ & _ & Hev & _).
  - vm_compute. reflexivity.
  - exact Hev.
Defined.

(** ** The completeness flag of a movement *)

Lemma derived_null_new id p : derived_null_until_complete (new_Movement id p).
Proof. intros _. split; reflexivity. Qed.

Lemma derive_incomplete m :
  md_is_complete (from_db_model m) = false -> derive m = m.
Proof.
  unfold from_db_model, derive. cbn [md_is_complete].
  destruct (departure_timestamp m), (arrival_timestamp m);
    first [discriminate | reflexivity].
Qed.

Lemma derive_is_complete m :
  md_is_complete (from_db_model (derive m)) = md_is_complete (from_db_model m).
Proof.
  destruct (derive_shape m) as (tt & qd & ->). reflexivity.
Qed.

Lemma derived_null_step ev m0 :
  derived_null_until_complete m0 ->
  derived_null_until_complete (derive (apply_half ev m0)).
Proof.
  unfold derived_null_until_complete. intros Hinv Hinc.
  rewrite derive_is_complete in Hinc.
  rewrite (derive_incomplete _ Hinc).
  assert (md_is_complete (from_db_model m0) = false) as H0.
  { revert Hinc. unfold from_db_model, apply_half. cbn [md_is_complete].
    destruct (ev_event_type ev); cbn;
      destruct (departure_timestamp m0), (arrival_timestamp m0);
      first [discriminate | reflexivity]. }
  destruct (Hinv H0) as (Htt & Hqd).
  unfold apply_half. destruct (ev_event_type ev); cbn; split; assumption.
Qed.

Lemma derived_null_always `{PyLib} polls id m :
  movements (committed (_consume_messages polls initial_world)) !! id = Some m ->
  derived_null_until_complete m.
Proof.
  revert id m.
  apply (consume_messages_invariant
           (fun db => forall id m, movements db !! id = Some m ->
                                   derived_null_until_complete m)).
  - intros d w Hw.
    destruct (wrapper_committed_applied d w) as [-> | (ev & _ & _ & ->)];
      [exact Hw |].
    intros id m Hl. unfold applied in Hl. cbn [movements] in Hl.
    destruct (decide (ev_movement_id ev = id)) as [Heq | Hne].
    + subst id. rewrite lookup_insert_eq in Hl. injection Hl as <-.
      apply derived_null_step.
      destruct (movements (committed w) !! ev_movement_id ev) as [m0 |] eqn:Hm0;
        cbn [default]; [exact (Hw _ _ Hm0) | apply derived_null_new].
    + rewrite lookup_insert_ne in Hl by assumption. exact (Hw _ _ Hl).
  - intros id m Hl. cbn in Hl. rewrite lookup_empty in Hl. discriminate.
Qed.

(** X10. What the response of a movement says about completeness, for
    every row the pipeline has committed: [is_complete] is true exactly
    when [quantity_difference] is there, and exactly when both quantities
    are there; [transfer_time] is there only for a complete movement, and
    for a complete movement exactly when the arrival is not before the
    departure. *)
Theorem completeness_flag `{PyLib}
    (polls : list (list (TopicPartition * list delivery)))
    (id : string) (m : Movement) :
  movements (committed (_consume_messages polls initial_world)) !! id = Some m ->
  (md_is_complete (from_db_model m) = true
   <-> is_Some (md_quantity_difference (from_db_model m)))
  /\ (md_is_complete (from_db_model m) = true
      <-> is_Some (md_departure_quantity (from_db_model m))
          /\ is_Some (md_arrival_quantity (from_db_model m)))
  /\ (is_Some (md_transfer_time (from_db_model m)) ->
      md_is_complete (from_db_model m) = true)
  /\ (forall dts ats,
        md_departure_timestamp (from_db_model m) = Some dts ->
        md_arrival_timestamp (from_db_model m) = Some ats ->
        (is_Some (md_transfer_time (from_db_model m)) <-> dts <= ats)).
Proof.
  intros Hl.
  pose proof (derived_null_always polls id m Hl) as Hnull.
  destruct (movements_always_ok polls id m Hl) as ((Hd & Ha) & (Htt & Hqd)).
  unfold derived_null_until_complete in Hnull.
  unfold from_db_model in *. cbn in *.
  destruct (departure_timestamp m) as [dts |] eqn:Edts;
    destruct (arrival_timestamp m) as [ats |] eqn:Eats.
  - destruct (proj1 Hd ltac:(eauto)) as [dq Hdq].
    destruct (proj1 Ha ltac:(eauto)) as [aq Haq].
    rewrite (Hqd _ _ Hdq Haq), Hdq, Haq.
    repeat split; eauto.
    + intros Hsome. destruct (Z.le_gt_cases dts0 ats0) as [Hle | Hgt];
        [exact Hle |].
      injection H0 as <-. injection H1 as <-.
      rewrite (proj2 (Htt _ _ eq_refl eq_refl) Hgt) in Hsome.
      destruct Hsome as [? Hx]; discriminate.
    + intros Hle. injection H0 as <-. injection H1 as <-.
      destruct (proj1 (Htt _ _ eq_refl eq_refl) Hle) as (t & -> & _). eauto.
  - destruct (Hnull eq_refl) as (-> & ->).
    repeat split; try discriminate; try (intros [? Hx]; discriminate).
    + intros [_ [aq Haq]]. destruct (proj2 Ha ltac:(eauto)) as [? Hx]. discriminate.
  - destruct (Hnull eq_refl) as (-> & ->).
    repeat split; try discriminate; try (intros [? Hx]; discriminate).
    + intros [[dq Hdq] _]. destruct (proj2 Hd ltac:(eauto)) as [? Hx]. discriminate.
  - destruct (Hnull eq_refl) as (-> & ->).
    repeat split; try discriminate; try (intros [? Hx]; discriminate).
    + intros [[dq Hdq] _]. destruct (proj2 Hd ltac:(eauto)) as [? Hx]. discriminate.
Qed.

Lemma completeness_flag_witness :
  md_is_complete (from_db_model MoreSamples.row_M2) = true
  <-> is_Some (md_quantity_difference (from_db_model MoreSamples.row_M2)).
Proof.
  apply (completeness_flag (H := Samples.sample_lib) MoreSamples.polls_pairing "M2").
  vm_compute. reflexivity.
Defined.

(** * The read path *)

Section ReadPath.
Import CacheManager.
Context `{PyJson}.

Lemma get_misses faults m key :
  misses faults m key -> get (cache_get_raises faults) m key = None.
Proof.
  unfold get. intros [Hc | [Hr | (store & Hc & Hk)]].
  - rewrite Hc. reflexivity.
  - rewrite Hr. destruct (redis_client m); reflexivity.
  - rewrite Hc, Hk. destruct (cache_get_raises faults); reflexivity.
Qed.

Lemma cached_stock_misses faults m key :
  misses faults m key -> cached_stock faults m key = None.
Proof. intros Hm. unfold cached_stock. rewrite (get_misses _ _ _ Hm). reflexivity. Qed.

Lemma cached_movement_misses faults m key :
  misses faults m key -> cached_movement faults m key = None.
Proof. intros Hm. unfold cached_movement. rewrite (get_misses _ _ _ Hm). reflexivity. Qed.

Lemma cached_stock_holds faults m key r :
  cache_get_raises faults = false ->
  holds_stock m key r -> cached_stock faults m key = Some r.
Proof.
  intros Hr (store & data & d & Hc & Hk & Hne & Hl & Ht & Hv).
  unfold cached_stock, get. rewrite Hc, Hr, Hk, Hne, Hl, Ht. exact Hv.
Qed.

Lemma set_holds_stock m store key r :
  redis_client m = Some store ->
  stock_round_trips r ->
  holds_stock (set false m key (stock_model_dump r) None) key r.
Proof.
  intros Hc (data & d & Hd & Hne & Hl & Ht & Hv).
  unfold set. rewrite Hc, Hd. unfold with_store.
  eexists _, _, d. cbn [redis_client].
  split; [reflexivity |]. split; [apply lookup_insert_eq |].
  cbn [text]. repeat split; assumption.
Qed.

End ReadPath.

(** X11. The stock route on a cache miss (the cache is not connected, the
    client raises, or the key is absent) answers from the committed
    database: 500 when the query raises, 404 when the pair has no stock
    row, and otherwise 200 with the quantity of the row. Only the 200 case
    touches the cache, and then only the key of the pair: a connected cache
    whose client does not raise is given the text of the response under
    [stock:{warehouse_id}:{product_id}] with the manager's default expiry;
    a cache that is not connected, or whose write raises, stays as it
    is. *)
Theorem stock_read_on_miss `{CacheManager.PyJson} (w p : string) (faults : io)
    (db : DB) (m : CacheManager.t) :
  misses faults m ("stock:" +:+ w +:+ ":" +:+ p) ->
  (db_raises faults = true ->
   exists detail,
     get_warehouse_product_stock w p faults db m = (ServerError500 detail, m))
  /\ (db_raises faults = false -> get_stock w p db = None ->
      exists detail,
        get_warehouse_product_stock w p faults db m = (NotFound404 detail, m))
  /\ (forall q,
        db_raises faults = false -> get_stock w p db = Some q ->
        fst (get_warehouse_product_stock w p faults db m)
        = Ok200 (stock_response w p q)
        /\ (CacheManager.redis_client m = None \/ cache_set_raises faults = true ->
            snd (get_warehouse_product_stock w p faults db m) = m)
        /\ (forall store data,
              CacheManager.redis_client m = Some store ->
              cache_set_raises faults = false ->
              CacheManager.json_dumps
                (CacheManager.stock_model_dump (stock_response w p q))
              = Some data ->
              snd (get_warehouse_product_stock w p faults db m)
              = CacheManager.with_store
                  (<["stock:" +:+ w +:+ ":" +:+ p :=
                       CacheManager.mk_entry data (CacheManager.ttl m)]> store)
                  m)).
Proof.
  intros Hmiss. unfold get_warehouse_product_stock.
  rewrite (cached_stock_misses _ _ _ Hmiss).
  split; [| split].
  - intros ->. eauto.
  - intros -> ->. eauto.
  - intros q -> ->. cbn [fst snd]. split; [reflexivity |]. split.
    + unfold CacheManager.set. intros [-> | ->]; [reflexivity |].
      destruct (CacheManager.redis_client m); [| reflexivity].
      destruct (CacheManager.json_dumps _); reflexivity.
    + intros store data Hc Hs Hd. unfold CacheManager.set.
      rewrite Hc, Hd, Hs. reflexivity.
Qed.

Lemma stock_read_on_miss_witness :
  exists detail,
    get_warehouse_product_stock (H := ReadSamples.sample_json) "W9" "P9"
      no_faults Samples.db5 ReadSamples.empty_cache
    = (NotFound404 detail, ReadSamples.empty_cache).
Proof.
  apply (proj1 (proj2 (stock_read_on_miss (H := ReadSamples.sample_json)
                         "W9" "P9" no_faults Samples.db5 ReadSamples.empty_cache
                         ltac:(right; right; eexists; split; reflexivity)))).
  - reflexivity.
  - reflexivity.
Defined.

(** X12. A usable cache entry is served as it is: when the cache holds,
    under the key of the pair, a text that reads as a stock response, the
    stock route returns that response with 200 and leaves the cache alone,
    whatever the database holds and even when the database is down. *)
Theorem stock_hit_ignores_database `{CacheManager.PyJson} (w p : string)
    (faults : io) (db : DB) (m : CacheManager.t) (r : WarehouseStockResponse) :
  cache_get_raises faults = false ->
  holds_stock m ("stock:" +:+ w +:+ ":" +:+ p) r ->
  get_warehouse_product_stock w p faults db m = (Ok200 r, m).
Proof.
  intros Hr Hh. unfold get_warehouse_product_stock.
  rewrite (cached_stock_holds _ _ _ _ Hr Hh). reflexivity.
Qed.

Lemma stock_hit_ignores_database_witness :
  get_warehouse_product_stock (H := ReadSamples.sample_json) "W1" "P1"
    no_faults Samples.db5 ReadSamples.stale_cache
  = (Ok200 ReadSamples.stock100, ReadSamples.stale_cache).
Proof.
  apply (stock_hit_ignores_database (H := ReadSamples.sample_json)).
  - reflexivity.
  - eexists _, _, _. split; [reflexivity |].
    split; [apply lookup_singleton_eq |].
    repeat split; reflexivity.
Defined.

(** X13. A read fills the cache and the next read is served from it: with
    a connected, healthy cache that has no entry for the pair, a stock row
    in the database and a response whose text reads back, the first read
    returns the quantity of the row, and a second read returns the same
    response without changing the cache again, whatever the database holds
    by then. *)
Theorem stock_read_twice `{CacheManager.PyJson} (w p : string) (q : Z)
    (db db' : DB) (faults' : io) (m : CacheManager.t) (store : gmap string CacheManager.entry) :
  CacheManager.redis_client m = Some store ->
  store !! ("stock:" +:+ w +:+ ":" +:+ p) = None ->
  get_stock w p db = Some q ->
  stock_round_trips (stock_response w p q) ->
  cache_get_raises faults' = false ->
  let first := get_warehouse_product_stock w p no_faults db m in
  let second := get_warehouse_product_stock w p faults' db' (snd first) in
  fst first = Ok200 (stock_response w p q)
  /\ second = (Ok200 (stock_response w p q), snd first).
Proof.
  intros Hc Hk Hq Hrt Hr first second.
  assert (first = (Ok200 (stock_response w p q),
                   CacheManager.set false m ("stock:" +:+ w +:+ ":" +:+ p)
                     (CacheManager.stock_model_dump (stock_response w p q)) None))
    as Hfirst.
  { unfold first, get_warehouse_product_stock.
    rewrite cached_stock_misses by (right; right; eauto).
    cbn [db_raises no_faults cache_set_raises]. rewrite Hq. reflexivity. }
  split; [rewrite Hfirst; reflexivity |].
  unfold second. rewrite Hfirst. cbn [snd].
  unfold get_warehouse_product_stock.
  rewrite (cached_stock_holds _ _ _ _ Hr (set_holds_stock _ _ _ _ Hc Hrt)).
  reflexivity.
Qed.

Lemma stock_read_twice_witness :
  get_warehouse_product_stock (H := ReadSamples.sample_json) "W1" "P1" no_faults
    empty_db
    (snd (get_warehouse_product_stock (H := ReadSamples.sample_json) "W1" "P1"
            no_faults Samples.db5 ReadSamples.empty_cache))
  = (Ok200 ReadSamples.stock5,
     snd (get_warehouse_product_stock (H := ReadSamples.sample_json) "W1" "P1"
            no_faults Samples.db5 ReadSamples.empty_cache)).
Proof.
  apply (stock_read_twice (H := ReadSamples.sample_json) "W1" "P1" 5
           Samples.db5 empty_db no_faults ReadSamples.empty_cache ∅).
  - reflexivity.
  - apply lookup_empty.
  - reflexivity.
  - exists "{stock W1 P1 5}", (inl ReadSamples.stock5). repeat split; reflexivity.
  - reflexivity.
Defined.

(** X14. The movement route on a cache miss answers from the committed
    database: 500 when the query raises, 404 when there is no row for the
    id (the cache then stays as it is), and otherwise 200 with the row as
    [from_db_model] renders it. *)
Theorem movement_read_on_miss `{CacheManager.PyJson} (id : string) (faults : io)
    (db : DB) (m : CacheManager.t) :
  misses faults m ("movement:" +:+ id) ->
  (db_raises faults = true ->
   exists detail, get_movement id faults db m = (ServerError500 detail, m))
  /\ (db_raises faults = false -> movements db !! id = None ->
      get_movement id faults db m
      = (NotFound404 ("Movement with ID " +:+ id +:+ " not found"), m))
  /\ (forall row,
        db_raises faults = false -> movements db !! id = Some row ->
        fst (get_movement id faults db m) = Ok200 (from_db_model row)).
Proof.
  intros Hmiss. unfold get_movement, get_by_id.
  rewrite (cached_movement_misses _ _ _ Hmiss).
  split; [| split].
  - intros ->. eauto.
  - intros -> ->. reflexivity.
  - intros row -> ->. reflexivity.
Qed.

Lemma movement_read_on_miss_witness :
  get_movement (H := ReadSamples.sample_json) "NON_EXISTENT_ID" no_faults
    Samples.db_departed ReadSamples.empty_cache
  = (NotFound404 "Movement with ID NON_EXISTENT_ID not found",
     ReadSamples.empty_cache).
Proof.
  apply (proj1 (proj2 (movement_read_on_miss (H := ReadSamples.sample_json)
                         "NON_EXISTENT_ID" no_faults Samples.db_departed
                         ReadSamples.empty_cache
                         ltac:(right; right; eexists; split; reflexivity)))).
  - reflexivity.
  - reflexivity.
Defined.

(** ** The cache after the pipeline's invalidation *)

Section Invalidation.
Import CacheManager.
Context `{J : PyJson}.

Lemma cache_keys_differ w p id : stock_cache_key w p <> movement_cache_key id.
Proof. unfold stock_cache_key, movement_cache_key. cbn. discriminate. Qed.

Lemma replay_invalidation ev m :
  replay (invalidation ev) m
  = delete false
      (delete false m (stock_cache_key (ev_warehouse_id ev) (ev_product_id ev)))
      (movement_cache_key (ev_movement_id ev)).
Proof. reflexivity. Qed.

Lemma replay_app l1 l2 m : replay (l1 ++ l2) m = replay l2 (replay l1 m).
Proof. unfold replay. apply foldl_app. Qed.

(** After the invalidation of an event the cache yields nothing for its
    two keys. *)
Lemma invalidation_misses ev faults m :
  misses faults (replay (invalidation ev) m)
    (stock_cache_key (ev_warehouse_id ev) (ev_product_id ev))
  /\ misses faults (replay (invalidation ev) m)
       (movement_cache_key (ev_movement_id ev)).
Proof.
  rewrite replay_invalidation. unfold delete, misses, with_store.
  destruct m as [[store |] ttl0]; cbn [redis_client].
  - split; right; right; eexists; (split; [reflexivity |]).
    + rewrite lookup_delete_ne by (apply not_eq_sym, cache_keys_differ).
      apply lookup_delete_eq.
    + apply lookup_delete_eq.
  - split; left; reflexivity.
Qed.

End Invalidation.

(** X15. After a delivery has run to its commit, the reads of what it
    changed are fresh: with the cache deletions of the delivery carried out
    on the cache the routes use, the stock route returns the committed
    quantity of the event's (warehouse, product) pair and the movement
    route returns the committed row of the event's movement, whatever the
    cache held before. The keys the service deletes are the keys the routes
    read. *)
Theorem reads_fresh_after_delivery `{L : PyLib} `{J : CacheManager.PyJson}
    (d : delivery) (w : world) (tr : list effect) (faults : io)
    (m : CacheManager.t) :
  log (snd (_process_message_wrapper d w)) = log w ++ tr ->
  DbCommit ∈ tr ->
  db_raises faults = false ->
  exists ev q row,
    normalize (record d) = inr ev
    /\ get_stock (ev_warehouse_id ev) (ev_product_id ev)
         (committed (snd (_process_message_wrapper d w))) = Some q
    /\ movements (committed (snd (_process_message_wrapper d w)))
         !! ev_movement_id ev = Some row
    /\ fst (get_warehouse_product_stock (ev_warehouse_id ev) (ev_product_id ev)
              faults (committed (snd (_process_message_wrapper d w)))
              (replay tr m))
       = Ok200 (stock_response (ev_warehouse_id ev) (ev_product_id ev) q)
    /\ fst (get_movement (ev_movement_id ev) faults
              (committed (snd (_process_message_wrapper d w))) (replay tr m))
       = Ok200 (from_db_model row).
Proof.
  intros Hlog Hin Hdb.
  destruct (wrapper_commit_inv d w tr Hlog Hin) as (ev & db5 & Hn & Happ & Hw & ->).
  apply applies_applied in Happ as (_ & ->).
  rewrite Hw. cbn [snd committed].
  rewrite replay_app.
  change (replay [DbCommit] (replay (invalidation ev) m))
    with (replay (invalidation ev) m).
  destruct (invalidation_misses ev faults m) as (Hs & Hm).
  do 3 eexists. split; [exact Hn |].
  split; [unfold get_stock, applied; cbn [warehouse_stocks]; apply lookup_insert_eq |].
  split; [unfold applied; cbn [movements]; apply lookup_insert_eq |].
  split.
  - unfold get_warehouse_product_stock.
    change ("stock:" +:+ ev_warehouse_id ev +:+ ":" +:+ ev_product_id ev)
      with (stock_cache_key (ev_warehouse_id ev) (ev_product_id ev)).
    rewrite (cached_stock_misses _ _ _ Hs), Hdb.
    unfold get_stock at 1, applied at 1. cbn [warehouse_stocks].
    rewrite lookup_insert_eq. reflexivity.
  - unfold get_movement, get_by_id.
    change ("movement:" +:+ ev_movement_id ev)
      with (movement_cache_key (ev_movement_id ev)).
    rewrite (cached_movement_misses _ _ _ Hm), Hdb.
    unfold applied at 1. cbn [movements].
    rewrite lookup_insert_eq. reflexivity.
Qed.

Lemma reads_fresh_after_delivery_witness :
  exists ev q row,
    normalize (H := Samples.sample_lib) (record Samples.arrival_M1) = inr ev
    /\ get_stock (ev_warehouse_id ev) (ev_product_id ev)
         (committed (snd (_process_message_wrapper (H := Samples.sample_lib)
                            Samples.arrival_M1 initial_world))) = Some q
    /\ movements
         (committed (snd (_process_message_wrapper (H := Samples.sample_lib)
                            Samples.arrival_M1 initial_world)))
         !! ev_movement_id ev = Some row
    /\ fst (get_warehouse_product_stock (H := ReadSamples.sample_json)
              (ev_warehouse_id ev) (ev_product_id ev) no_faults
              (committed (snd (_process_message_wrapper (H := Samples.sample_lib)
                                 Samples.arrival_M1 initial_world)))
              (replay Samples.arrival_effects ReadSamples.stale_cache))
       = Ok200 (stock_response (ev_warehouse_id ev) (ev_product_id ev) q)
    /\ fst (get_movement (H := ReadSamples.sample_json) (ev_movement_id ev)
              no_faults
              (committed (snd (_process_message_wrapper (H := Samples.sample_lib)
                                 Samples.arrival_M1 initial_world)))
              (replay Samples.arrival_effects ReadSamples.stale_cache))
       = Ok200 (from_db_model row).
Proof.
  apply (reads_fresh_after_delivery (L := Samples.sample_lib)
           (J := ReadSamples.sample_json) Samples.arrival_M1 initial_world
           Samples.arrival_effects no_faults ReadSamples.stale_cache).
  - vm_compute. reflexivity.
  - unfold Samples.arrival_effects. repeat constructor.
  - reflexivity.
Defined.



(** ** What the pipeline does to the cache *)

(** The effects one delivery adds come in four shapes. *)
Lemma wrapper_effects `{PyLib} d w tr :
  log (snd (_process_message_wrapper d w)) = log w ++ tr ->
  tr = [] \/ tr = [DbRollback]
  \/ exists ev, normalize (record d) = inr ev
       /\ (tr = invalidation ev ++ [DbCommit]
           \/ tr = invalidation ev ++ [DbRollback]).
Proof.
  intros Hlog.
  destruct (wrapper_cases d w) as [(b & _ & Hw) | (ev & Hn & Hw)];
    rewrite Hw in Hlog.
  - cbn in Hlog. rewrite <- (app_nil_r (log w)) in Hlog at 1.
    apply app_inv_head in Hlog. left. congruence.
  - destruct (run_in_session (db_fault d) ev w) as [b w'] eqn:Hr.
    apply run_in_session_cases in Hr. cbn in Hlog.
    destruct Hr as [(_ & _ & ->) | [(_ & db5 & _ & ->) | [(_ & ->) | (_ & _ & _ & ->)]]];
      cbn in Hlog.
    + rewrite <- (app_nil_r (log w)) in Hlog at 1.
      apply app_inv_head in Hlog. left. congruence.
    + apply app_inv_head in Hlog. right. right. exists ev. split; [exact Hn |].
      left. subst tr. reflexivity.
    + apply app_inv_head in Hlog. right. left. congruence.
    + apply app_inv_head in Hlog. right. right. exists ev. split; [exact Hn |].
      right. subst tr. reflexivity.
Qed.

Lemma get_delete_ne `{CacheManager.PyJson} raises m key k :
  k <> key ->
  CacheManager.get raises (CacheManager.delete false m key) k
  = CacheManager.get raises m k.
Proof.
  intros Hne. unfold CacheManager.get, CacheManager.delete.
  destruct m as [[store |] ttl0]; cbn [CacheManager.redis_client]; [| reflexivity].
  unfold CacheManager.with_store. cbn [CacheManager.redis_client].
  rewrite lookup_delete_ne by congruence. reflexivity.
Qed.

(** X17. The pipeline never writes to the cache and deletes nothing but
    the two keys of the event it processes: carrying out the effects of any
    one delivery leaves the cache entry of every other key as it was, and a
    delivery that is rejected before a session is opened (a malformed
    record) leaves the whole cache as it was. *)
Theorem delivery_touches_only_its_keys `{L : PyLib} `{J : CacheManager.PyJson}
    (d : delivery) (w : world) (tr : list effect) (m : CacheManager.t)
    (k : string) :
  log (snd (_process_message_wrapper d w)) = log w ++ tr ->
  ((forall ev, normalize (record d) = inr ev ->
      k <> stock_cache_key (ev_warehouse_id ev) (ev_product_id ev)
      /\ k <> movement_cache_key (ev_movement_id ev)) ->
   forall raises,
     CacheManager.get raises (replay tr m) k = CacheManager.get raises m k)
  /\ (forall b, normalize (record d) = inl b -> replay tr m = m).
Proof.
  intros Hlog.
  destruct (wrapper_effects d w tr Hlog)
    as [-> | [-> | (ev & Hn & [-> | ->])]].
  - split; reflexivity.
  - split; reflexivity.
  - split; [| intros b Hb; congruence].
    intros Hk raises. destruct (Hk ev Hn) as (Hs & Hm).
    rewrite replay_app.
    change (replay [DbCommit] (replay (invalidation ev) m))
      with (replay (invalidation ev) m).
    rewrite replay_invalidation, !get_delete_ne by assumption. reflexivity.
  - split; [| intros b Hb; congruence].
    intros Hk raises. destruct (Hk ev Hn) as (Hs & Hm).
    rewrite replay_app.
    change (replay [DbRollback] (replay (invalidation ev) m))
      with (replay (invalidation ev) m).
    rewrite replay_invalidation, !get_delete_ne by assumption. reflexivity.
Qed.

Lemma delivery_touches_only_its_keys_witness :
  replay [] ReadSamples.stale_cache = ReadSamples.stale_cache.
Proof.
  apply (proj2 (delivery_touches_only_its_keys (L := Samples.sample_lib)
                  (J := ReadSamples.sample_json) Samples.garbage initial_world
                  [] ReadSamples.stale_cache "stock:W1:P1" eq_refl) true).
  reflexivity.
Defined.

(** X18. The cache manager as a store. On a connected manager whose
    client does not raise, a value whose text is not empty is read back
    under its key as [json.loads] of that text, it is stored with the
    manager's default expiry when none is given, the other keys are not
    affected, and after [delete] the key yields nothing. On a manager that
    is not connected, [set] and [delete] do nothing and [get] yields
    nothing. *)
Theorem cache_manager_store `{J : CacheManager.PyJson} (m : CacheManager.t)
    (key : string) (value : CacheManager.Doc) :
  (forall store data,
      CacheManager.redis_client m = Some store ->
      CacheManager.json_dumps value = Some data ->
      String.eqb data "" = false ->
      CacheManager.get false (CacheManager.set false m key value None) key
      = CacheManager.json_loads_text data
      /\ CacheManager.redis_client (CacheManager.set false m key value None)
         = Some (<[key := CacheManager.mk_entry data (CacheManager.ttl m)]> store)
      /\ (forall k, k <> key ->
            CacheManager.get false (CacheManager.set false m key value None) k
            = CacheManager.get false m k)
      /\ CacheManager.get false
           (CacheManager.delete false
              (CacheManager.set false m key value None) key) key
         = None)
  /\ (CacheManager.redis_client m = None ->
      CacheManager.set false m key value None = m
      /\ CacheManager.delete false m key = m
      /\ CacheManager.get false m key = None).
Proof.
  split.
  - intros store data Hc Hd Hne.
    unfold CacheManager.set, CacheManager.get, CacheManager.delete,
      CacheManager.with_store.
    rewrite Hc, Hd. cbn [CacheManager.redis_client].
    rewrite lookup_insert_eq. cbn [CacheManager.text]. rewrite Hne.
    split; [reflexivity |]. split; [reflexivity |]. split.
    + intros k Hk. rewrite lookup_insert_ne by congruence. reflexivity.
    + rewrite lookup_delete_eq. reflexivity.
  - intros Hc.
    unfold CacheManager.set, CacheManager.get, CacheManager.delete.
    rewrite Hc. repeat split; reflexivity.
Qed.

Lemma cache_manager_store_witness :
  CacheManager.get (H := ReadSamples.sample_json) false
    (CacheManager.set (H := ReadSamples.sample_json) false
       ReadSamples.empty_cache "stock:W1:P1" (inl ReadSamples.stock5) None)
    "stock:W1:P1"
  = Some (inl ReadSamples.stock5).
Proof.
  apply (proj1 (proj1 (cache_manager_store (J := ReadSamples.sample_json)
                         ReadSamples.empty_cache "stock:W1:P1"
                         (inl ReadSamples.stock5))
                  ∅ "{stock W1 P1 5}" eq_refl eq_refl eq_refl)).
Defined.

(** X19. The journal is keyed by the message id alone. Once a message has
    been committed, any record that carries the same message id is reported
    as a success and changes nothing (no write, no cache deletion), even
    when the rest of its content is a different event. *)
Theorem same_id_is_skipped `{PyLib} (d1 d2 : delivery) (ev1 ev2 : EventData)
    (w : world) (tr : list effect) :
  log (snd (_process_message_wrapper d1 w)) = log w ++ tr ->
  DbCommit ∈ tr ->
  normalize (record d1) = inr ev1 ->
  normalize (record d2) = inr ev2 ->
  ev_message_id ev2 = ev_message_id ev1 ->
  db_fault d2 <> Some QueryProcessed ->
  _process_message_wrapper d2 (snd (_process_message_wrapper d1 w))
  = (true, snd (_process_message_wrapper d1 w)).
Proof.
  intros Hlog Hin Hn1 Hn2 Hid Hf.
  destruct (wrapper_commit_inv d1 w tr Hlog Hin) as (ev & db5 & Hn & Happ & Hw & _).
  rewrite Hn1 in Hn. injection Hn as <-.
  rewrite Hw. cbn [snd]. destruct d2 as [r2 f2]. cbn in Hn2, Hf.
  apply (wrapper_already r2 ev2); try assumption.
  - reflexivity.
  - cbn [committed]. rewrite Hid.
    apply applies_journal in Happ as (Hj & _). exact Hj.
Qed.

Lemma same_id_is_skipped_witness :
  _process_message_wrapper (H := Samples.sample_lib)
    (Samples.deliver 5 "{arrival M1 W1 P1 100}")
    (snd (_process_message_wrapper (H := Samples.sample_lib)
            Samples.arrival_M1 initial_world))
  = (true,
     snd (_process_message_wrapper (H := Samples.sample_lib)
            Samples.arrival_M1 initial_world)).
Proof.
  apply (same_id_is_skipped (H := Samples.sample_lib) Samples.arrival_M1
           (Samples.deliver 5 "{arrival M1 W1 P1 100}")
           (mk_EventData "msg-1" "WH-3322" 1737439421623000 "M1" "W1"
              Samples.T0 ARRIVAL "P1" 100)
           (mk_EventData "msg-1" "WH-3322" 1737439421623000 "M1" "W1"
              Samples.T0 ARRIVAL "P1" 100)
           initial_world Samples.arrival_effects).
  - vm_compute. reflexivity.
  - unfold Samples.arrival_effects. repeat constructor.
  - vm_compute. reflexivity.
  - vm_compute. reflexivity.
  - reflexivity.
  - discriminate.
Defined.

(** ** Nothing is ever deleted *)

Lemma extends_refl db : extends db db.
Proof.
  unfold extends. repeat split; try reflexivity; try (intros; assumption).
  intros id m Hm. exists m. repeat split; try assumption; intros Hx; exact Hx.
Qed.

Lemma derive_apply_half_halves ev m0 :
  (is_Some (departure_timestamp m0) ->
   is_Some (departure_timestamp (derive (apply_half ev m0))))
  /\ (is_Some (arrival_timestamp m0) ->
      is_Some (arrival_timestamp (derive (apply_half ev m0)))).
Proof.
  destruct (derive_shape (apply_half ev m0)) as (tt & qd & ->).
  unfold apply_half. destruct (ev_event_type ev); cbn; split; eauto.
Qed.

Lemma extends_applied db0 db ev :
  admissible ev db = true -> extends db0 db -> extends db0 (applied ev db).
Proof.
  intros Hadm (Hp & Hw & Hs & He & Hm).
  apply admissible_spec in Hadm as (Hnone & _).
  unfold extends, applied.
  cbn [products warehouses warehouse_stocks movements movement_events].
  split; [apply union_subseteq_r'; exact Hp |].
  split; [apply union_subseteq_r'; exact Hw |].
  split; [| split].
  - intros k Hk. specialize (Hs k Hk).
    destruct (decide ((ev_warehouse_id ev, ev_product_id ev) = k)) as [<- | Hne].
    + rewrite lookup_insert_eq. eauto.
    + rewrite lookup_insert_ne by assumption. exact Hs.
  - intros id e Hl. specialize (He id e Hl).
    destruct (decide (ev_message_id ev = id)) as [<- | Hne].
    + congruence.
    + rewrite lookup_insert_ne by assumption. exact He.
  - intros id m Hl. destruct (Hm id m Hl) as (m' & Hl' & Hprod & Hd & Ha).
    destruct (decide (ev_movement_id ev = id)) as [<- | Hne].
    + rewrite lookup_insert_eq, Hl'. cbn [default]. unfold id.
      eexists. split; [reflexivity |].
      destruct (derive_apply_half_fields ev m') as (_ & Hp' & _).
      destruct (derive_apply_half_halves ev m') as (Hd' & Ha').
      split; [congruence |]. split; intros Hx; auto.
    + rewrite lookup_insert_ne by assumption. eauto.
Qed.

(** X20. The pipeline never deletes and never rewrites history: through
    any run of the consumer loop, every product, warehouse and stock row
    that was committed is still there, every journal row is there
    unchanged, and every movement row is there with the product it had and
    with each half it had still filled (a complete movement stays
    complete). *)
Theorem committed_rows_persist `{PyLib}
    (polls : list (list (TopicPartition * list delivery))) (w : world) :
  extends (committed w) (committed (_consume_messages polls w)).
Proof.
  apply (consume_messages_invariant (extends (committed w)));
    [| apply extends_refl].
  intros d w' Hw'.
  destruct (wrapper_committed_applied d w') as [-> | (ev & _ & Hadm & ->)];
    [exact Hw' | exact (extends_applied _ _ _ Hadm Hw')].
Qed.
